(** * FDTD grid engine: a shallow embedding of [fdtd/grid.py] and
    [fdtd/sources.py]

    Python floats and float64 array entries are Rocq's primitive binary64
    floats; Python ints are [Z]; arrays are nested lists indexed
    [x][y][z][component]. A method that mutates its object returns the
    object after the mutation; an exception is a value of an error monad
    and ends the computation (the partly mutated state it would leave
    behind is not described). The back-reference [self.grid] of a
    collaborator is the grid handed to its methods: the grid whose list
    holds it. A list of collaborators holds the objects themselves: a
    LineSource carries its identity, and an assignment to the attributes
    of one shows at every entry of the list that is this object. *)

From Stdlib Require Import String ZArith List Bool Lia Floats.
Import ListNotations.
Local Open Scope Z_scope.

(** ** The fragment of the Python runtime the two modules rely on *)

Module Py.

Inductive exn : Set :=
| ValueError | TypeError | IndexError | KeyError
| ZeroDivisionError | OverflowError.

Inductive result (A : Type) : Type :=
| Ok (a : A)
| Raise (e : exn).
Arguments Ok {A} a.
Arguments Raise {A} e.

Definition bind {A B} (r : result A) (k : A -> result B) : result B :=
  match r with
  | Ok a => k a
  | Raise e => Raise e
  end.

(** [Number]: the values the source annotates as [Number], an [int] or a
    [float]. [isinstance(v, int)] is the [PyInt] test. *)
Inductive Number : Set :=
| PyInt (n : Z)
| PyFloat (f : float).

(** Correctly rounded conversion of an integer to binary64. *)
Definition Z2F (z : Z) : float :=
  SF2Prim (binary_normalize prec emax z 0 false).

(** [float(v)]: an int too large for a double raises OverflowError. *)
Definition float_ (v : Number) : result float :=
  match v with
  | PyFloat f => Ok f
  | PyInt n =>
      let f := Z2F n in
      if is_infinity f then Raise OverflowError else Ok f
  end.

(** [int(f)] on a float: truncation toward zero; ValueError on NaN,
    OverflowError on an infinity. *)
Definition int_of_float (f : float) : result Z :=
  match Prim2SF f with
  | S754_zero _ => Ok 0
  | S754_infinity _ => Raise OverflowError
  | S754_nan => Raise ValueError
  | S754_finite s m e =>
      let a := Z.shiftl (Z.pos m) e in
      Ok (if s then - a else a)
  end.

(** [int(v)] on a [Number]. *)
Definition int_ (v : Number) : result Z :=
  match v with
  | PyInt n => Ok n
  | PyFloat f => int_of_float f
  end.

(** The mathematical floor of a float (None on NaN and infinities):
    the reading of the word "floor" that round-half-up statements use. *)
Definition floor_of_float (f : float) : option Z :=
  match Prim2SF f with
  | S754_zero _ => Some 0
  | S754_infinity _ => None
  | S754_nan => None
  | S754_finite s m e =>
      Some (Z.shiftl (if s then Z.neg m else Z.pos m) e)
  end.

(** [a / b] on two Python floats. *)
Definition truediv (a b : float) : result float :=
  if PrimFloat.eqb b 0%float then Raise ZeroDivisionError
  else Ok (a / b)%float.

(** Modelled from the spec: what the platform's mathematics library and
    the array engine (the backend module is not among the sources) compute
    and IEEE 754 does not fix, taken as parameters: every result below
    holds for any choice. *)
Record Libm : Type := {
  libm_pow : float -> float -> float;     (* C pow behind float ** float *)
  libm_sin : float -> float;              (* C sin behind math.sin *)
  np_power : float -> float -> float;     (* elementwise array ** scalar *)
  np_exp : float -> float;                (* elementwise exp *)
  np_sum : list float -> float            (* array.sum() *)
}.

(** [x ** y] on Python floats, on the part of its domain the grid uses
    (a base among 0.0, 1.0, 2.0, 3.0 and the exponent -0.5): a zero base
    with a negative exponent raises ZeroDivisionError, base 1.0 gives 1.0
    without calling the library, anything else is the library's pow. *)
Definition float_pow (m : Libm) (x y : float) : result float :=
  if PrimFloat.eqb y 0%float then Ok 1%float
  else if PrimFloat.eqb x 0%float then
    if PrimFloat.ltb y 0%float then Raise ZeroDivisionError else Ok 0%float
  else if PrimFloat.eqb x 1%float then Ok 1%float
  else Ok (libm_pow m x y).

(** [math.sin]: ValueError (math domain error) on an infinity. *)
Definition math_sin (m : Libm) (x : float) : result float :=
  if is_infinity x then Raise ValueError else Ok (libm_sin m x).

(** [math.pi] *)
Definition pi : float := 0x1.921fb54442d18p+1%float.

End Py.
Export Py.

Declare Scope result_scope.
Delimit Scope result_scope with result.
Notation "x <- c ;; k" := (bind c (fun x => k))
  (at level 61, c at next level, right associativity) : result_scope.
Notation "' pat <- c ;; k" := (bind c (fun x => match x with pat => k end))
  (at level 61, pat pattern, c at next level, right associativity)
  : result_scope.
Local Open Scope result_scope.

(** ** The numeric array engine: dense float64 arrays as nested lists *)

Module Np.

Definition Tensor1 : Type := list float.
Definition Tensor3 : Type := list (list (list float)).
Definition Tensor4 : Type := list (list (list (list float))).

(** Elementwise combination of an array with an operand of the same
    length (the only case that occurs: operands are built from one
    shape). The left operand decides the length of the result. *)
Fixpoint zipw {A B : Type} (f : A -> B -> A) (l : list A) (d : list B)
  : list A :=
  match l, d with
  | a :: l', b :: d' => f a b :: zipw f l' d'
  | _, _ => l
  end.

Definition map4 (f : float -> float) (T : Tensor4) : Tensor4 :=
  map (map (map (map f))) T.
Definition zip3 (f : float -> float -> float) (A B : Tensor3) : Tensor3 :=
  zipw (zipw (zipw f)) A B.
Definition zip4 (f : float -> float -> float) (A B : Tensor4) : Tensor4 :=
  zipw (zipw (zipw (zipw f))) A B.

(** [full v (nx, ny, nz, 3)] *)
Definition full (v : float) (nx ny nz : nat) : Tensor4 :=
  repeat (repeat (repeat (repeat v 3) nz) ny) nx.

(** Modelled from the spec: the array engine's [zeros] and [ones] (the
    backend module is not among the sources), on the shape
    [(Nx, Ny, Nz, 3)] of Python ints, as NumPy allocates: a negative
    dimension is refused with ValueError, a dimension of size 0 gives an
    (empty) array. *)
Definition alloc (v : float) (Nx Ny Nz : Z) : result Tensor4 :=
  if (Nx <? 0) || (Ny <? 0) || (Nz <? 0) then Raise ValueError
  else Ok (full v (Z.to_nat Nx) (Z.to_nat Ny) (Z.to_nat Nz)).
Definition zeros : Z -> Z -> Z -> result Tensor4 := alloc 0%float.
Definition ones : Z -> Z -> Z -> result Tensor4 := alloc 1%float.

(** [zeros(T.shape)] *)
Definition zeros_like (T : Tensor4) : Tensor4 := map4 (fun _ => 0%float) T.

(** The three slices the curl operators use along one axis:
    [:], [1:] and [:-1]. A slice selects positions [lo <= i < hi]. *)
Inductive Slice : Set := All | From1 | ToLast.

Definition lo (s : Slice) : nat :=
  match s with From1 => 1%nat | _ => 0%nat end.
Definition hi (s : Slice) (n : nat) : nat :=
  match s with ToLast => (n - 1)%nat | _ => n end.

(** [l[s]] *)
Definition view {A : Type} (s : Slice) (l : list A) : list A :=
  firstn (hi s (length l) - lo s)%nat (skipn (lo s) l).

(** [l[s] = f(l[s], d)] written through the view, in place. *)
Definition on_view {A B : Type} (s : Slice) (f : A -> B -> A)
           (l : list A) (d : list B) : list A :=
  firstn (lo s) l ++ zipw f (view s l) d ++ skipn (hi s (length l)) l.

Fixpoint set_nth {A : Type} (c : nat) (v : A) (l : list A) : list A :=
  match l, c with
  | [], _ => []
  | _ :: l', O => v :: l'
  | a :: l', S c' => a :: set_nth c' v l'
  end.

(** [T[sx, sy, sz, c]]: a three-dimensional read of one component. *)
Definition slice4 (sx sy sz : Slice) (c : nat) (T : Tensor4) : Tensor3 :=
  map (fun P => map (fun R => map (fun cell => nth c cell 0%float)
                                  (view sz R))
                    (view sy P))
      (view sx T).

(** [T[sx, sy, sz, c] op= V] *)
Definition iop4 (op : float -> float -> float) (sx sy sz : Slice)
           (c : nat) (T : Tensor4) (V : Tensor3) : Tensor4 :=
  on_view sx
    (on_view sy
       (on_view sz
          (fun cell v => set_nth c (op (nth c cell 0%float) v) cell)))
    T V.

(** One integer index along an axis of length [n]: negative indices count
    from the end, anything outside [-n, n) is an IndexError. *)
Definition norm_index (n : nat) (i : Z) : result nat :=
  if (0 <=? i) && (i <? Z.of_nat n) then Ok (Z.to_nat i)
  else if (- Z.of_nat n <=? i) && (i <? 0) then Ok (Z.to_nat (i + Z.of_nat n))
  else Raise IndexError.

(** [T[x, y, z, c]] *)
Definition getitem (T : Tensor4) (x y z c : Z) : result float :=
  i <- norm_index (length T) x ;;
  let P := nth i T [] in
  j <- norm_index (length P) y ;;
  let R := nth j P [] in
  k <- norm_index (length R) z ;;
  let cell := nth k R [] in
  n <- norm_index (length cell) c ;;
  Ok (nth n cell 0%float).

(** [T[x, y, z, c] += v] *)
Definition iadd_item (T : Tensor4) (x y z c : Z) (v : float)
  : result Tensor4 :=
  i <- norm_index (length T) x ;;
  let P := nth i T [] in
  j <- norm_index (length P) y ;;
  let R := nth j P [] in
  k <- norm_index (length R) z ;;
  let cell := nth k R [] in
  n <- norm_index (length cell) c ;;
  let cell' := set_nth n (nth n cell 0%float + v)%float cell in
  Ok (set_nth i (set_nth j (set_nth k cell' R) P) T).

(** [T[xs, ys, zs, c]] with three index lists of one length: the
    one-dimensional array of the entries picked. An empty index list is
    refused (it is not of integer type), as is an index out of range. *)
Fixpoint gather (T : Tensor4) (xs ys zs : list Z) (c : Z)
  : result Tensor1 :=
  match xs, ys, zs with
  | x :: xs', y :: ys', z :: zs' =>
      v <- getitem T x y z c ;;
      vs <- gather T xs' ys' zs' c ;;
      Ok (v :: vs)
  | _, _, _ => Ok []
  end.
Definition fancy_index (T : Tensor4) (xs ys zs : list Z) (c : Z)
  : result Tensor1 :=
  match xs with
  | [] => Raise IndexError
  | _ => gather T xs ys zs c
  end.

(** Modelled from the spec: the array engine's conversion of a float64
    entry to its 64-bit int ([bd.array(..., bd.int)]): truncation toward
    zero (the minimal int64 when the entry is not finite). *)
Definition astype_int (f : float) : Z :=
  match int_of_float f with
  | Ok z => z
  | Raise _ => - 2 ^ 63
  end.

(** Modelled from the spec: the array engine's [linspace] with
    [endpoint=False] (the backend module is not among the sources):
    [num] evenly spaced points [start + i * (stop - start) / num],
    [i = 0 .. num - 1], computed in binary64 the way NumPy does
    ([i * step + start] with [step = delta / num], or
    [(i / num) * delta + start] when the step underflows to zero). *)
Definition linspace (start stop num : Z) : Tensor1 :=
  let s := Z2F start in
  let delta := (Z2F stop - s)%float in
  let div := Z2F num in
  let step := (delta / div)%float in
  map (fun i : nat =>
         let y := Z2F (Z.of_nat i) in
         ((if PrimFloat.eqb step 0%float then (y / div) * delta
           else y * step) + s)%float)
      (seq 0 (Z.to_nat num)).

(** [array.max()] of an array without NaN entries. *)
Definition amax (l : Tensor1) : float :=
  match l with
  | [] => nan
  | a :: l' => fold_left (fun u v => if PrimFloat.ltb u v then v else u) l' a
  end.

(** Well-shapedness: [T.shape == (nx, ny, nz, 3)]. *)
Definition has_shape3 (nx ny nz : nat) (V : Tensor3) : bool :=
  (length V =? nx)%nat &&
  forallb (fun P => (length P =? ny)%nat &&
                    forallb (fun R => (length R =? nz)%nat) P) V.
Definition has_shape (nx ny nz : nat) (T : Tensor4) : bool :=
  (length T =? nx)%nat &&
  forallb (fun P => (length P =? ny)%nat &&
     forallb (fun R => (length R =? nz)%nat &&
        forallb (fun cell => (length cell =? 3)%nat) R) P) T.

(** The same as a proposition on the entries. *)
Definition shape3P (nx ny nz : nat) (V : Tensor3) : Prop :=
  length V = nx /\
  forall i, (i < nx)%nat -> length (nth i V []) = ny /\
  forall j, (j < ny)%nat -> length (nth j (nth i V []) []) = nz.
Definition shape4P (nx ny nz : nat) (T : Tensor4) : Prop :=
  length T = nx /\
  forall i, (i < nx)%nat -> length (nth i T []) = ny /\
  forall j, (j < ny)%nat -> length (nth j (nth i T []) []) = nz /\
  forall k, (k < nz)%nat -> length (nth k (nth j (nth i T []) []) []) = 3%nat.

(** The length of [l[s]] for a list of length [n], and whether position
    [i] of the list is one the slice [s] selects. *)
Definition span (s : Slice) (n : nat) : nat :=
  match s with All => n | _ => (n - 1)%nat end.
Definition in_view (s : Slice) (n i : nat) : bool :=
  (lo s <=? i)%nat && (i <? hi s n)%nat.

(** Entry [T[i, j, k, c]] of a well-shaped array, for in-range naturals. *)
Definition get3 (V : Tensor3) (i j k : nat) : float :=
  nth k (nth j (nth i V []) []) 0%float.
Definition get4 (T : Tensor4) (i j k c : nat) : float :=
  nth c (nth k (nth j (nth i T []) []) []) 0%float.

End Np.
Export Np.

(** ** grid.py: the curl operators *)

Definition tsub (A B : Tensor3) : Tensor3 := zip3 PrimFloat.sub A B.
Definition iadd := iop4 PrimFloat.add.
Definition isub := iop4 PrimFloat.sub.

Definition curl_E (E : Tensor4) : Tensor4 :=
  let curl_E := zeros_like E in

  let curl_E := iadd All ToLast All 0 curl_E
                  (tsub (slice4 All From1 All 2 E) (slice4 All ToLast All 2 E)) in
  let curl_E := isub All All ToLast 0 curl_E
                  (tsub (slice4 All All From1 1 E) (slice4 All All ToLast 1 E)) in

  let curl_E := iadd All All ToLast 1 curl_E
                  (tsub (slice4 All All From1 0 E) (slice4 All All ToLast 0 E)) in
  let curl_E := isub ToLast All All 1 curl_E
                  (tsub (slice4 From1 All All 2 E) (slice4 ToLast All All 2 E)) in

  let curl_E := iadd ToLast All All 2 curl_E
                  (tsub (slice4 From1 All All 1 E) (slice4 ToLast All All 1 E)) in
  let curl_E := isub All ToLast All 2 curl_E
                  (tsub (slice4 All From1 All 0 E) (slice4 All ToLast All 0 E)) in
  curl_E.

Definition curl_H (H : Tensor4) : Tensor4 :=
  let curl_H := zeros_like H in

  let curl_H := iadd All From1 All 0 curl_H
                  (tsub (slice4 All From1 All 2 H) (slice4 All ToLast All 2 H)) in
  let curl_H := isub All All From1 0 curl_H
                  (tsub (slice4 All All From1 1 H) (slice4 All All ToLast 1 H)) in

  let curl_H := iadd All All From1 1 curl_H
                  (tsub (slice4 All All From1 0 H) (slice4 All All ToLast 0 H)) in
  let curl_H := isub From1 All All 1 curl_H
                  (tsub (slice4 From1 All All 2 H) (slice4 ToLast All All 2 H)) in

  let curl_H := iadd From1 All All 2 curl_H
                  (tsub (slice4 From1 All All 1 H) (slice4 ToLast All All 1 H)) in
  let curl_H := isub All From1 All 2 curl_H
                  (tsub (slice4 All From1 All 0 H) (slice4 All ToLast All 0 H)) in
  curl_H.

(** ** Index keys *)

(** One per-axis key of [grid[x, y, z] = ...]: a number, a list (or tuple)
    of numbers, or a slice whose bounds are numbers or None. *)
Inductive Key : Set :=
| KNum (v : Number)
| KSeq (l : list Number)
| KSlice (start stop step : option Number).

(** The whole subscript: a single key, or a tuple of keys. *)
Inductive Index : Set :=
| IKey (k : Key)
| ITuple (ks : list Key).

(** [ListOrSlice]: a resolved per-axis key, a list of ints or a slice of
    ints. [slice(None)] is [LSlice None None None]. *)
Inductive ListOrSlice : Set :=
| LList (l : list Z)
| LSlice (start stop step : option Z).

(** The [name] argument of the [add_*] methods. *)
Inductive Name : Set :=
| NameStr (s : string)
| NameInt (i : Z).

(** [l[name] = v] on a Python list: a str subscript is a TypeError, an int
    outside [-len, len) an IndexError. *)
Definition list_setitem {A : Type} (l : list A) (name : Name) (v : A)
  : result (list A) :=
  match name with
  | NameStr _ => Raise TypeError
  | NameInt i => n <- norm_index (length l) i ;; Ok (set_nth n v l)
  end.

Fixpoint mapM {A B : Type} (f : A -> result B) (l : list A)
  : result (list B) :=
  match l with
  | [] => Ok []
  | a :: l' => b <- f a ;; bs <- mapM f l' ;; Ok (b :: bs)
  end.

(** ** sources.py: the state of a LineSource *)

Module LineSource.

(** A LineSource object: its identity [ident] (what Python's [is]
    compares; two entries of a list with one identity are one object) and
    its attributes. [x], [y], [z], [vect] and [profile] are created by
    registration (they are empty here before it); the back-reference
    [grid] is the grid passed to each method. *)
Record t : Type := {
  ident : nat;
  period : Number;
  power : float;
  phase_shift : float;
  name : option string;
  x : list Z;
  y : list Z;
  z : list Z;
  vect : Tensor1;
  profile : Tensor1
}.

(** [self] is the object that the call [LineSource(...)] has allocated,
    given by its identity. *)
Definition __init__ (self : nat) (period : Number)
           (power phase_shift : float) (name : option string) : t :=
  {| ident := self;
     period := period; power := power; phase_shift := phase_shift;
     name := name; x := []; y := []; z := []; vect := []; profile := [] |}.

End LineSource.

(** ** grid.py: the Grid class *)

Definition SPEED_LIGHT : float := 299792458%float.

(** The names [hasattr(grid, name)] finds on every grid: the attributes
    assigned by [__init__], the methods and properties of the class, and
    what every Python object carries (as of CPython 3.10). *)
Definition Grid_class_attributes : list string :=
  ["grid_spacing"; "Nx"; "Ny"; "Nz"; "D"; "courant_number"; "timestep";
   "E"; "H"; "inverse_permittivity"; "inverse_permeability";
   "timesteps_passed"; "_sources"; "_boundaries"; "_detectors"; "_objects";
   "visualize"; "__init__"; "_handle_distance"; "_handle_time";
   "_handle_tuple"; "_handle_slice"; "_handle_single_key";
   "x"; "y"; "z"; "shape"; "time_passed"; "run"; "step"; "update_E";
   "update_H"; "reset"; "add_source"; "add_boundary"; "add_detector";
   "add_object"; "__setitem__"; "__str__";
   "__class__"; "__delattr__"; "__dict__"; "__dir__"; "__doc__"; "__eq__";
   "__format__"; "__ge__"; "__getattribute__"; "__gt__"; "__hash__";
   "__init_subclass__"; "__le__"; "__lt__"; "__module__"; "__ne__";
   "__new__"; "__reduce__"; "__reduce_ex__"; "__repr__"; "__setattr__";
   "__sizeof__"; "__subclasshook__"; "__weakref__"]%string.

Section Engine.

(** The classes of the collaborators are open: any type can play each
    part. *)
Context {Source Boundary Object Detector : Type}.

Record Grid : Type := {
  grid_spacing : float;
  Nx : Z;
  Ny : Z;
  Nz : Z;
  D : Z;
  courant_number : float;
  timestep : float;
  E : Tensor4;
  H : Tensor4;
  inverse_permittivity : Tensor4;
  inverse_permeability : Tensor4;
  timesteps_passed : Z;
  _sources : list Source;
  _boundaries : list Boundary;
  _detectors : list Detector;
  _objects : list Object;
  (* names bound on the grid by setattr *)
  named : list string
}.

(** The object before [__init__] has assigned anything. *)
Definition Grid_blank : Grid :=
  {| grid_spacing := 0; Nx := 0; Ny := 0; Nz := 0; D := 0;
     courant_number := 0; timestep := 0; E := []; H := [];
     inverse_permittivity := []; inverse_permeability := [];
     timesteps_passed := 0; _sources := []; _boundaries := [];
     _detectors := []; _objects := []; named := [] |}.

Definition set_grid_spacing (g : Grid) (v : float) : Grid :=
  {| grid_spacing := v; Nx := Nx g; Ny := Ny g; Nz := Nz g; D := D g;
     courant_number := courant_number g; timestep := timestep g;
     E := E g; H := H g;
     inverse_permittivity := inverse_permittivity g;
     inverse_permeability := inverse_permeability g;
     timesteps_passed := timesteps_passed g; _sources := _sources g;
     _boundaries := _boundaries g; _detectors := _detectors g;
     _objects := _objects g; named := named g |}.

Definition set_E (g : Grid) (v : Tensor4) : Grid :=
  {| grid_spacing := grid_spacing g; Nx := Nx g; Ny := Ny g; Nz := Nz g;
     D := D g; courant_number := courant_number g; timestep := timestep g;
     E := v; H := H g;
     inverse_permittivity := inverse_permittivity g;
     inverse_permeability := inverse_permeability g;
     timesteps_passed := timesteps_passed g; _sources := _sources g;
     _boundaries := _boundaries g; _detectors := _detectors g;
     _objects := _objects g; named := named g |}.

Definition set_H (g : Grid) (v : Tensor4) : Grid :=
  {| grid_spacing := grid_spacing g; Nx := Nx g; Ny := Ny g; Nz := Nz g;
     D := D g; courant_number := courant_number g; timestep := timestep g;
     E := E g; H := v;
     inverse_permittivity := inverse_permittivity g;
     inverse_permeability := inverse_permeability g;
     timesteps_passed := timesteps_passed g; _sources := _sources g;
     _boundaries := _boundaries g; _detectors := _detectors g;
     _objects := _objects g; named := named g |}.

Definition set_timesteps_passed (g : Grid) (v : Z) : Grid :=
  {| grid_spacing := grid_spacing g; Nx := Nx g; Ny := Ny g; Nz := Nz g;
     D := D g; courant_number := courant_number g; timestep := timestep g;
     E := E g; H := H g;
     inverse_permittivity := inverse_permittivity g;
     inverse_permeability := inverse_permeability g;
     timesteps_passed := v; _sources := _sources g;
     _boundaries := _boundaries g; _detectors := _detectors g;
     _objects := _objects g; named := named g |}.

Definition set__sources (g : Grid) (v : list Source) : Grid :=
  {| grid_spacing := grid_spacing g; Nx := Nx g; Ny := Ny g; Nz := Nz g;
     D := D g; courant_number := courant_number g; timestep := timestep g;
     E := E g; H := H g;
     inverse_permittivity := inverse_permittivity g;
     inverse_permeability := inverse_permeability g;
     timesteps_passed := timesteps_passed g; _sources := v;
     _boundaries := _boundaries g; _detectors := _detectors g;
     _objects := _objects g; named := named g |}.

Definition set__boundaries (g : Grid) (v : list Boundary) : Grid :=
  {| grid_spacing := grid_spacing g; Nx := Nx g; Ny := Ny g; Nz := Nz g;
     D := D g; courant_number := courant_number g; timestep := timestep g;
     E := E g; H := H g;
     inverse_permittivity := inverse_permittivity g;
     inverse_permeability := inverse_permeability g;
     timesteps_passed := timesteps_passed g; _sources := _sources g;
     _boundaries := v; _detectors := _detectors g;
     _objects := _objects g; named := named g |}.

Definition set__detectors (g : Grid) (v : list Detector) : Grid :=
  {| grid_spacing := grid_spacing g; Nx := Nx g; Ny := Ny g; Nz := Nz g;
     D := D g; courant_number := courant_number g; timestep := timestep g;
     E := E g; H := H g;
     inverse_permittivity := inverse_permittivity g;
     inverse_permeability := inverse_permeability g;
     timesteps_passed := timesteps_passed g; _sources := _sources g;
     _boundaries := _boundaries g; _detectors := v;
     _objects := _objects g; named := named g |}.

Definition set__objects (g : Grid) (v : list Object) : Grid :=
  {| grid_spacing := grid_spacing g; Nx := Nx g; Ny := Ny g; Nz := Nz g;
     D := D g; courant_number := courant_number g; timestep := timestep g;
     E := E g; H := H g;
     inverse_permittivity := inverse_permittivity g;
     inverse_permeability := inverse_permeability g;
     timesteps_passed := timesteps_passed g; _sources := _sources g;
     _boundaries := _boundaries g; _detectors := _detectors g;
     _objects := v; named := named g |}.

Definition set_named (g : Grid) (v : list string) : Grid :=
  {| grid_spacing := grid_spacing g; Nx := Nx g; Ny := Ny g; Nz := Nz g;
     D := D g; courant_number := courant_number g; timestep := timestep g;
     E := E g; H := H g;
     inverse_permittivity := inverse_permittivity g;
     inverse_permeability := inverse_permeability g;
     timesteps_passed := timesteps_passed g; _sources := _sources g;
     _boundaries := _boundaries g; _detectors := _detectors g;
     _objects := _objects g; named := v |}.

(** [hasattr(grid, name)] *)
Definition hasattr (g : Grid) (name : string) : bool :=
  existsb (String.eqb name) Grid_class_attributes
  || existsb (String.eqb name) (named g).

(** transform a distance to an integer number of gridpoints *)
Definition Grid__handle_distance (self : Grid) (distance : Number)
  : result Z :=
  match distance with
  | PyInt n => Ok n
  | PyFloat _ =>
      d <- float_ distance ;;
      q <- truediv d (grid_spacing self) ;;
      int_of_float (q + 0.5)
  end.

(** transform a time value to an integer number of timesteps *)
Definition Grid__handle_time (self : Grid) (time : Number) : result Z :=
  match time with
  | PyInt n => Ok n
  | PyFloat _ =>
      t <- float_ time ;;
      q <- truediv t (timestep self) ;;
      int_of_float (q + 0.5)
  end.

(** validate the grid shape and transform to a length-3 tuple of ints *)
Definition Grid__handle_tuple (self : Grid) (shape : list Number)
  : result (Z * Z * Z) :=
  match shape with
  | [x; y; z] =>
      x <- Grid__handle_distance self x ;;
      y <- Grid__handle_distance self y ;;
      z <- Grid__handle_distance self z ;;
      Ok (x, y, z)
  | _ => Raise ValueError
  end.

(** One bound of a slice: a float is resolved as a distance, an int or
    None is kept. *)
Definition handle_bound (self : Grid) (b : option Number)
  : result (option Z) :=
  match b with
  | Some (PyFloat f) =>
      d <- Grid__handle_distance self (PyFloat f) ;; Ok (Some d)
  | Some (PyInt n) => Ok (Some n)
  | None => Ok None
  end.

(** validate the slice and transform possibly float values to ints *)
Definition Grid__handle_slice (self : Grid) (start stop step : option Number)
  : result ListOrSlice :=
  start <- handle_bound self start ;;
  stop <- handle_bound self stop ;;
  step <- handle_bound self step ;;
  Ok (LSlice start stop step).

(** transform a single index key to a slice or list. No call made on a
    list of numbers raises TypeError, so the handler of the try block is
    reached only for keys without a length. *)
Definition Grid__handle_single_key (self : Grid) (key : Key)
  : result ListOrSlice :=
  match key with
  | KSeq l =>
      r <- mapM (Grid__handle_distance self) l ;; Ok (LList r)
  | KSlice start stop step => Grid__handle_slice self start stop step
  | KNum v =>
      d <- Grid__handle_distance self v ;; Ok (LList [d])
  end.

(** [int(n > 1)] *)
Definition int_gt1 (n : Z) : Z := if 1 <? n then 1 else 0.

Definition Grid___init__ (m : Libm) (shape : list Number)
           (grid_spacing permittivity permeability : Number)
           (courant_number : option Number) : result Grid :=
  (* save the grid spacing *)
  gs <- float_ grid_spacing ;;
  let self := set_grid_spacing Grid_blank gs in
  (* save grid shape as integers *)
  '(nx, ny, nz) <- Grid__handle_tuple self shape ;;
  (* dimension of the simulation *)
  let d := int_gt1 nx + int_gt1 ny + int_gt1 nz in
  (* courant number of the simulation (optimal value) *)
  cn <- match courant_number with
        | None =>
            p <- float_pow m (Z2F d) (-0.5) ;;
            Ok (PyFloat (p * 0x1.fae147ae147aep-1)) (* 0.99 *)
        | Some c => Ok c
        end ;;
  cn <- float_ cn ;;
  (* timestep of the simulation *)
  let ts := (cn * gs / SPEED_LIGHT)%float in
  (* save electric and magnetic field *)
  e <- zeros nx ny nz ;;
  h <- zeros nx ny nz ;;
  (* save the inverse of the relative permittiviy and permeability *)
  o <- ones nx ny nz ;;
  pe <- float_ permittivity ;;
  let ipe := map4 (fun v => v / pe)%float o in
  o <- ones nx ny nz ;;
  pm <- float_ permeability ;;
  let ipm := map4 (fun v => v / pm)%float o in
  Ok {| grid_spacing := gs; Nx := nx; Ny := ny; Nz := nz; D := d;
        courant_number := cn; timestep := ts; E := e; H := h;
        inverse_permittivity := ipe; inverse_permeability := ipm;
        (* save current time index *)
        timesteps_passed := 0;
        _sources := []; _boundaries := []; _detectors := [];
        _objects := []; named := [] |}.

(** get the shape of the FDTD grid *)
Definition Grid_shape (self : Grid) : Z * Z * Z :=
  (Nx self, Ny self, Nz self).

(** get the total time passed *)
Definition Grid_time_passed (self : Grid) : float :=
  (Z2F (timesteps_passed self) * timestep self)%float.

(** The methods the grid calls on its collaborators, one interface per
    kind. A method receives the grid it is registered in and returns the
    grid after its mutations; [_register_grid] gets the arguments [x],
    [y], [z] when the caller passes them and returns the collaborator
    after its own mutations too. *)
Class SourceClass : Type := {
  source__register_grid :
    Source -> Grid -> option ListOrSlice -> option ListOrSlice ->
    option ListOrSlice -> result (Source * Grid);
  source_update_E : Source -> Grid -> result Grid;
  source_update_H : Source -> Grid -> result Grid
}.

Class BoundaryClass : Type := {
  boundary__register_grid :
    Boundary -> Grid -> option ListOrSlice -> option ListOrSlice ->
    option ListOrSlice -> result (Boundary * Grid);
  boundary_update_phi_E : Boundary -> Grid -> result Grid;
  boundary_update_phi_H : Boundary -> Grid -> result Grid;
  boundary_update_E : Boundary -> Grid -> result Grid;
  boundary_update_H : Boundary -> Grid -> result Grid
}.

Class ObjectClass : Type := {
  object__register_grid :
    Object -> Grid -> option ListOrSlice -> option ListOrSlice ->
    option ListOrSlice -> result (Object * Grid);
  object_update_E : Object -> Tensor4 -> Grid -> result Grid;
  object_update_H : Object -> Tensor4 -> Grid -> result Grid
}.

Class DetectorClass : Type := {
  detector__register_grid :
    Detector -> Grid -> option ListOrSlice -> option ListOrSlice ->
    option ListOrSlice -> result (Detector * Grid);
  detector_detect_E : Detector -> Grid -> result Grid;
  detector_detect_H : Detector -> Grid -> result Grid
}.

Context {sources : SourceClass} {boundaries : BoundaryClass}
        {objects : ObjectClass} {detectors : DetectorClass}.

(** [for c in cs: c.method()], over the list as it is when the loop
    starts. *)
Fixpoint foreach {A : Type} (cs : list A) (method : A -> Grid -> result Grid)
         (g : Grid) : result Grid :=
  match cs with
  | [] => Ok g
  | c :: cs' => g' <- method c g ;; foreach cs' method g'
  end.

(** update the electric field by using the curl of the magnetic field *)
Definition Grid_update_E (self : Grid) : result Grid :=
  (* update boundaries: step 1 *)
  self <- foreach (_boundaries self) boundary_update_phi_E self ;;
  let curl := curl_H (H self) in
  let self :=
    set_E self
      (zip4 PrimFloat.add (E self)
         (zip4 PrimFloat.mul
            (map4 (PrimFloat.mul (courant_number self))
                  (inverse_permittivity self))
            curl)) in
  (* update objects *)
  self <- foreach (_objects self) (fun obj => object_update_E obj curl) self ;;
  (* update boundaries: step 2 *)
  self <- foreach (_boundaries self) boundary_update_E self ;;
  (* add sources to grid *)
  self <- foreach (_sources self) source_update_E self ;;
  (* detect electric field *)
  foreach (_detectors self) detector_detect_E self.

(** update the magnetic field by using the curl of the electric field *)
Definition Grid_update_H (self : Grid) : result Grid :=
  (* update boundaries: step 1 *)
  self <- foreach (_boundaries self) boundary_update_phi_H self ;;
  let curl := curl_E (E self) in
  let self :=
    set_H self
      (zip4 PrimFloat.sub (H self)
         (zip4 PrimFloat.mul
            (map4 (PrimFloat.mul (courant_number self))
                  (inverse_permeability self))
            curl)) in
  (* update objects *)
  self <- foreach (_objects self) (fun obj => object_update_H obj curl) self ;;
  (* update boundaries: step 2 *)
  self <- foreach (_boundaries self) boundary_update_H self ;;
  (* add sources to grid *)
  self <- foreach (_sources self) source_update_H self ;;
  (* detect electric field *)
  foreach (_detectors self) detector_detect_H self.

(** do a single FDTD step by first updating the electric field and then
    updating the magnetic field *)
Definition Grid_step (self : Grid) : result Grid :=
  self <- Grid_update_E self ;;
  self <- Grid_update_H self ;;
  Ok (set_timesteps_passed self (timesteps_passed self + 1)).

(** [for _ in range(0, n, 1): self.step()] *)
Fixpoint steps (n : nat) (self : Grid) : result Grid :=
  match n with
  | O => Ok self
  | S n' => self <- Grid_step self ;; steps n' self
  end.

(** The number of iterations of the loop of [run]: [int(total_time)]
    after a float [total_time] was divided by the timestep. *)
Definition run_count (self : Grid) (total_time : Number) : result Z :=
  total_time <- match total_time with
                | PyFloat f =>
                    q <- truediv f (timestep self) ;; Ok (PyFloat q)
                | PyInt n => Ok (PyInt n)
                end ;;
  int_ total_time.

(** run an FDTD simulation. The progress bar only wraps the range. *)
Definition Grid_run (self : Grid) (total_time : Number)
           (progress_bar : bool) : result Grid :=
  n <- run_count self total_time ;;
  steps (Z.to_nat n) self.

(** reset the grid by setting all fields to zero *)
Definition Grid_reset (self : Grid) : Grid :=
  let self := set_H self (map4 (fun v => v * 0)%float (H self)) in
  let self := set_E self (map4 (fun v => v * 0)%float (E self)) in
  set_timesteps_passed self (timesteps_passed self * 0).

(** add a source to the grid *)
Definition Grid_add_source (self : Grid) (name : Name) (source : Source)
  : result Grid :=
  '(source, self) <- source__register_grid source self None None None ;;
  l <- list_setitem (_sources self) name source ;;
  Ok (set__sources self l).

(** add a boundary to the grid *)
Definition Grid_add_boundary (self : Grid) (name : Name)
           (boundary : Boundary) : result Grid :=
  '(boundary, self) <-
    boundary__register_grid boundary self None None None ;;
  l <- list_setitem (_boundaries self) name boundary ;;
  Ok (set__boundaries self l).

(** add a detector to the grid *)
Definition Grid_add_detector (self : Grid) (name : Name)
           (detector : Detector) : result Grid :=
  '(detector, self) <-
    detector__register_grid detector self None None None ;;
  l <- list_setitem (_detectors self) name detector ;;
  Ok (set__detectors self l).

(** add an object to the grid *)
Definition Grid_add_object (self : Grid) (name : Name) (obj : Object)
  : result Grid :=
  '(obj, self) <- object__register_grid obj self None None None ;;
  l <- list_setitem (_objects self) name obj ;;
  Ok (set__objects self l).

(** [slice(None)] *)
Definition slice_None : Key := KSlice None None None.

(** [grid[key] = attr], for an [attr] of any class [A] whose
    [_register_grid] is given. *)
Definition Grid___setitem__ {A : Type}
           (_register_grid : A -> Grid -> option ListOrSlice ->
                             option ListOrSlice -> option ListOrSlice ->
                             result (A * Grid))
           (self : Grid) (key : Index) (attr : A) : result (A * Grid) :=
  '(x, y, z) <- match key with
                | IKey k => Ok (k, slice_None, slice_None)
                | ITuple [k0] => Ok (k0, slice_None, slice_None)
                | ITuple [k0; k1] => Ok (k0, k1, slice_None)
                | ITuple [k0; k1; k2] => Ok (k0, k1, k2)
                | ITuple _ => Raise KeyError
                end ;;
  x <- Grid__handle_single_key self x ;;
  y <- Grid__handle_single_key self y ;;
  z <- Grid__handle_single_key self z ;;
  _register_grid attr self (Some x) (Some y) (Some z).

End Engine.

Arguments Grid : clear implicits.
Arguments SourceClass : clear implicits.
Arguments BoundaryClass : clear implicits.
Arguments ObjectClass : clear implicits.
Arguments DetectorClass : clear implicits.

(** ** sources.py: the methods of LineSource *)

Section LineSourceMethods.

Context {Boundary Object Detector : Type}.
Variable m : Libm.

Let LGrid : Type := Grid LineSource.t Boundary Object Detector.

(** [x = slice(x[0], x[-1], None)] for a list [x]; a slice is kept. *)
Definition list_to_slice (k : ListOrSlice)
  : result (option Z * option Z) :=
  match k with
  | LList [] => Raise IndexError
  | LList (a :: l) => Ok (Some a, Some (last l a))
  | LSlice start stop _ => Ok (start, stop)
  end.

(** [abs(x1 - x0)]: the subtraction is a TypeError on None. *)
Definition abs_diff (x1 x0 : option Z) : result Z :=
  match x1, x0 with
  | Some b, Some a => Ok (Z.abs (b - a))
  | _, _ => Raise TypeError
  end.

(** Convert slices in the grid to lists *)
Definition LineSource__handle_slices (x y z : ListOrSlice)
  : result (list Z * list Z * list Z) :=
  match x, y, z with
  | LList lx, LList ly, LList lz =>
      (* if list-indices were chosen *)
      if negb (length lx =? length ly)%nat
         || negb (length ly =? length lz)%nat
         || negb (length lz =? length lx)%nat
      then Raise IndexError
      else Ok (lx, ly, lz)
  | _, _, _ =>
      (* a combination of list-indices and slices: convert the
         list-indices to slices *)
      '(x0, x1) <- list_to_slice x ;;
      '(y0, y1) <- list_to_slice y ;;
      '(z0, z1) <- list_to_slice z ;;
      (* convert the slices into index lists *)
      dx <- abs_diff x1 x0 ;;
      dy <- abs_diff y1 y0 ;;
      dz <- abs_diff z1 z0 ;;
      let m := Z.max (Z.max dx dy) dz in
      match x0, x1, y0, y1, z0, z1 with
      | Some x0, Some x1, Some y0, Some y1, Some z0, Some z1 =>
          Ok (map astype_int (linspace x0 x1 m),
              map astype_int (linspace y0 y1 m),
              map astype_int (linspace z0 z1 m))
      | _, _, _, _, _, _ => Raise TypeError
      end
  end.

(** [l[i]] on a Python list, for [0 <= i]. *)
Definition list_getitem (l : list Z) (i : nat) : result Z :=
  match nth_error l i with
  | Some v => Ok v
  | None => Raise IndexError
  end.

(** [a is b] on two LineSource objects. *)
Definition same_object (a b : LineSource.t) : bool :=
  (LineSource.ident a =? LineSource.ident b)%nat.

(** A list of LineSource objects once the attributes of the object [self]
    have been assigned: every entry that is this object shows them. *)
Definition reassigned (self : LineSource.t) (l : list LineSource.t)
  : list LineSource.t :=
  map (fun s => if same_object s self then self else s) l.

(** Register a grid for the source. Called without [x], [y] or [z] it
    is a TypeError: the three parameters have no default. *)
Definition LineSource__register_grid (self : LineSource.t) (grid : LGrid)
           (x y z : option ListOrSlice) : result (LineSource.t * LGrid) :=
  match x, y, z with
  | Some x, Some y, Some z =>
      (* self.grid = grid; self.grid._sources.append(self): the list
         holds the object, whose attributes are assigned below; the
         entries of the list that already were this object show the
         assignments too *)
      names <- match LineSource.name self with
               | Some name =>
                   if negb (hasattr grid name) then Ok (named grid ++ [name])
                   else Raise ValueError
               | None => Ok (named grid)
               end ;;
      '(xs, ys, zs) <- LineSource__handle_slices x y z ;;
      period <- Grid__handle_time grid (LineSource.period self) ;;
      ip <- fancy_index (inverse_permittivity grid) xs ys zs 2 ;;
      let amplitude :=
        map (fun v => np_power m (LineSource.power self * v) 0.5)%float ip in
      let L := length xs in
      xm <- list_getitem xs (L / 2)%nat ;;
      ym <- list_getitem ys (L / 2)%nat ;;
      zm <- list_getitem zs (L / 2)%nat ;;
      let sq (l : list Z) (c : Z) := map (fun v => (v - c) ^ 2) l in
      let vect :=
        map Z2F (zipw Z.add (zipw Z.add (sq xs xm) (sq ys ym)) (sq zs zm)) in
      let width := (2 * np_power m (0.5 * amax vect) 2)%float in
      let profile :=
        map (fun v => np_exp m (- np_power m v 2 / width))%float vect in
      let total := np_sum m profile in
      let profile := map (fun p => p / total)%float profile in
      let profile := zipw PrimFloat.mul profile amplitude in
      let self :=
        {| LineSource.ident := LineSource.ident self;
           LineSource.period := PyInt period;
           LineSource.power := LineSource.power self;
           LineSource.phase_shift := LineSource.phase_shift self;
           LineSource.name := LineSource.name self;
           LineSource.x := xs; LineSource.y := ys; LineSource.z := zs;
           LineSource.vect := vect; LineSource.profile := profile |} in
      Ok (self,
          set__sources (set_named grid names)
                       (reassigned self (_sources grid) ++ [self]))
  | _, _, _ => Raise TypeError
  end.

(** [for x, y, z, value in zip(xs, ys, zs, vect): E[x, y, z, 2] += value] *)
Fixpoint inject (E : Tensor4) (xs ys zs : list Z) (vect : Tensor1)
  : result Tensor4 :=
  match xs, ys, zs, vect with
  | x :: xs', y :: ys', z :: zs', value :: vect' =>
      E <- iadd_item E x y z 2 value ;;
      inject E xs' ys' zs' vect'
  | _, _, _, _ => Ok E
  end.

(** Add the source to the electric field *)
Definition LineSource_update_E (self : LineSource.t) (grid : LGrid)
  : result LGrid :=
  let q := timesteps_passed grid in
  q <- float_ (PyInt q) ;;
  period <- float_ (LineSource.period self) ;;
  a <- truediv (2 * pi * q) period ;;
  s <- math_sin m (a + LineSource.phase_shift self) ;;
  let vect := map (fun p => p * s)%float (LineSource.profile self) in
  E <- inject (E grid) (LineSource.x self) (LineSource.y self)
              (LineSource.z self) vect ;;
  Ok (set_E grid E).

(** Add the source to the magnetic field *)
Definition LineSource_update_H (self : LineSource.t) (grid : LGrid)
  : result LGrid :=
  Ok grid.

#[export] Instance LineSource_class
  : SourceClass LineSource.t Boundary Object Detector :=
  {| source__register_grid := LineSource__register_grid;
     source_update_E := LineSource_update_E;
     source_update_H := LineSource_update_H |}.

End LineSourceMethods.

(** ** Vocabulary of the statements *)

(** An accumulation into a zero-initialised entry that happens only where
    the slice written reaches: [a op v] if [b], else [a] as it was. *)
Definition acc (b : bool) (op : float -> float -> float) (a v : float)
  : float :=
  if b then op a v else a.

(** Whether the point [(x, y, z)] of a footprint is the cell [(i, j, k)] of
    an array of shape [(nx, ny, nz, 3)], negative indices counting from
    the end. *)
Definition hit (nx ny nz : nat) (x y z : Z) (i j k : nat) : bool :=
  match norm_index nx x, norm_index ny y, norm_index nz z with
  | Ok a, Ok b, Ok c => (a =? i)%nat && (b =? j)%nat && (c =? k)%nat
  | _, _, _ => false
  end.

(** What the injection loop leaves in the entry [(i, j, k, 2)] that held
    [e]: one addition per point of the footprint that is this cell. *)
Fixpoint injected (nx ny nz : nat) (xs ys zs : list Z) (vect : Tensor1)
         (i j k : nat) (e : float) : float :=
  match xs, ys, zs, vect with
  | x :: xs', y :: ys', z :: zs', v :: vect' =>
      injected nx ny nz xs' ys' zs' vect' i j k
               (if hit nx ny nz x y z i j k then (e + v)%float else e)
  | _, _, _, _ => e
  end.

(** Whether some point of the footprint is the cell [(i, j, k)]. *)
Fixpoint touches (nx ny nz : nat) (xs ys zs : list Z) (i j k : nat) : bool :=
  match xs, ys, zs with
  | x :: xs', y :: ys', z :: zs' =>
      hit nx ny nz x y z i j k || touches nx ny nz xs' ys' zs' i j k
  | _, _, _ => false
  end.

Local Open Scope nat_scope.

(** The entries of the two curls of [F] at the cell [(i, j, k)], as the
    differences of entries of [F] that were accumulated there. *)
Definition curl_entries_at (nx ny nz : nat) (F : Tensor4) (i j k : nat)
  : Prop :=
  let f := get4 F in
  get4 (curl_E F) i j k 0 =
    acc (k + 1 <? nz)%nat PrimFloat.sub
      (acc (j + 1 <? ny)%nat PrimFloat.add 0 (f i (j + 1) k 2 - f i j k 2))
      (f i j (k + 1) 1 - f i j k 1)
  /\
  get4 (curl_E F) i j k 1 =
    acc (i + 1 <? nx)%nat PrimFloat.sub
      (acc (k + 1 <? nz)%nat PrimFloat.add 0 (f i j (k + 1) 0 - f i j k 0))
      (f (i + 1) j k 2 - f i j k 2)
  /\
  get4 (curl_E F) i j k 2 =
    acc (j + 1 <? ny)%nat PrimFloat.sub
      (acc (i + 1 <? nx)%nat PrimFloat.add 0 (f (i + 1) j k 1 - f i j k 1))
      (f i (j + 1) k 0 - f i j k 0)
  /\
  get4 (curl_H F) i j k 0 =
    acc (1 <=? k)%nat PrimFloat.sub
      (acc (1 <=? j)%nat PrimFloat.add 0 (f i j k 2 - f i (j - 1) k 2))
      (f i j k 1 - f i j (k - 1) 1)
  /\
  get4 (curl_H F) i j k 1 =
    acc (1 <=? i)%nat PrimFloat.sub
      (acc (1 <=? k)%nat PrimFloat.add 0 (f i j k 0 - f i j (k - 1) 0))
      (f i j k 2 - f (i - 1) j k 2)
  /\
  get4 (curl_H F) i j k 2 =
    acc (1 <=? j)%nat PrimFloat.sub
      (acc (1 <=? i)%nat PrimFloat.add 0 (f i j k 1 - f (i - 1) j k 1))
      (f i j k 0 - f i (j - 1) k 0).

Local Close Scope nat_scope.

(** A field array of shape (2, 3, 2, 3) with distinct entries. *)
Definition sample_field : Tensor4 :=
  map (fun i =>
    map (fun j =>
      map (fun k =>
        map (fun c =>
               Z2F (Z.of_nat (7 * i * i + 3 * j * j * j + 5 * k * k
                              + 11 * c * c + i * j * k * c)))
            (seq 0 3))
        (seq 0 2))
      (seq 0 3))
    (seq 0 2).

(** A grid program without collaborator classes of some kind: the class
    is the empty type. *)
#[export] Instance no_sources {B O Dt : Type}
  : SourceClass Empty_set B O Dt :=
  {| source__register_grid := fun s : Empty_set => match s with end;
     source_update_E := fun s : Empty_set => match s with end;
     source_update_H := fun s : Empty_set => match s with end |}.

#[export] Instance no_boundaries {S O Dt : Type}
  : BoundaryClass S Empty_set O Dt :=
  {| boundary__register_grid := fun b : Empty_set => match b with end;
     boundary_update_phi_E := fun b : Empty_set => match b with end;
     boundary_update_phi_H := fun b : Empty_set => match b with end;
     boundary_update_E := fun b : Empty_set => match b with end;
     boundary_update_H := fun b : Empty_set => match b with end |}.

#[export] Instance no_objects {S B Dt : Type}
  : ObjectClass S B Empty_set Dt :=
  {| object__register_grid := fun o : Empty_set => match o with end;
     object_update_E := fun o : Empty_set => match o with end;
     object_update_H := fun o : Empty_set => match o with end |}.

#[export] Instance no_detectors {S B O : Type}
  : DetectorClass S B O Empty_set :=
  {| detector__register_grid := fun d : Empty_set => match d with end;
     detector_detect_E := fun d : Empty_set => match d with end;
     detector_detect_H := fun d : Empty_set => match d with end |}.

(** The grids of the concrete runs below: no collaborator classes at all,
    or LineSource as the only one. *)
Definition BareGrid : Type := Grid Empty_set Empty_set Empty_set Empty_set.
Definition SourceGrid : Type := Grid LineSource.t Empty_set Empty_set Empty_set.

(** A sample platform for the concrete runs (the theorems hold for every
    [Libm], a run needs one): [pow(x, -0.5)] as [1 / sqrt(x)], [sin] and
    [exp] by the first terms of their series, [x ** 2] as [x * x],
    [x ** 0.5] as [sqrt(x)], the sum from left to right. *)
Definition sample_libm : Libm :=
  {| libm_pow := fun x y => (1 / sqrt x)%float;
     libm_sin := fun x => (x - x * x * x / 6)%float;
     np_power := fun x y => if PrimFloat.eqb y 2 then (x * x)%float else sqrt x;
     np_exp := fun x => (1 + x + x * x / 2)%float;
     np_sum := fun l => fold_left PrimFloat.add l 0%float |}.

(** ** Vocabulary of the statements about grids *)

(** A grid with no registered collaborators. *)
Definition no_collaborators {S B O Dt : Type} (g : Grid S B O Dt) : Prop :=
  _sources g = [] /\ _boundaries g = [] /\ _objects g = [] /\
  _detectors g = [].

(** The four arrays of a grid all have the shape (nx, ny, nz, 3). *)
Definition well_shaped {S B O Dt : Type} (nx ny nz : nat)
           (g : Grid S B O Dt) : bool :=
  has_shape nx ny nz (E g) && has_shape nx ny nz (H g)
  && has_shape nx ny nz (inverse_permittivity g)
  && has_shape nx ny nz (inverse_permeability g).

(** The two field assignments shared by every [update_E] and [update_H]:
    [self.E += self.courant_number * self.inverse_permittivity * curl_H(self.H)]
    and
    [self.H -= self.courant_number * self.inverse_permeability * curl_E(self.E)]. *)
Definition core_update_E {S B O Dt : Type} (g : Grid S B O Dt)
  : Grid S B O Dt :=
  set_E g (zip4 PrimFloat.add (E g)
             (zip4 PrimFloat.mul
                (map4 (PrimFloat.mul (courant_number g))
                      (inverse_permittivity g))
                (curl_H (H g)))).
Definition core_update_H {S B O Dt : Type} (g : Grid S B O Dt)
  : Grid S B O Dt :=
  set_H g (zip4 PrimFloat.sub (H g)
             (zip4 PrimFloat.mul
                (map4 (PrimFloat.mul (courant_number g))
                      (inverse_permeability g))
                (curl_E (E g)))).

(** The state [g'] one leapfrog step after [g], entry by entry: E advanced
    with the curl of the old H, H advanced with the curl of the new E, the
    counter one higher. *)
Definition leapfrog_post {S B O Dt : Type} (nx ny nz : nat)
           (g g' : Grid S B O Dt) : Prop :=
  (forall i j k c,
      (i < nx)%nat -> (j < ny)%nat -> (k < nz)%nat -> (c < 3)%nat ->
      get4 (E g') i j k c =
        (get4 (E g) i j k c
         + courant_number g * get4 (inverse_permittivity g) i j k c
           * get4 (curl_H (H g)) i j k c)%float) /\
  (forall i j k c,
      (i < nx)%nat -> (j < ny)%nat -> (k < nz)%nat -> (c < 3)%nat ->
      get4 (H g') i j k c =
        (get4 (H g) i j k c
         - courant_number g * get4 (inverse_permeability g) i j k c
           * get4 (curl_E (E g')) i j k c)%float) /\
  timesteps_passed g' = timesteps_passed g + 1.

(** A grid in the middle of a simulation, without collaborators. *)
Definition sample_grid : BareGrid :=
  {| grid_spacing := 1; Nx := 2; Ny := 3; Nz := 2; D := 3;
     courant_number := 0.5; timestep := 0.25;
     E := sample_field; H := map4 (fun v => v * v)%float sample_field;
     inverse_permittivity := full 1 2 3 2;
     inverse_permeability := full 0.5 2 3 2;
     timesteps_passed := 7; _sources := []; _boundaries := [];
     _detectors := []; _objects := []; named := [] |}.

(** The grid [__init__] returns once its arguments are resolved to a
    spacing, three sizes, a Courant number and the two material
    constants. *)
Definition fresh_grid {S B O Dt : Type} (gs : float) (nx ny nz : Z)
           (cn pe pm : float) : Grid S B O Dt :=
  {| grid_spacing := gs; Nx := nx; Ny := ny; Nz := nz;
     D := int_gt1 nx + int_gt1 ny + int_gt1 nz;
     courant_number := cn; timestep := (cn * gs / SPEED_LIGHT)%float;
     E := full 0 (Z.to_nat nx) (Z.to_nat ny) (Z.to_nat nz);
     H := full 0 (Z.to_nat nx) (Z.to_nat ny) (Z.to_nat nz);
     inverse_permittivity :=
       full (1 / pe) (Z.to_nat nx) (Z.to_nat ny) (Z.to_nat nz);
     inverse_permeability :=
       full (1 / pm) (Z.to_nat nx) (Z.to_nat ny) (Z.to_nat nz);
     timesteps_passed := 0; _sources := []; _boundaries := [];
     _detectors := []; _objects := []; named := [] |}.

(** [float(D) ** (-0.5) * 0.99], and the Courant number [__init__] stores
    for a given argument. *)
Definition default_courant (m : Libm) (d : Z) : result float :=
  p <- float_pow m (Z2F d) (-0.5) ;; Ok (p * 0x1.fae147ae147aep-1)%float.
Definition resolve_courant (m : Libm) (d : Z) (cn : option Number)
  : result float :=
  match cn with
  | None => default_courant m d
  | Some c => float_ c
  end.

(** Every product [courant_number * inverse_permittivity] and
    [courant_number * inverse_permeability] of the grid is a finite
    float. *)
Definition all_entries (p : float -> bool) (T : Tensor4) : bool :=
  forallb (forallb (forallb (forallb p))) T.
Definition finite_coefficients {S B O Dt : Type} (g : Grid S B O Dt) : bool :=
  all_entries (fun v => is_finite (courant_number g * v))
              (inverse_permittivity g)
  && all_entries (fun v => is_finite (courant_number g * v))
                 (inverse_permeability g).

(** [Grid((2, 2, 2), permittivity=0.0, courant_number=0.5)] *)
Definition zero_permittivity_grid : BareGrid :=
  fresh_grid 0x1.ad7f29abcaf48p-26 2 2 2 0.5 0 1.

(** [Grid((0, 5, 5), courant_number=0.5)] *)
Definition empty_axis_grid : BareGrid :=
  fresh_grid 0x1.ad7f29abcaf48p-26 0 5 5 0.5 1 1.

(** [Grid((2, 2, 2), grid_spacing=1.0, courant_number=0.5)] *)
Definition unit_grid : BareGrid := fresh_grid 1 2 2 2 0.5 1 1.

(** [Grid((2, 2, 2), grid_spacing=299792458.0, courant_number=1.0)]: its
    timestep is 1.0 second. *)
Definition unit_time_grid : BareGrid := fresh_grid 299792458 2 2 2 1 1 1.

(** A collaborator method that leaves [timesteps_passed] alone. *)
Definition counter_kept {S B O Dt : Type}
           (f : Grid S B O Dt -> result (Grid S B O Dt)) : Prop :=
  forall g g', f g = Ok g' -> timesteps_passed g' = timesteps_passed g.

Section CollaboratorContracts.

Context {S B O Dt : Type}.
Context {sources : SourceClass S B O Dt} {boundaries : BoundaryClass S B O Dt}
        {objects : ObjectClass S B O Dt} {detectors : DetectorClass S B O Dt}.

(** No method a step calls on a collaborator touches the step counter. *)
Definition collaborators_keep_counter : Prop :=
  (forall s, counter_kept (source_update_E s)) /\
  (forall s, counter_kept (source_update_H s)) /\
  (forall b, counter_kept (boundary_update_phi_E b)) /\
  (forall b, counter_kept (boundary_update_phi_H b)) /\
  (forall b, counter_kept (boundary_update_E b)) /\
  (forall b, counter_kept (boundary_update_H b)) /\
  (forall o curl, counter_kept (object_update_E o curl)) /\
  (forall o curl, counter_kept (object_update_H o curl)) /\
  (forall d, counter_kept (detector_detect_E d)) /\
  (forall d, counter_kept (detector_detect_H d)).

End CollaboratorContracts.

(** ** Vocabulary of the statements about line sources *)

Definition is_slice (k : ListOrSlice) : bool :=
  match k with LSlice _ _ _ => true | LList _ => false end.

(** [m = max(abs(x1 - x0), abs(y1 - y0), abs(z1 - z0))] *)
Definition line_length (x0 x1 y0 y1 z0 z1 : Z) : Z :=
  Z.max (Z.max (Z.abs (x1 - x0)) (Z.abs (y1 - y0))) (Z.abs (z1 - z0)).

(** What holds of a source [self] registered on the line from
    [(x0, y0, z0)] to [(x1, y1, z1)] of a grid whose arrays have the shape
    (nx, ny, nz, 3). Its footprint is the [m] truncated points of the
    three linspaces, each of them a cell of the grid, and its profile has
    [m] values. [update_E] on a grid [g] with a field of that shape
    returns whenever the step counter and the period convert to floats,
    the period is not zero and the argument of the sine is not infinite;
    it changes [g] in [E] only, where it adds, point by point of the
    footprint, the value [profile[p] * sin(2 * pi * q / period +
    phase_shift)] to component 2 of that point's cell: the entry
    [(i, j, k, 2)] receives one addition per point that is the cell
    [(i, j, k)], and every other entry keeps its value. [update_H] changes
    nothing. *)
Definition line_footprint_post {B O Dt : Type} (m : Libm)
           (x0 x1 y0 y1 z0 z1 : Z) (nx ny nz : nat) (self : LineSource.t)
  : Prop :=
  let n := line_length x0 x1 y0 y1 z0 z1 in
  let xs := LineSource.x self in
  let ys := LineSource.y self in
  let zs := LineSource.z self in
  let profile := LineSource.profile self in
  (xs = map astype_int (linspace x0 x1 n) /\
   ys = map astype_int (linspace y0 y1 n) /\
   zs = map astype_int (linspace z0 z1 n)) /\
  (length xs = Z.to_nat n /\ length ys = Z.to_nat n /\
   length zs = Z.to_nat n /\ length profile = Z.to_nat n) /\
  (forall p, (p < Z.to_nat n)%nat ->
     exists i j k, (i < nx)%nat /\ (j < ny)%nat /\ (k < nz)%nat /\
       hit nx ny nz (nth p xs 0) (nth p ys 0) (nth p zs 0) i j k = true) /\
  (exists period : Z, LineSource.period self = PyInt period) /\
  (forall (g : Grid LineSource.t B O Dt) (period : Z),
      LineSource.period self = PyInt period ->
      has_shape nx ny nz (E g) = true ->
      let q := Z2F (timesteps_passed g) in
      let arg := (2 * pi * q / Z2F period + LineSource.phase_shift self)%float in
      is_infinity q = false ->
      is_infinity (Z2F period) = false ->
      PrimFloat.eqb (Z2F period) 0 = false ->
      is_infinity arg = false ->
      exists E' : Tensor4,
        LineSource_update_E m self g = Ok (set_E g E') /\
        has_shape nx ny nz E' = true /\
        forall i j k c,
          (i < nx)%nat -> (j < ny)%nat -> (k < nz)%nat -> (c < 3)%nat ->
          get4 E' i j k c =
            (if (c =? 2)%nat
             then injected nx ny nz xs ys zs
                    (map (fun v => v * libm_sin m arg)%float profile)
                    i j k (get4 (E g) i j k 2)
             else get4 (E g) i j k c) /\
          (c <> 2%nat \/ touches nx ny nz xs ys zs i j k = false ->
           get4 E' i j k c = get4 (E g) i j k c)) /\
  (forall g g' : Grid LineSource.t B O Dt,
      LineSource_update_E m self g = Ok g' -> g' = set_E g (E g')) /\
  (forall g : Grid LineSource.t B O Dt, LineSource_update_H self g = Ok g).

(** [grid = Grid((12, 2, 1), courant_number=0.5)],
    [source = LineSource(period=15, name="source")] and the subscript of
    [grid[0:10, 0, 0] = source]. *)
Definition line_grid : SourceGrid :=
  fresh_grid 0x1.ad7f29abcaf48p-26 12 2 1 0.5 1 1.
Definition line_source : LineSource.t :=
  LineSource.__init__ 1 (PyInt 15) 1 0 (Some "source"%string).
Definition line_key : Index :=
  ITuple [KSlice (Some (PyInt 0)) (Some (PyInt 10)) None;
          KNum (PyInt 0); KNum (PyInt 0)].

(** The source and the grid after [grid[0:10, 0, 0] = source] on the
    sample platform. *)
Definition line_attached : LineSource.t * SourceGrid :=
  Eval vm_compute in
    match Grid___setitem__ (LineSource__register_grid sample_libm)
            line_grid line_key line_source with
    | Ok p => p
    | Raise _ => (line_source, line_grid)
    end.

(** [update_E] up to its loop over the sources: the first loop over the
    boundaries, the assignment to [E], the loop over the objects and the
    second loop over the boundaries. *)
Definition Grid_update_E_before_sources {S B O Dt : Type}
           {boundaries : BoundaryClass S B O Dt}
           {objects : ObjectClass S B O Dt}
           (self : Grid S B O Dt) : result (Grid S B O Dt) :=
  (* update boundaries: step 1 *)
  self <- foreach (_boundaries self) boundary_update_phi_E self ;;
  let curl := curl_H (H self) in
  let self :=
    set_E self
      (zip4 PrimFloat.add (E self)
         (zip4 PrimFloat.mul
            (map4 (PrimFloat.mul (courant_number self))
                  (inverse_permittivity self))
            curl)) in
  (* update objects *)
  self <- foreach (_objects self) (fun obj => object_update_E obj curl) self ;;
  (* update boundaries: step 2 *)
  foreach (_boundaries self) boundary_update_E self.


(** ** Vocabulary of the further properties *)

(** The array of shape (nx, ny, nz, 3) whose every cell holds the same
    vector [(a, b, c)]. *)
Definition uniform_field (a b c : float) (nx ny nz : nat) : Tensor4 :=
  repeat (repeat (repeat [a; b; c] nz) ny) nx.

(** A key that [_handle_single_key] has resolved, written as a key
    again: a list of ints, or a slice with int or None bounds. *)
Definition key_of_resolved (r : ListOrSlice) : Key :=
  match r with
  | LList l => KSeq (map PyInt l)
  | LSlice start stop step =>
      KSlice (option_map PyInt start) (option_map PyInt stop)
             (option_map PyInt step)
  end.

(** A slice whose [start] or [stop] is None. *)
Definition has_open_bound (k : ListOrSlice) : bool :=
  match k with
  | LSlice None _ _ => true
  | LSlice _ None _ => true
  | _ => false
  end.

(** [not isinstance(v, int)] on a number. *)
Definition is_PyFloat (v : Number) : bool :=
  match v with PyFloat _ => true | PyInt _ => false end.

(** The unit grid with every entry of E set to NaN. *)
Definition nan_grid : BareGrid :=
  set_E (fresh_grid 1 2 2 2 0.5 1 1) (full nan 2 2 2).

(** [g'] has the spacing, the Courant number, the timestep and the
    material arrays of [g]. *)
Definition same_setup {S B O Dt : Type} (g g' : Grid S B O Dt) : Prop :=
  grid_spacing g' = grid_spacing g /\ courant_number g' = courant_number g /\
  timestep g' = timestep g /\
  inverse_permittivity g' = inverse_permittivity g /\
  inverse_permeability g' = inverse_permeability g.

(** An index of fewer than three axes: a single key, or a tuple of one or
    two keys. *)
Definition few_keys (key : Index) : bool :=
  match key with
  | IKey _ => true
  | ITuple [_] => true
  | ITuple [_; _] => true
  | ITuple _ => false
  end.

(** The source and the grid after
    [grid[[1, 2, 4], [0, 1, 0], [0, 0, -1]] = LineSource(period=0)] on the
    sample platform. *)
Definition list_attached : LineSource.t * SourceGrid :=
  Eval vm_compute in
    match Grid___setitem__ (LineSource__register_grid sample_libm)
            line_grid
            (ITuple [KSeq [PyInt 1; PyInt 2; PyInt 4];
                     KSeq [PyInt 0; PyInt 1; PyInt 0];
                     KSeq [PyInt 0; PyInt 0; PyInt (-1)]])
            (LineSource.__init__ 2 (PyInt 0) 1 0 None) with
    | Ok p => p
    | Raise _ => (line_source, line_grid)
    end.

(** The same source and its grid after it was attached a second time,
    [grid[0:3, 1, 0] = source]. *)
Definition twice_attached : LineSource.t * SourceGrid :=
  Eval vm_compute in
    match Grid___setitem__ (LineSource__register_grid sample_libm)
            (snd list_attached)
            (ITuple [KSlice (Some (PyInt 0)) (Some (PyInt 3)) None;
                     KNum (PyInt 1); KNum (PyInt 0)])
            (fst list_attached) with
    | Ok p => p
    | Raise _ => list_attached
    end.

(** * Properties *)

(** ** Lists and arrays *)

Local Open Scope nat_scope.

Section ListFacts.
Context {A B : Type}.
Implicit Types (l : list A) (d : list B).

Lemma zipw_length (f : A -> B -> A) l d : length (zipw f l d) = length l.
Proof.
  revert d; induction l as [|a l IH]; intros [|b d]; simpl; auto.
Qed.

Lemma nth_zipw (f : A -> B -> A) l d i da db :
  (i < length l)%nat -> (i < length d)%nat ->
  nth i (zipw f l d) da = f (nth i l da) (nth i d db).
Proof.
  revert d i; induction l as [|a l IH]; intros [|b d] [|i]; simpl; intros; try lia; auto.
  apply IH; lia.
Qed.

Lemma span_spec s n : span s n = (hi s n - lo s)%nat.
Proof. destruct s; simpl; lia. Qed.

Lemma view_length s l : length (view s l) = span s (length l).
Proof.
  unfold view. rewrite length_firstn, length_skipn. destruct s; simpl; lia.
Qed.

Lemma nth_view s l i da :
  (i < span s (length l))%nat -> nth i (view s l) da = nth (i + lo s) l da.
Proof.
  intros Hi. unfold view. rewrite span_spec in Hi.
  rewrite nth_firstn.
  assert (Hlt : (i <? hi s (length l) - lo s)%nat = true) by (apply Nat.ltb_lt; lia).
  rewrite Hlt. rewrite nth_skipn. f_equal. lia.
Qed.

Lemma on_view_length s (f : A -> B -> A) l d :
  length (on_view s f l d) = length l.
Proof.
  unfold on_view. rewrite !length_app, zipw_length, view_length, length_firstn, length_skipn.
  destruct s; unfold lo, hi, span; lia.
Qed.

Lemma nth_on_view s (f : A -> B -> A) l d i da db :
  length d = span s (length l) -> (i < length l)%nat ->
  nth i (on_view s f l d) da =
  if in_view s (length l) i then f (nth i l da) (nth (i - lo s) d db)
  else nth i l da.
Proof.
  intros Hd Hi. unfold on_view, in_view.
  destruct (Nat.leb_spec (lo s) i) as [Hlo|Hlo]; simpl.
  - rewrite app_nth2 by (rewrite length_firstn; lia).
  rewrite length_firstn, Nat.min_l by (destruct s; simpl in *; lia).
  destruct (Nat.ltb_spec i (hi s (length l))) as [Hhi|Hhi].
  + rewrite app_nth1 by (rewrite zipw_length, view_length, span_spec; lia).
    rewrite (nth_zipw f _ _ _ da db).
    * rewrite nth_view by (rewrite span_spec; lia). do 2 f_equal. lia.
    * rewrite view_length, span_spec; lia.
    * rewrite Hd, span_spec; lia.
  + rewrite app_nth2 by (rewrite zipw_length, view_length, span_spec; lia).
    rewrite zipw_length, view_length, span_spec, nth_skipn. f_equal.
    destruct s; simpl in *; lia.
  - rewrite app_nth1 by (rewrite length_firstn; lia).
  rewrite nth_firstn.
  assert (Hlt : (i <? lo s)%nat = true) by (apply Nat.ltb_lt; lia).
  now rewrite Hlt.
Qed.

Lemma set_nth_length c (v : A) l : length (set_nth c v l) = length l.
Proof. revert c; induction l as [|a l IH]; intros [|c]; simpl; auto. Qed.

Lemma nth_set_nth c c' (v : A) l da :
  (c < length l)%nat ->
  nth c' (set_nth c v l) da = if (c' =? c)%nat then v else nth c' l da.
Proof.
  revert c c'; induction l as [|a l IH]; intros [|c] [|c']; simpl; intros; try lia; auto.
  apply IH; lia.
Qed.

Lemma nth_map_in (g : A -> B) l i da db :
  (i < length l)%nat -> nth i (map g l) db = g (nth i l da).
Proof.
  intros Hi. rewrite (nth_indep _ db (g da)) by (rewrite length_map; lia).
  apply map_nth.
Qed.

End ListFacts.

Lemma in_view_span s n i :
  in_view s n i = true -> (i - lo s < span s n)%nat /\ (i < n)%nat /\ (i - lo s + lo s = i)%nat.
Proof.
  unfold in_view. rewrite andb_true_iff, Nat.leb_le, Nat.ltb_lt.
  destruct s; simpl; lia.
Qed.

Lemma has_shape3_P nx ny nz V : has_shape3 nx ny nz V = true -> shape3P nx ny nz V.
Proof.
  unfold has_shape3, shape3P. rewrite andb_true_iff, Nat.eqb_eq, forallb_forall.
  intros [Hn HV]. split; [exact Hn|]. intros i Hi.
  specialize (HV (nth i V [])). rewrite andb_true_iff, Nat.eqb_eq, forallb_forall in HV.
  destruct HV as [Hy HP]; [apply nth_In; lia|]. split; [exact Hy|]. intros j Hj.
  apply Nat.eqb_eq, HP, nth_In. lia.
Qed.

Lemma has_shape_P nx ny nz T : has_shape nx ny nz T = true -> shape4P nx ny nz T.
Proof.
  unfold has_shape, shape4P. rewrite andb_true_iff, Nat.eqb_eq, forallb_forall.
  intros [Hn HT]. split; [exact Hn|]. intros i Hi.
  specialize (HT (nth i T [])). rewrite andb_true_iff, Nat.eqb_eq, forallb_forall in HT.
  destruct HT as [Hy HP]; [apply nth_In; lia|]. split; [exact Hy|]. intros j Hj.
  specialize (HP (nth j (nth i T []) [])).
  rewrite andb_true_iff, Nat.eqb_eq, forallb_forall in HP.
  destruct HP as [Hz HR]; [apply nth_In; lia|]. split; [exact Hz|]. intros k Hk.
  apply Nat.eqb_eq, HR, nth_In. lia.
Qed.

Lemma shape4P_has_shape nx ny nz T :
  shape4P nx ny nz T -> has_shape nx ny nz T = true.
Proof.
  intros [Hn HT]. unfold has_shape.
  apply andb_true_iff. split; [now apply Nat.eqb_eq|].
  apply forallb_forall. intros P HP.
  destruct (In_nth _ _ [] HP) as (i & Hi & <-). rewrite Hn in Hi.
  destruct (HT _ Hi) as [Hy HPi].
  apply andb_true_iff. split; [now apply Nat.eqb_eq|].
  apply forallb_forall. intros R HR.
  destruct (In_nth _ _ [] HR) as (j & Hj & <-). rewrite Hy in Hj.
  destruct (HPi _ Hj) as [Hz HRj].
  apply andb_true_iff. split; [now apply Nat.eqb_eq|].
  apply forallb_forall. intros cell Hcell.
  destruct (In_nth _ _ [] Hcell) as (k & Hk & <-). rewrite Hz in Hk.
  apply Nat.eqb_eq. now apply HRj.
Qed.

Lemma shape_slice4 nx ny nz T sx sy sz c :
  shape4P nx ny nz T ->
  shape3P (span sx nx) (span sy ny) (span sz nz) (slice4 sx sy sz c T).
Proof.
  intros [Hn HT]. unfold slice4. split.
  - now rewrite length_map, view_length, Hn.
  - intros i Hi.
    rewrite (nth_map_in _ _ _ [] []) by (rewrite view_length, Hn; exact Hi).
    rewrite nth_view by (rewrite Hn; exact Hi).
    assert (Hi' : (i + lo sx < nx)%nat) by (destruct sx; simpl in *; lia).
    destruct (HT _ Hi') as [Hy HP]. split.
    + now rewrite length_map, view_length, Hy.
    + intros j Hj.
      rewrite (nth_map_in _ _ _ [] []) by (rewrite view_length, Hy; exact Hj).
      rewrite nth_view by (rewrite Hy; exact Hj).
      assert (Hj' : (j + lo sy < ny)%nat) by (destruct sy; simpl in *; lia).
      destruct (HP _ Hj') as [Hz _].
      now rewrite length_map, view_length, Hz.
Qed.

Lemma get_slice4 nx ny nz T sx sy sz c i j k :
  shape4P nx ny nz T ->
  (i < span sx nx)%nat -> (j < span sy ny)%nat -> (k < span sz nz)%nat ->
  get3 (slice4 sx sy sz c T) i j k =
  get4 T (i + lo sx) (j + lo sy) (k + lo sz) c.
Proof.
  intros [Hn HT] Hi Hj Hk. unfold get3, get4, slice4.
  rewrite (nth_map_in _ _ _ [] []) by (rewrite view_length, Hn; exact Hi).
  rewrite nth_view by (rewrite Hn; exact Hi).
  assert (Hi' : (i + lo sx < nx)%nat) by (destruct sx; simpl in *; lia).
  destruct (HT _ Hi') as [Hy HP].
  rewrite (nth_map_in _ _ _ [] []) by (rewrite view_length, Hy; exact Hj).
  rewrite nth_view by (rewrite Hy; exact Hj).
  assert (Hj' : (j + lo sy < ny)%nat) by (destruct sy; simpl in *; lia).
  destruct (HP _ Hj') as [Hz _].
  rewrite (nth_map_in _ _ _ [] 0%float) by (rewrite view_length, Hz; exact Hk).
  now rewrite nth_view by (rewrite Hz; exact Hk).
Qed.

Lemma shape_zip3 nx ny nz f A B :
  shape3P nx ny nz A -> shape3P nx ny nz B -> shape3P nx ny nz (zip3 f A B).
Proof.
  intros [HA HA'] [HB HB']. unfold zip3. split.
  - now rewrite zipw_length.
  - intros i Hi. destruct (HA' _ Hi) as [HAy HAz], (HB' _ Hi) as [HBy HBz].
    rewrite (nth_zipw _ _ _ _ [] []) by lia. split.
    + now rewrite zipw_length.
    + intros j Hj. rewrite (nth_zipw _ _ _ _ [] []) by lia.
      rewrite zipw_length. now apply HAz.
Qed.

Lemma get_zip3 nx ny nz f A B i j k :
  shape3P nx ny nz A -> shape3P nx ny nz B ->
  (i < nx)%nat -> (j < ny)%nat -> (k < nz)%nat ->
  get3 (zip3 f A B) i j k = f (get3 A i j k) (get3 B i j k).
Proof.
  intros [HA HA'] [HB HB'] Hi Hj Hk. unfold zip3, get3.
  destruct (HA' _ Hi) as [HAy HAz], (HB' _ Hi) as [HBy HBz].
  rewrite (nth_zipw _ _ _ _ [] []) by lia.
  rewrite (nth_zipw _ _ _ _ [] []) by lia.
  apply nth_zipw; [rewrite HAz | rewrite HBz]; lia.
Qed.

Lemma shape_iop4 nx ny nz op sx sy sz c T V :
  shape4P nx ny nz T ->
  shape3P (span sx nx) (span sy ny) (span sz nz) V ->
  shape4P nx ny nz (iop4 op sx sy sz c T V).
Proof.
  intros [Hn HT] [Hm HV]. unfold iop4. split.
  - now rewrite on_view_length.
  - intros i Hi. destruct (HT _ Hi) as [Hy HP].
    rewrite (nth_on_view _ _ _ _ _ [] []) by (rewrite ?Hn, ?Hm; auto).
    destruct (in_view sx (length T) i) eqn:Hin; [|split; [exact Hy|exact HP]].
    rewrite Hn in Hin. apply in_view_span in Hin. destruct Hin as (Hi2 & _ & _).
    destruct (HV _ Hi2) as [HVy HVP].
    split; [now rewrite on_view_length|].
    intros j Hj. destruct (HP _ Hj) as [Hz HR].
    rewrite (nth_on_view _ _ _ _ _ [] []) by (rewrite ?Hy, ?HVy; auto).
    destruct (in_view sy (length (nth i T [])) j) eqn:Hjn; [|split; [exact Hz|exact HR]].
    rewrite Hy in Hjn. apply in_view_span in Hjn. destruct Hjn as (Hj2 & _ & _).
    specialize (HVP _ Hj2).
    split; [now rewrite on_view_length|].
    intros k Hk.
    rewrite (nth_on_view _ _ _ _ _ [] 0%float) by (rewrite ?Hz, ?HVP; auto).
    destruct (in_view sz _ k); [rewrite set_nth_length|]; now apply HR.
Qed.

Lemma get_iop4 nx ny nz op sx sy sz c T V i j k c' :
  shape4P nx ny nz T ->
  shape3P (span sx nx) (span sy ny) (span sz nz) V ->
  (i < nx)%nat -> (j < ny)%nat -> (k < nz)%nat -> (c < 3)%nat ->
  get4 (iop4 op sx sy sz c T V) i j k c' =
  if in_view sx nx i && in_view sy ny j && in_view sz nz k && (c' =? c)%nat
  then op (get4 T i j k c) (get3 V (i - lo sx) (j - lo sy) (k - lo sz))
  else get4 T i j k c'.
Proof.
  intros [Hn HT] [Hm HV] Hi Hj Hk Hc. unfold iop4, get4, get3.
  destruct (HT _ Hi) as [Hy HP]. destruct (HP _ Hj) as [Hz HR].
  rewrite (nth_on_view _ _ _ _ _ [] []) by (rewrite ?Hn, ?Hm; auto).
  rewrite Hn.
  destruct (in_view sx nx i) eqn:Hin; [|reflexivity].
  apply in_view_span in Hin. destruct Hin as (Hi2 & _ & _).
  destruct (HV _ Hi2) as [HVy HVP].
  rewrite (nth_on_view _ _ _ _ _ [] []) by (rewrite ?Hy, ?HVy; auto).
  rewrite Hy.
  destruct (in_view sy ny j) eqn:Hjn; [|reflexivity].
  apply in_view_span in Hjn. destruct Hjn as (Hj2 & _ & _).
  specialize (HVP _ Hj2).
  rewrite (nth_on_view _ _ _ _ _ [] 0%float) by (rewrite ?Hz, ?HVP; auto).
  rewrite Hz.
  destruct (in_view sz nz k) eqn:Hkn; [|reflexivity].
  simpl. rewrite nth_set_nth by (rewrite HR; auto).
  reflexivity.
Qed.

Lemma shape_zeros_like nx ny nz T :
  shape4P nx ny nz T -> shape4P nx ny nz (zeros_like T).
Proof.
  intros [Hn HT]. unfold zeros_like, map4. split; [now rewrite length_map|].
  intros i Hi. destruct (HT _ Hi) as [Hy HP].
  rewrite (nth_map_in _ _ _ [] []) by lia.
  split; [now rewrite length_map|].
  intros j Hj. destruct (HP _ Hj) as [Hz HR].
  rewrite (nth_map_in _ _ _ [] []) by lia.
  split; [now rewrite length_map|].
  intros k Hk. rewrite (nth_map_in _ _ _ [] []) by lia.
  rewrite length_map. now apply HR.
Qed.

Lemma get_map4 nx ny nz f T i j k c :
  shape4P nx ny nz T ->
  (i < nx)%nat -> (j < ny)%nat -> (k < nz)%nat -> (c < 3)%nat ->
  get4 (map4 f T) i j k c = f (get4 T i j k c).
Proof.
  intros [Hn HT] Hi Hj Hk Hc. unfold map4, get4.
  destruct (HT _ Hi) as [Hy HP]. destruct (HP _ Hj) as [Hz HR].
  rewrite (nth_map_in _ _ _ [] []) by lia.
  rewrite (nth_map_in _ _ _ [] []) by lia.
  rewrite (nth_map_in _ _ _ [] []) by lia.
  apply nth_map_in. rewrite HR; auto.
Qed.

Lemma in_view_All n i : (i < n)%nat -> in_view All n i = true.
Proof. intros. unfold in_view; simpl. apply Nat.ltb_lt; lia. Qed.

Lemma in_view_ToLast n i : in_view ToLast n i = (i + 1 <? n)%nat.
Proof.
  unfold in_view; simpl.
  destruct (Nat.ltb_spec i (n - 1)), (Nat.ltb_spec (i + 1) n); auto; lia.
Qed.

Lemma in_view_From1 n i : (i < n)%nat -> in_view From1 n i = (1 <=? i)%nat.
Proof.
  intros. unfold in_view; simpl.
  destruct i; simpl; auto. apply Nat.ltb_lt; lia.
Qed.

Lemma get_zeros_like nx ny nz T i j k c :
  shape4P nx ny nz T ->
  (i < nx)%nat -> (j < ny)%nat -> (k < nz)%nat -> (c < 3)%nat ->
  get4 (zeros_like T) i j k c = 0%float.
Proof. intros. unfold zeros_like. now rewrite (get_map4 nx ny nz). Qed.

(** One line of a curl operator:
    [T[sx, sy, sz, c] op= F[a.., cf] - F[b.., cf]]. *)
Lemma get_curl_line nx ny nz op sx sy sz c T F a1 a2 a3 b1 b2 b3 cf i j k c' :
  shape4P nx ny nz T -> shape4P nx ny nz F ->
  span a1 nx = span sx nx -> span a2 ny = span sy ny -> span a3 nz = span sz nz ->
  span b1 nx = span sx nx -> span b2 ny = span sy ny -> span b3 nz = span sz nz ->
  (i < nx)%nat -> (j < ny)%nat -> (k < nz)%nat -> (c < 3)%nat ->
  get4 (iop4 op sx sy sz c T
          (tsub (slice4 a1 a2 a3 cf F) (slice4 b1 b2 b3 cf F))) i j k c' =
  if in_view sx nx i && in_view sy ny j && in_view sz nz k && (c' =? c)%nat
  then op (get4 T i j k c)
          (get4 F (i - lo sx + lo a1) (j - lo sy + lo a2) (k - lo sz + lo a3) cf
           - get4 F (i - lo sx + lo b1) (j - lo sy + lo b2) (k - lo sz + lo b3) cf)%float
  else get4 T i j k c'.
Proof.
  intros HT HF E1 E2 E3 E4 E5 E6 Hi Hj Hk Hc.
  assert (HA := shape_slice4 nx ny nz F a1 a2 a3 cf HF).
  assert (HB := shape_slice4 nx ny nz F b1 b2 b3 cf HF).
  rewrite E1, E2, E3 in HA. rewrite E4, E5, E6 in HB.
  rewrite (get_iop4 nx ny nz); auto; [|now apply shape_zip3].
  destruct (in_view sx nx i) eqn:Hx; [|reflexivity].
  destruct (in_view sy ny j) eqn:Hy; [|reflexivity].
  destruct (in_view sz nz k) eqn:Hz; [|reflexivity].
  destruct (c' =? c)%nat; [|reflexivity]. simpl.
  apply in_view_span in Hx, Hy, Hz.
  unfold tsub.
  rewrite (get_zip3 (span sx nx) (span sy ny) (span sz nz)); auto; try tauto.
  rewrite (get_slice4 nx ny nz), (get_slice4 nx ny nz); auto;
    rewrite ?E1, ?E2, ?E3, ?E4, ?E5, ?E6; tauto.
Qed.

Lemma shape_curl_line nx ny nz op sx sy sz c T F a1 a2 a3 b1 b2 b3 cf :
  shape4P nx ny nz T -> shape4P nx ny nz F ->
  span a1 nx = span sx nx -> span a2 ny = span sy ny -> span a3 nz = span sz nz ->
  span b1 nx = span sx nx -> span b2 ny = span sy ny -> span b3 nz = span sz nz ->
  shape4P nx ny nz
    (iop4 op sx sy sz c T (tsub (slice4 a1 a2 a3 cf F) (slice4 b1 b2 b3 cf F))).
Proof.
  intros HT HF E1 E2 E3 E4 E5 E6.
  assert (HA := shape_slice4 nx ny nz F a1 a2 a3 cf HF).
  assert (HB := shape_slice4 nx ny nz F b1 b2 b3 cf HF).
  rewrite E1, E2, E3 in HA. rewrite E4, E5, E6 in HB.
  apply shape_iop4; [exact HT|now apply shape_zip3].
Qed.

Lemma shape_map4 nx ny nz f T :
  shape4P nx ny nz T -> shape4P nx ny nz (map4 f T).
Proof.
  intros [Hn HT]. unfold map4. split; [now rewrite length_map|].
  intros i Hi. destruct (HT _ Hi) as [Hy HP].
  rewrite (nth_map_in _ _ _ [] []) by lia.
  split; [now rewrite length_map|].
  intros j Hj. destruct (HP _ Hj) as [Hz HR].
  rewrite (nth_map_in _ _ _ [] []) by lia.
  split; [now rewrite length_map|].
  intros k Hk. rewrite (nth_map_in _ _ _ [] []) by lia.
  rewrite length_map. now apply HR.
Qed.

Lemma shape_zip4 nx ny nz f A B :
  shape4P nx ny nz A -> shape4P nx ny nz B -> shape4P nx ny nz (zip4 f A B).
Proof.
  intros [HA HA'] [HB HB']. unfold zip4. split; [now rewrite zipw_length|].
  intros i Hi. destruct (HA' _ Hi) as [HAy HAP], (HB' _ Hi) as [HBy HBP].
  rewrite (nth_zipw _ _ _ _ [] []) by lia.
  split; [now rewrite zipw_length|].
  intros j Hj. destruct (HAP _ Hj) as [HAz HAR], (HBP _ Hj) as [HBz HBR].
  rewrite (nth_zipw _ _ _ _ [] []) by lia.
  split; [now rewrite zipw_length|].
  intros k Hk. rewrite (nth_zipw _ _ _ _ [] []) by lia.
  rewrite zipw_length. now apply HAR.
Qed.

Lemma get_zip4 nx ny nz f A B i j k c :
  shape4P nx ny nz A -> shape4P nx ny nz B ->
  (i < nx)%nat -> (j < ny)%nat -> (k < nz)%nat -> (c < 3)%nat ->
  get4 (zip4 f A B) i j k c = f (get4 A i j k c) (get4 B i j k c).
Proof.
  intros [HA HA'] [HB HB'] Hi Hj Hk Hc. unfold zip4, get4.
  destruct (HA' _ Hi) as [HAy HAP], (HB' _ Hi) as [HBy HBP].
  destruct (HAP _ Hj) as [HAz HAR], (HBP _ Hj) as [HBz HBR].
  rewrite (nth_zipw _ _ _ _ [] []) by lia.
  rewrite (nth_zipw _ _ _ _ [] []) by lia.
  rewrite (nth_zipw _ _ _ _ [] []) by lia.
  apply nth_zipw; [rewrite HAR | rewrite HBR]; lia.
Qed.

(** ** The entries of the curl operators *)

Section CurlEntries.

Variables (nx ny nz : nat) (F : Tensor4).
Hypothesis HF : shape4P nx ny nz F.

Ltac shapes :=
  repeat (apply shape_curl_line; [ | exact HF | reflexivity .. ]);
  apply shape_zeros_like; exact HF.

Lemma shape_curl_E : shape4P nx ny nz (curl_E F).
Proof. unfold curl_E, iadd, isub. shapes. Qed.

Lemma shape_curl_H : shape4P nx ny nz (curl_H F).
Proof. unfold curl_H, iadd, isub. shapes. Qed.

Variables i j k : nat.
Hypotheses (Hi : (i < nx)%nat) (Hj : (j < ny)%nat) (Hk : (k < nz)%nat).

Ltac peel1 :=
  rewrite (get_curl_line nx ny nz);
  [ cbn [Nat.eqb]; rewrite ?andb_false_r, ?andb_true_r; cbv iota
  | shapes | exact HF | reflexivity ..
  | assumption | assumption | assumption | lia ].
Ltac entries :=
  unfold iadd, isub; do 6 peel1;
  rewrite (get_zeros_like nx ny nz) by auto;
  rewrite ?in_view_ToLast, ?(in_view_From1 _ _ Hi), ?(in_view_From1 _ _ Hj),
    ?(in_view_From1 _ _ Hk), ?(in_view_All _ _ Hi), ?(in_view_All _ _ Hj),
    ?(in_view_All _ _ Hk), ?andb_true_l, ?andb_true_r;
  cbn [lo]; rewrite ?Nat.sub_0_r, ?Nat.add_0_r; unfold acc.
Ltac back n :=
  destruct (Nat.leb_spec 1 n);
  [ replace (n - 1 + 1)%nat with n by lia | ].

Lemma curl_E_x :
  get4 (curl_E F) i j k 0 =
    acc (k + 1 <? nz)%nat PrimFloat.sub
      (acc (j + 1 <? ny)%nat PrimFloat.add 0 (get4 F i (j + 1) k 2 - get4 F i j k 2))
      (get4 F i j (k + 1) 1 - get4 F i j k 1).
Proof. unfold curl_E. entries. reflexivity. Qed.

Lemma curl_E_y :
  get4 (curl_E F) i j k 1 =
    acc (i + 1 <? nx)%nat PrimFloat.sub
      (acc (k + 1 <? nz)%nat PrimFloat.add 0 (get4 F i j (k + 1) 0 - get4 F i j k 0))
      (get4 F (i + 1) j k 2 - get4 F i j k 2).
Proof. unfold curl_E. entries. reflexivity. Qed.

Lemma curl_E_z :
  get4 (curl_E F) i j k 2 =
    acc (j + 1 <? ny)%nat PrimFloat.sub
      (acc (i + 1 <? nx)%nat PrimFloat.add 0 (get4 F (i + 1) j k 1 - get4 F i j k 1))
      (get4 F i (j + 1) k 0 - get4 F i j k 0).
Proof. unfold curl_E. entries. reflexivity. Qed.

Lemma curl_H_x :
  get4 (curl_H F) i j k 0 =
    acc (1 <=? k)%nat PrimFloat.sub
      (acc (1 <=? j)%nat PrimFloat.add 0 (get4 F i j k 2 - get4 F i (j - 1) k 2))
      (get4 F i j k 1 - get4 F i j (k - 1) 1).
Proof. unfold curl_H. entries. back j; back k; reflexivity. Qed.

Lemma curl_H_y :
  get4 (curl_H F) i j k 1 =
    acc (1 <=? i)%nat PrimFloat.sub
      (acc (1 <=? k)%nat PrimFloat.add 0 (get4 F i j k 0 - get4 F i j (k - 1) 0))
      (get4 F i j k 2 - get4 F (i - 1) j k 2).
Proof. unfold curl_H. entries. back i; back k; reflexivity. Qed.

Lemma curl_H_z :
  get4 (curl_H F) i j k 2 =
    acc (1 <=? j)%nat PrimFloat.sub
      (acc (1 <=? i)%nat PrimFloat.add 0 (get4 F i j k 1 - get4 F (i - 1) j k 1))
      (get4 F i j k 0 - get4 F i (j - 1) k 0).
Proof. unfold curl_H. entries. back i; back j; reflexivity. Qed.

End CurlEntries.

(** C2. For every field array [F] of shape (nx, ny, nz, 3) and every cell
    (i, j, k): the x-component of [curl_E F] is the zero it was
    initialised with, plus the forward difference
    [F[i,j+1,k,2] - F[i,j,k,2]] where [j + 1 < ny], minus the forward
    difference [F[i,j,k+1,1] - F[i,j,k,1]] where [k + 1 < nz]; the y- and
    z-components are the cyclic analogues; [curl_H F] is the same with
    backward differences, each written only where the index along the
    differenced axis is at least 1. *)
Theorem curl_entries (nx ny nz : nat) (F : Tensor4) (i j k : nat) :
  has_shape nx ny nz F = true ->
  (i < nx)%nat -> (j < ny)%nat -> (k < nz)%nat ->
  curl_entries_at nx ny nz F i j k.
Proof.
  intros HF Hi Hj Hk. apply has_shape_P in HF. unfold curl_entries_at.
  repeat split.
  - now apply (curl_E_x nx ny nz).
  - now apply (curl_E_y nx ny nz).
  - now apply (curl_E_z nx ny nz).
  - now apply (curl_H_x nx ny nz).
  - now apply (curl_H_y nx ny nz).
  - now apply (curl_H_z nx ny nz).
Qed.

Lemma curl_entries_witness : curl_entries_at 2 3 2 sample_field 1 1 0.
Proof.
  apply curl_entries; [reflexivity | apply Nat.ltb_lt; reflexivity ..].
Defined.

Local Close Scope nat_scope.

(** ** One step of a grid without collaborators *)

Ltac grid_simpl :=
  cbn [grid_spacing Nx Ny Nz D courant_number timestep E H
       inverse_permittivity inverse_permeability timesteps_passed
       _sources _boundaries _detectors _objects named
       set_E set_H set_timesteps_passed set__sources set_named
       set_grid_spacing bind foreach].
Ltac grid_simpl_in h :=
  cbn [grid_spacing Nx Ny Nz D courant_number timestep E H
       inverse_permittivity inverse_permeability timesteps_passed
       _sources _boundaries _detectors _objects named
       set_E set_H set_timesteps_passed set__sources set_named
       set_grid_spacing bind foreach] in h.

Section Step.
Context {S B O Dt : Type}.
Context {sources : SourceClass S B O Dt} {boundaries : BoundaryClass S B O Dt}
        {objects : ObjectClass S B O Dt} {detectors : DetectorClass S B O Dt}.
Implicit Type g : Grid S B O Dt.

Lemma update_E_bare g : no_collaborators g -> Grid_update_E g = Ok (core_update_E g).
Proof.
  intros (Hs & Hb & Ho & Hd). unfold Grid_update_E, core_update_E.
  rewrite Hb. grid_simpl. rewrite Ho. grid_simpl. rewrite Hb. grid_simpl.
  rewrite Hs. grid_simpl. rewrite Hd. reflexivity.
Qed.

Lemma update_H_bare g : no_collaborators g -> Grid_update_H g = Ok (core_update_H g).
Proof.
  intros (Hs & Hb & Ho & Hd). unfold Grid_update_H, core_update_H.
  rewrite Hb. grid_simpl. rewrite Ho. grid_simpl. rewrite Hb. grid_simpl.
  rewrite Hs. grid_simpl. rewrite Hd. reflexivity.
Qed.

Lemma step_bare g :
  no_collaborators g ->
  Grid_step g =
  Ok (set_timesteps_passed (core_update_H (core_update_E g)) (timesteps_passed g + 1)).
Proof.
  intros Hn. unfold Grid_step. rewrite update_E_bare by exact Hn. cbn [bind].
  rewrite update_H_bare by exact Hn. reflexivity.
Qed.

(** C1. For every grid with no registered collaborators (and arrays of one
    shape), a single [step()] returns normally; entry by entry it has
    replaced E by [E + courant_number * inverse_permittivity * curl_H(H)]
    with the H of before the step, then H by
    [H - courant_number * inverse_permeability * curl_E(E')] with the E just
    updated, and [timesteps_passed] is one higher. *)
Theorem step_leapfrog g nx ny nz :
  no_collaborators g -> well_shaped nx ny nz g = true ->
  exists g', Grid_step g = Ok g' /\ leapfrog_post nx ny nz g g'.
Proof.
  intros Hn Hw. unfold well_shaped in Hw. rewrite !andb_true_iff in Hw.
  destruct Hw as [[[HE HH] Hpe] Hpm].
  apply has_shape_P in HE, HH, Hpe, Hpm.
  eexists. split; [apply step_bare; exact Hn|].
  assert (HE' : shape4P nx ny nz (E (core_update_E g))).
  { unfold core_update_E. grid_simpl. apply shape_zip4; [exact HE|]. apply shape_zip4.
    - now apply shape_map4.
    - now apply shape_curl_H. }
  unfold leapfrog_post. split; [|split].
  - intros i j k c Hi Hj Hk Hc. unfold core_update_H, core_update_E. grid_simpl.
    rewrite (get_zip4 nx ny nz), (get_zip4 nx ny nz), (get_map4 nx ny nz); auto.
    + now apply shape_map4.
    + now apply shape_curl_H.
    + apply shape_zip4; [now apply shape_map4 | now apply shape_curl_H].
  - intros i j k c Hi Hj Hk Hc. unfold core_update_H. grid_simpl.
    change (H (core_update_E g)) with (H g).
    change (courant_number (core_update_E g)) with (courant_number g).
    change (inverse_permeability (core_update_E g)) with (inverse_permeability g).
    rewrite (get_zip4 nx ny nz), (get_zip4 nx ny nz), (get_map4 nx ny nz); auto.
    + now apply shape_map4.
    + now apply shape_curl_E.
    + apply shape_zip4; [now apply shape_map4 | now apply shape_curl_E].
  - reflexivity.
Qed.

End Step.

(** C1 at the sample grid. *)
Lemma step_leapfrog_witness :
  exists g', Grid_step sample_grid = Ok g' /\ leapfrog_post 2 3 2 sample_grid g'.
Proof.
  apply step_leapfrog; [repeat split | reflexivity].
Defined.

Lemma finite_cases x :
  is_finite x = true ->
  (exists s, Prim2SF x = S754_zero s) \/ (exists s m e, Prim2SF x = S754_finite s m e).
Proof.
  unfold is_finite, is_nan, is_infinity.
  rewrite negb_true_iff, orb_false_iff, negb_false_iff.
  rewrite !eqb_spec, abs_spec. intros [Hn Hi].
  destruct (Prim2SF x) as [s|s| |s m e] eqn:Hx.
  - left. now exists s.
  - simpl in Hi. discriminate.
  - simpl in Hn. discriminate.
  - right. now exists s, m, e.
Qed.

Lemma zero_absorbs x :
  is_finite x = true ->
  (0 + x * 0 = 0)%float /\ (0 - x * 0 = 0)%float.
Proof.
  intros Hx. split; apply Prim2SF_inj.
  - rewrite add_spec, mul_spec.
    destruct (finite_cases x Hx) as [[s ->]|(s & m & e & ->)];
      destruct s; reflexivity.
  - rewrite sub_spec, mul_spec.
    destruct (finite_cases x Hx) as [[s ->]|(s & m & e & ->)];
      destruct s; reflexivity.
Qed.

Lemma zipw_repeat {A B} (f : A -> B -> A) a b n :
  zipw f (repeat a n) (repeat b n) = repeat (f a b) n.
Proof. induction n; simpl; congruence. Qed.

Lemma zip4_full f a b nx ny nz :
  zip4 f (full a nx ny nz) (full b nx ny nz) = full (f a b) nx ny nz.
Proof. unfold zip4, full. now rewrite !zipw_repeat. Qed.

Lemma map4_full f a nx ny nz : map4 f (full a nx ny nz) = full (f a) nx ny nz.
Proof. unfold map4, full. now rewrite !map_repeat. Qed.

Lemma shape_full v nx ny nz : shape4P nx ny nz (full v nx ny nz).
Proof.
  unfold full. split; [apply repeat_length|].
  intros i Hi. rewrite nth_repeat_lt by exact Hi. split; [apply repeat_length|].
  intros j Hj. rewrite nth_repeat_lt by exact Hj. split; [apply repeat_length|].
  intros k Hk. rewrite nth_repeat_lt by exact Hk. apply repeat_length.
Qed.

Lemma get_full v nx ny nz i j k c :
  (i < nx)%nat -> (j < ny)%nat -> (k < nz)%nat -> (c < 3)%nat ->
  get4 (full v nx ny nz) i j k c = v.
Proof.
  intros Hi Hj Hk Hc. unfold get4, full.
  now rewrite !nth_repeat_lt by assumption.
Qed.

Lemma tensor_ext nx ny nz A B :
  shape4P nx ny nz A -> shape4P nx ny nz B ->
  (forall i j k c, (i < nx)%nat -> (j < ny)%nat -> (k < nz)%nat -> (c < 3)%nat ->
     get4 A i j k c = get4 B i j k c) ->
  A = B.
Proof.
  intros [HA HA'] [HB HB'] Hget.
  apply (nth_ext _ _ [] []); [congruence|]. intros i Hi. rewrite HA in Hi.
  destruct (HA' _ Hi) as [HAy HAP], (HB' _ Hi) as [HBy HBP].
  apply (nth_ext _ _ [] []); [congruence|]. intros j Hj. rewrite HAy in Hj.
  destruct (HAP _ Hj) as [HAz HAR], (HBP _ Hj) as [HBz HBR].
  apply (nth_ext _ _ [] []); [congruence|]. intros k Hk. rewrite HAz in Hk.
  apply (nth_ext _ _ 0%float 0%float); [rewrite HAR, HBR; auto|].
  intros c Hc. rewrite HAR in Hc by exact Hk. now apply Hget.
Qed.

Lemma curl_E_zero nx ny nz :
  curl_E (full 0 nx ny nz) = full 0 nx ny nz.
Proof.
  assert (HF := shape_full 0 nx ny nz).
  apply (tensor_ext nx ny nz); [now apply shape_curl_E | exact HF |].
  intros i j k c Hi Hj Hk Hc. rewrite (get_full 0) by assumption.
  destruct c as [|[|[|c]]]; [| | |lia].
  - rewrite (curl_E_x nx ny nz) by assumption. unfold acc.
    destruct (Nat.ltb_spec (j + 1) ny), (Nat.ltb_spec (k + 1) nz);
      rewrite ?get_full by lia; reflexivity.
  - rewrite (curl_E_y nx ny nz) by assumption. unfold acc.
    destruct (Nat.ltb_spec (i + 1) nx), (Nat.ltb_spec (k + 1) nz);
      rewrite ?get_full by lia; reflexivity.
  - rewrite (curl_E_z nx ny nz) by assumption. unfold acc.
    destruct (Nat.ltb_spec (i + 1) nx), (Nat.ltb_spec (j + 1) ny);
      rewrite ?get_full by lia; reflexivity.
Qed.

Lemma curl_H_zero nx ny nz :
  curl_H (full 0 nx ny nz) = full 0 nx ny nz.
Proof.
  assert (HF := shape_full 0 nx ny nz).
  apply (tensor_ext nx ny nz); [now apply shape_curl_H | exact HF |].
  intros i j k c Hi Hj Hk Hc. rewrite (get_full 0) by assumption.
  destruct c as [|[|[|c]]]; [| | |lia].
  - rewrite (curl_H_x nx ny nz) by assumption. unfold acc.
    destruct (Nat.leb_spec 1 j), (Nat.leb_spec 1 k);
      rewrite ?get_full by lia; reflexivity.
  - rewrite (curl_H_y nx ny nz) by assumption. unfold acc.
    destruct (Nat.leb_spec 1 i), (Nat.leb_spec 1 k);
      rewrite ?get_full by lia; reflexivity.
  - rewrite (curl_H_z nx ny nz) by assumption. unfold acc.
    destruct (Nat.leb_spec 1 i), (Nat.leb_spec 1 j);
      rewrite ?get_full by lia; reflexivity.
Qed.

Lemma full_empty v w nx ny nz :
  (nx = 0 \/ ny = 0 \/ nz = 0)%nat -> full v nx ny nz = full w nx ny nz.
Proof.
  intros [->|[->| ->]]; unfold full; simpl; reflexivity.
Qed.

Section Init.
Context {S B O Dt : Type}.
Implicit Type g : Grid S B O Dt.

Lemma bind_Ok {A C} (r : result A) (k : A -> result C) c :
  bind r k = Ok c -> exists a, r = Ok a /\ k a = Ok c.
Proof. destruct r; simpl; [eauto | discriminate]. Qed.

Lemma alloc_Ok v nx ny nz T :
  alloc v nx ny nz = Ok T ->
  0 <= nx /\ 0 <= ny /\ 0 <= nz /\
  T = full v (Z.to_nat nx) (Z.to_nat ny) (Z.to_nat nz).
Proof.
  unfold alloc.
  destruct (Z.ltb_spec nx 0), (Z.ltb_spec ny 0), (Z.ltb_spec nz 0); simpl;
    try discriminate.
  intros [= <-]. repeat split; assumption.
Qed.

Lemma alloc_nonneg v nx ny nz :
  0 <= nx -> 0 <= ny -> 0 <= nz ->
  alloc v nx ny nz = Ok (full v (Z.to_nat nx) (Z.to_nat ny) (Z.to_nat nz)).
Proof.
  intros. unfold alloc.
  destruct (Z.ltb_spec nx 0), (Z.ltb_spec ny 0), (Z.ltb_spec nz 0); simpl;
    try lia. reflexivity.
Qed.

Lemma alloc_negative v nx ny nz :
  nx < 0 \/ ny < 0 \/ nz < 0 -> alloc v nx ny nz = Raise ValueError.
Proof.
  intros. unfold alloc.
  destruct (Z.ltb_spec nx 0), (Z.ltb_spec ny 0), (Z.ltb_spec nz 0); simpl;
    try lia; reflexivity.
Qed.

(** The constructor, once its arguments are resolved. *)
Lemma init_resolved m shape gs pe pm cn gsf nx ny nz :
  float_ gs = Ok gsf ->
  Grid__handle_tuple (set_grid_spacing (@Grid_blank S B O Dt) gsf) shape
  = Ok (nx, ny, nz) ->
  @Grid___init__ S B O Dt m shape gs pe pm cn =
  (cnf <- resolve_courant m (int_gt1 nx + int_gt1 ny + int_gt1 nz) cn ;;
   _ <- zeros nx ny nz ;;
   pef <- float_ pe ;;
   pmf <- float_ pm ;;
   Ok (fresh_grid gsf nx ny nz cnf pef pmf)).
Proof.
  intros Hgs Ht. unfold Grid___init__. rewrite Hgs. cbn [bind]. rewrite Ht.
  cbn [bind]. unfold resolve_courant, default_courant.
  destruct cn as [c|].
  - cbn [bind]. destruct (float_ c) as [cnf|e]; [|reflexivity]. cbn [bind].
    unfold zeros, ones.
    destruct (alloc 0 nx ny nz) as [T|e] eqn:Hz; [|reflexivity].
    apply alloc_Ok in Hz. destruct Hz as (Hx & Hy & Hz & ->). cbn [bind].
    rewrite !alloc_nonneg by assumption. cbn [bind].
    destruct (float_ pe) as [pef|e]; [|reflexivity]. cbn [bind].
    destruct (float_ pm) as [pmf|e]; [|reflexivity]. cbn [bind].
    unfold fresh_grid. now rewrite !map4_full.
  - destruct (float_pow m _ _) as [p|e]; [|reflexivity]. cbn [bind float_].
    unfold zeros, ones.
    destruct (alloc 0 nx ny nz) as [T|e] eqn:Hz; [|reflexivity].
    apply alloc_Ok in Hz. destruct Hz as (Hx & Hy & Hz & ->). cbn [bind].
    rewrite !alloc_nonneg by assumption. cbn [bind].
    destruct (float_ pe) as [pef|e]; [|reflexivity]. cbn [bind].
    destruct (float_ pm) as [pmf|e]; [|reflexivity]. cbn [bind].
    unfold fresh_grid. now rewrite !map4_full.
Qed.

(** What a successful construction returns. *)
Lemma init_Ok_inv m shape gs pe pm cn g :
  Grid___init__ m shape gs pe pm cn = Ok g ->
  exists gsf nx ny nz cnf pef pmf,
    float_ gs = Ok gsf /\
    Grid__handle_tuple (set_grid_spacing (@Grid_blank S B O Dt) gsf) shape
    = Ok (nx, ny, nz) /\
    resolve_courant m (int_gt1 nx + int_gt1 ny + int_gt1 nz) cn = Ok cnf /\
    0 <= nx /\ 0 <= ny /\ 0 <= nz /\
    float_ pe = Ok pef /\ float_ pm = Ok pmf /\
    g = fresh_grid gsf nx ny nz cnf pef pmf.
Proof.
  intros Hinit.
  destruct (float_ gs) as [gsf|e] eqn:Hgs;
    [|unfold Grid___init__ in Hinit; rewrite Hgs in Hinit; discriminate].
  destruct (Grid__handle_tuple (set_grid_spacing (@Grid_blank S B O Dt) gsf) shape)
    as [[[nx ny] nz]|e] eqn:Ht;
    [|unfold Grid___init__ in Hinit; rewrite Hgs in Hinit; cbn [bind] in Hinit;
      rewrite Ht in Hinit; discriminate].
  rewrite (init_resolved _ _ _ _ _ _ gsf nx ny nz Hgs Ht) in Hinit.
  apply bind_Ok in Hinit. destruct Hinit as (cnf & Hc & Hinit).
  apply bind_Ok in Hinit. destruct Hinit as (T & Hz & Hinit).
  apply bind_Ok in Hinit. destruct Hinit as (pef & Hpe & Hinit).
  apply bind_Ok in Hinit. destruct Hinit as (pmf & Hpm & Hinit).
  apply alloc_Ok in Hz. destruct Hz as (Hx & Hy & Hz & _).
  exists gsf, nx, ny, nz, cnf, pef, pmf. injection Hinit as <-. tauto.
Qed.

End Init.

Lemma all_entries_full p v nx ny nz :
  all_entries p (full v nx ny nz) = true ->
  (nx = 0 \/ ny = 0 \/ nz = 0)%nat \/ p v = true.
Proof.
  unfold all_entries, full.
  destruct nx as [|nx]; [auto|]. destruct ny as [|ny]; [auto|].
  destruct nz as [|nz]; [auto|]. simpl.
  rewrite !andb_true_iff. intros H. right. tauto.
Qed.

Lemma full_zero_absorbs (op : float -> float -> float) x nx ny nz :
  (nx = 0 \/ ny = 0 \/ nz = 0)%nat \/ op 0%float (x * 0)%float = 0%float ->
  full (op 0%float (x * 0)%float) nx ny nz = full 0 nx ny nz.
Proof. intros [He| ->]; [now apply full_empty | reflexivity]. Qed.

Section ZeroFields.
Context {S B O Dt : Type}.
Context {sources : SourceClass S B O Dt} {boundaries : BoundaryClass S B O Dt}
        {objects : ObjectClass S B O Dt} {detectors : DetectorClass S B O Dt}.
Implicit Type g : Grid S B O Dt.

Lemma fresh_step gs nx ny nz cn pe pm t :
  let g : Grid S B O Dt := set_timesteps_passed (fresh_grid gs nx ny nz cn pe pm) t in
  finite_coefficients g = true ->
  Grid_step g = Ok (set_timesteps_passed (fresh_grid gs nx ny nz cn pe pm) (t + 1)).
Proof.
  intros g Hfin. unfold finite_coefficients in Hfin.
  apply andb_true_iff in Hfin. destruct Hfin as [He Hm].
  unfold g, fresh_grid in He, Hm. grid_simpl_in He. grid_simpl_in Hm.
  apply all_entries_full in He, Hm.
  rewrite step_bare by (repeat split).
  unfold g, core_update_H, core_update_E, fresh_grid. grid_simpl.
  rewrite curl_H_zero, map4_full, !zip4_full.
  rewrite (full_zero_absorbs PrimFloat.add)
    by (destruct He as [He|He]; [now left | right; now apply zero_absorbs]).
  rewrite curl_E_zero, map4_full, !zip4_full.
  rewrite (full_zero_absorbs PrimFloat.sub)
    by (destruct Hm as [Hm|Hm]; [now left | right; now apply zero_absorbs]).
  reflexivity.
Qed.

Lemma fresh_steps gs nx ny nz cn pe pm n t :
  let g : Grid S B O Dt := set_timesteps_passed (fresh_grid gs nx ny nz cn pe pm) t in
  finite_coefficients g = true ->
  steps n g =
  Ok (set_timesteps_passed (fresh_grid gs nx ny nz cn pe pm) (t + Z.of_nat n)).
Proof.
  revert t. induction n as [|n IH]; intros t g Hfin.
  - simpl. unfold g. now rewrite Z.add_0_r.
  - cbn [steps]. unfold g. rewrite fresh_step by exact Hfin. cbn [bind].
    rewrite IH by exact Hfin. do 2 f_equal. lia.
Qed.

(** C3, amended. For every freshly constructed grid whose products
    [courant_number * inverse_permittivity] and
    [courant_number * inverse_permeability] are finite floats, any number
    of [step()] calls returns normally and leaves E and H identically
    zero. *)
Theorem zero_fields_stay_zero m shape gs pe pm cn (g : Grid S B O Dt) n :
  Grid___init__ m shape gs pe pm cn = Ok g ->
  finite_coefficients g = true ->
  exists g', steps n g = Ok g' /\
    E g' = full 0 (Z.to_nat (Nx g)) (Z.to_nat (Ny g)) (Z.to_nat (Nz g)) /\
    H g' = full 0 (Z.to_nat (Nx g)) (Z.to_nat (Ny g)) (Z.to_nat (Nz g)).
Proof.
  intros Hinit Hfin. apply init_Ok_inv in Hinit.
  destruct Hinit as (gsf & nx & ny & nz & cnf & pef & pmf & _ & _ & _ & _ & _ & _ & _ & _ & ->).
  eexists. split.
  - apply (fresh_steps gsf nx ny nz cnf pef pmf n 0). exact Hfin.
  - split; reflexivity.
Qed.

End ZeroFields.

(** C3 fails as stated: [Grid((2, 2, 2), permittivity=0.0,
    courant_number=0.5)] has an infinite inverse permittivity, its fields
    start at zero, and after one [step()] every entry of E is NaN
    ([0.5 * inf * 0.0]). *)
Lemma zero_fields_counterexample :
  (forall m, Grid___init__ m [PyInt 2; PyInt 2; PyInt 2]
               (PyFloat 0x1.ad7f29abcaf48p-26) (PyFloat 0) (PyFloat 1)
               (Some (PyFloat 0.5)) = Ok zero_permittivity_grid) /\
  E zero_permittivity_grid = full 0 2 2 2 /\
  exists g', Grid_step zero_permittivity_grid = Ok g' /\ E g' = full nan 2 2 2.
Proof.
  split; [intros m; reflexivity|]. split; [reflexivity|].
  eexists. split; vm_compute; reflexivity.
Qed.

(** C3, amended, at [Grid((2, 3, 2), permittivity=2.0,
    courant_number=0.5)] and three steps. *)
Lemma zero_fields_stay_zero_witness :
  exists g', steps 3 (fresh_grid 0x1.ad7f29abcaf48p-26 2 3 2 0.5 2 1 : BareGrid) = Ok g' /\
    E g' = full 0 2 3 2 /\ H g' = full 0 2 3 2.
Proof.
  apply (zero_fields_stay_zero sample_libm [PyInt 2; PyInt 3; PyInt 2]
           (PyFloat 0x1.ad7f29abcaf48p-26) (PyFloat 2) (PyFloat 1) (Some (PyFloat 0.5)));
    reflexivity.
Defined.

(** ** The constructor: Courant number, timestep and shape *)
Section Construction.
Context {S B O Dt : Type}.

Lemma int_gt1_cases n : int_gt1 n = 0 \/ int_gt1 n = 1.
Proof. unfold int_gt1. destruct (1 <? n); auto. Qed.

Lemma default_courant_cases m d :
  1 <= d <= 3 ->
  default_courant m d =
  Ok (if (d =? 1)%Z then 0x1.fae147ae147aep-1
      else libm_pow m (Z2F d) (-0.5) * 0x1.fae147ae147aep-1)%float.
Proof.
  intros Hd. assert (Hc : d = 1 \/ d = 2 \/ d = 3) by lia.
  destruct Hc as [->|[->| ->]]; reflexivity.
Qed.

(** C4. When the arguments of the constructor resolve (a float spacing,
    three non-negative sizes, float material constants), with [d] the
    number of axes of size > 1: without a [courant_number] and with
    [d >= 1] the constructor returns a grid with [D = d] and
    [courant_number = d ** (-0.5) * 0.99] (0.99 itself for [d = 1], the
    library's [pow(d, -0.5)] times 0.99 otherwise); with a
    [courant_number] it returns a grid holding that number; in both cases
    [timestep = courant_number * grid_spacing / 299792458.0]. *)
Theorem init_courant_timestep m shape gs pe pm gsf nx ny nz pef pmf :
  float_ gs = Ok gsf ->
  Grid__handle_tuple (set_grid_spacing (@Grid_blank S B O Dt) gsf) shape
  = Ok (nx, ny, nz) ->
  0 <= nx -> 0 <= ny -> 0 <= nz ->
  float_ pe = Ok pef -> float_ pm = Ok pmf ->
  let d := int_gt1 nx + int_gt1 ny + int_gt1 nz in
  (1 <= d ->
   exists g : Grid S B O Dt,
     Grid___init__ m shape gs pe pm None = Ok g /\ D g = d /\
     courant_number g =
       (if (d =? 1)%Z then 0x1.fae147ae147aep-1
        else libm_pow m (Z2F d) (-0.5) * 0x1.fae147ae147aep-1)%float /\
     timestep g = (courant_number g * grid_spacing g / 299792458)%float) /\
  (forall c cf, float_ c = Ok cf ->
   exists g : Grid S B O Dt,
     Grid___init__ m shape gs pe pm (Some c) = Ok g /\ D g = d /\
     courant_number g = cf /\
     timestep g = (courant_number g * grid_spacing g / 299792458)%float).
Proof.
  intros Hgs Ht Hx Hy Hz Hpe Hpm d. split.
  - intros Hd.
    assert (Hd3 : 1 <= d <= 3).
    { unfold d in *. destruct (int_gt1_cases nx), (int_gt1_cases ny), (int_gt1_cases nz); lia. }
    eexists. split.
    + rewrite (init_resolved _ _ _ _ _ _ gsf nx ny nz Hgs Ht).
      cbn [resolve_courant]. fold d. rewrite (default_courant_cases m d Hd3).
      cbn [bind]. unfold zeros. rewrite alloc_nonneg by assumption. cbn [bind].
      rewrite Hpe, Hpm. reflexivity.
    + repeat split.
  - intros c cf Hc. eexists. split.
    + rewrite (init_resolved _ _ _ _ _ _ gsf nx ny nz Hgs Ht).
      cbn [resolve_courant]. rewrite Hc. cbn [bind].
      unfold zeros. rewrite alloc_nonneg by assumption. cbn [bind].
      rewrite Hpe, Hpm. reflexivity.
    + repeat split.
Qed.

(** A shape without any axis longer than 1 has no default Courant number:
    [0.0 ** (-0.5)] raises. *)
Lemma init_zero_dimensional m shape gs pe pm gsf nx ny nz :
  float_ gs = Ok gsf ->
  Grid__handle_tuple (set_grid_spacing (@Grid_blank S B O Dt) gsf) shape
  = Ok (nx, ny, nz) ->
  int_gt1 nx + int_gt1 ny + int_gt1 nz = 0 ->
  @Grid___init__ S B O Dt m shape gs pe pm None = Raise ZeroDivisionError.
Proof.
  intros Hgs Ht Hd. rewrite (init_resolved _ _ _ _ _ _ gsf nx ny nz Hgs Ht).
  rewrite Hd. reflexivity.
Qed.

(** C8, amended. The constructor raises ValueError whenever the shape
    does not have exactly 3 entries, and it fails (at construction time)
    whenever a resolved size is negative; the sizes are not otherwise
    checked. *)
Theorem init_shape_validation m shape gs pe pm cn gsf :
  float_ gs = Ok gsf ->
  (length shape <> 3%nat ->
   @Grid___init__ S B O Dt m shape gs pe pm cn = Raise ValueError) /\
  (forall nx ny nz,
     Grid__handle_tuple (set_grid_spacing (@Grid_blank S B O Dt) gsf) shape
     = Ok (nx, ny, nz) ->
     nx < 0 \/ ny < 0 \/ nz < 0 ->
     exists e, @Grid___init__ S B O Dt m shape gs pe pm cn = Raise e).
Proof.
  intros Hgs. split.
  - intros Hlen. unfold Grid___init__. rewrite Hgs. cbn [bind].
    destruct shape as [|a [|b [|c [|d shape]]]]; try reflexivity.
    now contradiction Hlen.
  - intros nx ny nz Ht Hneg.
    rewrite (init_resolved _ _ _ _ _ _ gsf nx ny nz Hgs Ht).
    destruct (resolve_courant m _ cn) as [cnf|e]; [|now exists e].
    cbn [bind]. unfold zeros. rewrite alloc_negative by exact Hneg.
    now exists ValueError.
Qed.

End Construction.

(** C4 at [Grid((20, 20, 20))] and [Grid((20, 1, 1))] on the sample
    platform. *)
Lemma init_courant_timestep_witness :
  (exists g : BareGrid,
     Grid___init__ sample_libm [PyInt 20; PyInt 20; PyInt 20]
       (PyFloat 0x1.ad7f29abcaf48p-26) (PyFloat 1) (PyFloat 1) None = Ok g /\
     D g = 3 /\
     courant_number g =
       (libm_pow sample_libm 3 (-0.5) * 0x1.fae147ae147aep-1)%float /\
     timestep g = (courant_number g * grid_spacing g / 299792458)%float) /\
  (exists g : BareGrid,
     Grid___init__ sample_libm [PyInt 20; PyInt 1; PyInt 1]
       (PyFloat 0x1.ad7f29abcaf48p-26) (PyFloat 1) (PyFloat 1) None = Ok g /\
     D g = 1 /\ courant_number g = 0x1.fae147ae147aep-1%float /\
     timestep g = (courant_number g * grid_spacing g / 299792458)%float).
Proof.
  split.
  - apply (proj1 (init_courant_timestep sample_libm [PyInt 20; PyInt 20; PyInt 20]
             (PyFloat 0x1.ad7f29abcaf48p-26) (PyFloat 1) (PyFloat 1)
             0x1.ad7f29abcaf48p-26 20 20 20 1 1
             eq_refl eq_refl ltac:(lia) ltac:(lia) ltac:(lia) eq_refl eq_refl)).
    vm_compute. discriminate.
  - apply (proj1 (init_courant_timestep sample_libm [PyInt 20; PyInt 1; PyInt 1]
             (PyFloat 0x1.ad7f29abcaf48p-26) (PyFloat 1) (PyFloat 1)
             0x1.ad7f29abcaf48p-26 20 1 1 1 1
             eq_refl eq_refl ltac:(lia) ltac:(lia) ltac:(lia) eq_refl eq_refl)).
    vm_compute. discriminate.
Defined.

(** C8 fails as stated: the shape (0, 5, 5) contains a non-positive size
    and the constructor accepts it, with and without a [courant_number],
    returning a grid whose arrays are empty. *)
Lemma init_shape_counterexample :
  (forall m, Grid___init__ m [PyInt 0; PyInt 5; PyInt 5]
               (PyFloat 0x1.ad7f29abcaf48p-26) (PyFloat 1) (PyFloat 1)
               (Some (PyFloat 0.5)) = Ok empty_axis_grid) /\
  (forall m, exists g : BareGrid,
       Grid___init__ m [PyInt 0; PyInt 5; PyInt 5]
         (PyFloat 0x1.ad7f29abcaf48p-26) (PyFloat 1) (PyFloat 1) None = Ok g) /\
  Nx empty_axis_grid = 0 /\ E empty_axis_grid = [].
Proof.
  split; [intros m; reflexivity|]. split; [|split; reflexivity].
  intros m. eexists. reflexivity.
Qed.

(** C8, amended, at the shapes (20, 20) and (20, -1, 20). *)
Lemma init_shape_validation_witness :
  @Grid___init__ Empty_set Empty_set Empty_set Empty_set sample_libm
    [PyInt 20; PyInt 20] (PyFloat 0x1.ad7f29abcaf48p-26) (PyFloat 1) (PyFloat 1) None
  = Raise ValueError /\
  exists e,
    @Grid___init__ Empty_set Empty_set Empty_set Empty_set sample_libm
      [PyInt 20; PyInt (-1); PyInt 20] (PyFloat 0x1.ad7f29abcaf48p-26)
      (PyFloat 1) (PyFloat 1) None = Raise e.
Proof.
  split.
  - apply (proj1 (init_shape_validation sample_libm [PyInt 20; PyInt 20]
             (PyFloat 0x1.ad7f29abcaf48p-26) (PyFloat 1) (PyFloat 1) None
             0x1.ad7f29abcaf48p-26 eq_refl)).
    simpl. discriminate.
  - apply (proj2 (init_shape_validation sample_libm [PyInt 20; PyInt (-1); PyInt 20]
             (PyFloat 0x1.ad7f29abcaf48p-26) (PyFloat 1) (PyFloat 1) None
             0x1.ad7f29abcaf48p-26 eq_refl) 20 (-1) 20 eq_refl).
    right. left. reflexivity.
Defined.

(** ** Distances and times *)
Lemma int_of_float_floor f z :
  floor_of_float f = Some z ->
  (0 <= z -> int_of_float f = Ok z) /\
  (z < 0 -> exists z', floor_of_float (- f) = Some z' /\ int_of_float f = Ok (- z')).
Proof.
  unfold floor_of_float, int_of_float. rewrite opp_spec.
  destruct (Prim2SF f) as [s|s| |s m e]; try discriminate.
  - intros [= <-]. split; [reflexivity|lia].
  - destruct s; intros [= <-]; cbn [SFopp negb].
    + assert (Hneg : Z.shiftl (Z.neg m) e < 0).
      { apply Z.shiftl_neg. lia. }
      split; [lia|]. intros _. eexists. split; reflexivity.
    + assert (Hpos : 0 <= Z.shiftl (Z.pos m) e).
      { apply Z.shiftl_nonneg. lia. }
      split; [reflexivity|lia].
Qed.

Section Distance.
Context {S B O Dt : Type}.
Implicit Type g : Grid S B O Dt.

(** C5, amended. For every grid, [_handle_distance] returns an int
    unchanged; for a float [d] (and a non-zero spacing) it returns
    [int(d / grid_spacing + 0.5)], which is [floor(d / grid_spacing + 0.5)]
    when that floor is not negative, and minus the floor of the negated
    value (truncation toward zero) when it is negative. *)
Theorem handle_distance_rounding g :
  (forall n, Grid__handle_distance g (PyInt n) = Ok n) /\
  (forall d, PrimFloat.eqb (grid_spacing g) 0 = false ->
     Grid__handle_distance g (PyFloat d)
     = int_of_float (d / grid_spacing g + 0.5)) /\
  (forall d z, PrimFloat.eqb (grid_spacing g) 0 = false ->
     floor_of_float (d / grid_spacing g + 0.5) = Some z ->
     (0 <= z -> Grid__handle_distance g (PyFloat d) = Ok z) /\
     (z < 0 -> exists z',
        floor_of_float (- (d / grid_spacing g + 0.5)) = Some z' /\
        Grid__handle_distance g (PyFloat d) = Ok (- z'))).
Proof.
  assert (Hf : forall d, PrimFloat.eqb (grid_spacing g) 0 = false ->
     Grid__handle_distance g (PyFloat d)
     = int_of_float (d / grid_spacing g + 0.5)).
  { intros d Hgs. unfold Grid__handle_distance, float_, truediv.
    cbn [bind]. rewrite Hgs. reflexivity. }
  split; [reflexivity|]. split; [exact Hf|].
  intros d z Hgs Hfl. rewrite (Hf d Hgs). now apply int_of_float_floor.
Qed.

(** A zero grid spacing makes every float distance a division by zero. *)
Lemma handle_distance_zero_spacing g d :
  PrimFloat.eqb (grid_spacing g) 0 = true ->
  Grid__handle_distance g (PyFloat d) = Raise ZeroDivisionError.
Proof.
  intros Hgs. unfold Grid__handle_distance, float_, truediv. cbn [bind].
  now rewrite Hgs.
Qed.

End Distance.

(** C5 fails as stated: with [grid_spacing = 1.0] the float distance
    [-1.0] resolves to 0, and [floor(-1.0 / 1.0 + 0.5)] is -1. *)
Lemma handle_distance_counterexample :
  (forall m, Grid___init__ m [PyInt 2; PyInt 2; PyInt 2] (PyFloat 1) (PyFloat 1)
               (PyFloat 1) (Some (PyFloat 0.5)) = Ok unit_grid) /\
  floor_of_float (-1 / grid_spacing unit_grid + 0.5) = Some (-1) /\
  Grid__handle_distance unit_grid (PyFloat (-1)) = Ok 0.
Proof. split; [intros m; reflexivity|]. split; reflexivity. Qed.

(** C5, amended, at [grid_spacing = 1.0], [d = 2.5]: 3, not 2. *)
Lemma handle_distance_rounding_witness :
  Grid__handle_distance unit_grid (PyFloat 2.5) = Ok 3.
Proof.
  apply (proj2 (proj2 (handle_distance_rounding unit_grid)) 2.5%float 3
           eq_refl eq_refl).
  lia.
Defined.

(** ** run *)
Section Run.
Context {S B O Dt : Type}.
Context {sources : SourceClass S B O Dt} {boundaries : BoundaryClass S B O Dt}
        {objects : ObjectClass S B O Dt} {detectors : DetectorClass S B O Dt}.
Implicit Type g : Grid S B O Dt.

Lemma foreach_counter {A} (cs : list A) (method : A -> Grid S B O Dt -> result (Grid S B O Dt)) :
  (forall c, counter_kept (method c)) -> counter_kept (foreach cs method).
Proof.
  intros Hm. induction cs as [|c cs IH]; intros g g' Hg; cbn [foreach] in Hg.
  - now injection Hg as <-.
  - apply bind_Ok in Hg. destruct Hg as (g1 & H1 & H2).
    rewrite (IH _ _ H2). now apply (Hm c).
Qed.

Lemma update_E_counter :
  collaborators_keep_counter -> counter_kept Grid_update_E.
Proof.
  intros (HsE & HsH & HbpE & HbpH & HbE & HbH & HoE & HoH & HdE & HdH) g g' Hg.
  unfold Grid_update_E in Hg.
  apply bind_Ok in Hg. destruct Hg as (g1 & H1 & Hg).
  apply bind_Ok in Hg. destruct Hg as (g2 & H2 & Hg).
  apply bind_Ok in Hg. destruct Hg as (g3 & H3 & Hg).
  apply bind_Ok in Hg. destruct Hg as (g4 & H4 & Hg).
  apply foreach_counter in H1, H2, H3, H4, Hg; auto.
  rewrite Hg, H4, H3, H2. exact H1.
Qed.

Lemma update_H_counter :
  collaborators_keep_counter -> counter_kept Grid_update_H.
Proof.
  intros (HsE & HsH & HbpE & HbpH & HbE & HbH & HoE & HoH & HdE & HdH) g g' Hg.
  unfold Grid_update_H in Hg.
  apply bind_Ok in Hg. destruct Hg as (g1 & H1 & Hg).
  apply bind_Ok in Hg. destruct Hg as (g2 & H2 & Hg).
  apply bind_Ok in Hg. destruct Hg as (g3 & H3 & Hg).
  apply bind_Ok in Hg. destruct Hg as (g4 & H4 & Hg).
  apply foreach_counter in H1, H2, H3, H4, Hg; auto.
  rewrite Hg, H4, H3, H2. exact H1.
Qed.

Lemma step_counter g g' :
  collaborators_keep_counter ->
  Grid_step g = Ok g' -> timesteps_passed g' = timesteps_passed g + 1.
Proof.
  intros Hk Hg. unfold Grid_step in Hg.
  apply bind_Ok in Hg. destruct Hg as (g1 & H1 & Hg).
  apply bind_Ok in Hg. destruct Hg as (g2 & H2 & Hg).
  injection Hg as <-. cbn [timesteps_passed set_timesteps_passed].
  apply update_E_counter in H1; [|exact Hk].
  apply update_H_counter in H2; [|exact Hk]. lia.
Qed.

Lemma steps_counter n g g' :
  collaborators_keep_counter ->
  steps n g = Ok g' -> timesteps_passed g' = timesteps_passed g + Z.of_nat n.
Proof.
  intros Hk. revert g. induction n as [|n IH]; intros g Hg; cbn [steps] in Hg.
  - injection Hg as <-. lia.
  - apply bind_Ok in Hg. destruct Hg as (g1 & H1 & Hg).
    apply IH in Hg. apply (step_counter _ _ Hk) in H1. lia.
Qed.

Lemma steps_bare n g :
  no_collaborators g -> exists g', steps n g = Ok g'.
Proof.
  revert g. induction n as [|n IH]; intros g Hn; cbn [steps].
  - now exists g.
  - rewrite step_bare by exact Hn. cbn [bind]. apply IH.
    destruct Hn as (Hs & Hb & Ho & Hd). repeat split; assumption.
Qed.

(** C6, amended. [run(total_time)] takes an int [total_time] as the
    count, and turns a float [total_time] into the count
    [int(total_time / timestep)] (truncation, without adding 0.5 and
    without [_handle_time]); it then is the sequence of [max(count, 0)]
    calls of [step()]: when it returns, and no collaborator method touches
    the counter, [timesteps_passed] has grown by exactly
    [max(count, 0)]; on a grid without collaborators it always returns. *)
Theorem run_step_count g :
  (forall k, run_count g (PyInt k) = Ok k) /\
  (forall f, PrimFloat.eqb (timestep g) 0 = false ->
     run_count g (PyFloat f) = int_of_float (f / timestep g)) /\
  (forall total_time progress_bar n,
     run_count g total_time = Ok n ->
     Grid_run g total_time progress_bar = steps (Z.to_nat n) g /\
     (collaborators_keep_counter ->
      forall g', Grid_run g total_time progress_bar = Ok g' ->
        timesteps_passed g' = timesteps_passed g + Z.max 0 n) /\
     (no_collaborators g ->
      exists g', Grid_run g total_time progress_bar = Ok g')).
Proof.
  split; [reflexivity|]. split.
  - intros f Ht. unfold run_count, truediv. rewrite Ht. reflexivity.
  - intros total_time progress_bar n Hn.
    assert (Hrun : Grid_run g total_time progress_bar = steps (Z.to_nat n) g).
    { unfold Grid_run. now rewrite Hn. }
    split; [exact Hrun|]. split.
    + intros Hk g' Hg. rewrite Hrun in Hg.
      apply (steps_counter _ _ _ Hk) in Hg. lia.
    + intros Hbare. rewrite Hrun. now apply steps_bare.
Qed.

End Run.

(** C6 fails as stated: on a grid whose timestep is 1.0,
    [run(1.5)] makes one step, while the time resolver ([_handle_time],
    round-half-up) gives 2 for 1.5. *)
Lemma run_counterexample :
  (forall m, Grid___init__ m [PyInt 2; PyInt 2; PyInt 2] (PyFloat 299792458)
               (PyFloat 1) (PyFloat 1) (Some (PyFloat 1)) = Ok unit_time_grid) /\
  timestep unit_time_grid = 1%float /\
  Grid__handle_time unit_time_grid (PyFloat 1.5) = Ok 2 /\
  floor_of_float (1.5 / timestep unit_time_grid + 0.5) = Some 2 /\
  exists g', Grid_run unit_time_grid (PyFloat 1.5) true = Ok g' /\
             timesteps_passed g' = timesteps_passed unit_time_grid + 1.
Proof.
  split; [intros m; reflexivity|]. do 3 (split; [reflexivity|]).
  eexists. split; vm_compute; reflexivity.
Qed.

Lemma bare_keep_counter :
  @collaborators_keep_counter Empty_set Empty_set Empty_set Empty_set _ _ _ _.
Proof. repeat split; intros []. Qed.

(** C6, amended, at the sample grid (timestep 0.25) and
    [run(1.875)]: 7 steps. *)
Lemma run_step_count_witness :
  exists g', Grid_run sample_grid (PyFloat 1.875) true = Ok g' /\
             timesteps_passed g' = timesteps_passed sample_grid + Z.max 0 7.
Proof.
  destruct (proj2 (proj2 (run_step_count sample_grid)) (PyFloat 1.875) true 7
              eq_refl) as (_ & Hcount & Hex).
  destruct (Hex ltac:(repeat split)) as [g' Hg'].
  exists g'. split; [exact Hg'|]. exact (Hcount bare_keep_counter g' Hg').
Defined.

(** ** The add methods *)
(** C7. What the code does instead: for every collaborator class, every
    grid and every string [name], [add_source(name, source)] raises, and
    so do [add_boundary], [add_detector] and [add_object]: the collections
    are lists, and a list does not take a str subscript. With a
    LineSource, [add_source] raises TypeError for every name, since
    [_register_grid] is called without its arguments [x], [y], [z]. *)
Theorem add_methods_raise :
  (forall (S B O Dt : Type) (sc : SourceClass S B O Dt)
          (g : Grid S B O Dt) (name : string) (source : S),
      exists e, Grid_add_source g (NameStr name) source = Raise e) /\
  (forall (S B O Dt : Type) (bc : BoundaryClass S B O Dt)
          (g : Grid S B O Dt) (name : string) (boundary : B),
      exists e, Grid_add_boundary g (NameStr name) boundary = Raise e) /\
  (forall (S B O Dt : Type) (dc : DetectorClass S B O Dt)
          (g : Grid S B O Dt) (name : string) (detector : Dt),
      exists e, Grid_add_detector g (NameStr name) detector = Raise e) /\
  (forall (S B O Dt : Type) (oc : ObjectClass S B O Dt)
          (g : Grid S B O Dt) (name : string) (obj : O),
      exists e, Grid_add_object g (NameStr name) obj = Raise e) /\
  (forall (B O Dt : Type) (m : Libm) (g : Grid LineSource.t B O Dt)
          (name : Name) (source : LineSource.t),
      Grid_add_source (sources := LineSource_class m) g name source
      = Raise TypeError).
Proof.
  repeat split.
  - intros S B O Dt sc g name source. unfold Grid_add_source.
    destruct (source__register_grid source g None None None) as [[s' g']|e];
      cbn [bind list_setitem]; eauto.
  - intros S B O Dt bc g name boundary. unfold Grid_add_boundary.
    destruct (boundary__register_grid boundary g None None None) as [[s' g']|e];
      cbn [bind list_setitem]; eauto.
  - intros S B O Dt dc g name detector. unfold Grid_add_detector.
    destruct (detector__register_grid detector g None None None) as [[s' g']|e];
      cbn [bind list_setitem]; eauto.
  - intros S B O Dt oc g name obj. unfold Grid_add_object.
    destruct (object__register_grid obj g None None None) as [[s' g']|e];
      cbn [bind list_setitem]; eauto.
Qed.

(** The call the documentation of [add_source] describes, on a fresh
    grid. *)
Example add_source_run :
  Grid_add_source (sources := LineSource_class sample_libm)
    (fresh_grid 0x1.ad7f29abcaf48p-26 2 2 2 0.5 1 1 : SourceGrid)
    (NameStr "source") (LineSource.__init__ 1 (PyInt 15) 1 0 None)
  = Raise TypeError.
Proof. reflexivity. Qed.

(** ** LineSource: footprint and injection *)
Lemma norm_index_lt n x i : norm_index n x = Ok i -> (i < n)%nat.
Proof.
  unfold norm_index.
  destruct ((0 <=? x) && (x <? Z.of_nat n)) eqn:H1.
  - intros [= <-]. apply andb_true_iff in H1. lia.
  - destruct ((- Z.of_nat n <=? x) && (x <? 0)) eqn:H2; [|discriminate].
    intros [= <-]. apply andb_true_iff in H2. lia.
Qed.

Lemma nth_set_nth_same {A} (c : nat) (v : A) l da :
  (c < length l)%nat -> nth c (set_nth c v l) da = v.
Proof. intros. rewrite nth_set_nth by assumption. now rewrite Nat.eqb_refl. Qed.

Lemma nth_set_nth_other {A} (c c' : nat) (v : A) l da :
  c' <> c -> nth c' (set_nth c v l) da = nth c' l da.
Proof.
  revert c c'; induction l as [|a l IH]; intros [|c] [|c'] Hne; simpl; auto;
    try congruence; try (apply IH; congruence).
Qed.

Lemma iadd_item_spec nx ny nz T x y z v T' :
  shape4P nx ny nz T ->
  iadd_item T x y z 2 v = Ok T' ->
  shape4P nx ny nz T' /\
  forall i j k c, (i < nx)%nat -> (j < ny)%nat -> (k < nz)%nat -> (c < 3)%nat ->
    get4 T' i j k c =
    if hit nx ny nz x y z i j k && (c =? 2)%nat
    then (get4 T i j k 2 + v)%float else get4 T i j k c.
Proof.
  intros [Hn HT] Hadd. unfold iadd_item in Hadd.
  apply bind_Ok in Hadd. destruct Hadd as (i0 & Hi0 & Hadd).
  apply bind_Ok in Hadd. destruct Hadd as (j0 & Hj0 & Hadd).
  apply bind_Ok in Hadd. destruct Hadd as (k0 & Hk0 & Hadd).
  apply bind_Ok in Hadd. destruct Hadd as (n0 & Hn0 & Hadd).
  injection Hadd as <-.
  rewrite Hn in Hi0. assert (Hi0' := norm_index_lt _ _ _ Hi0).
  destruct (HT _ Hi0') as [Hy HP].
  rewrite Hy in Hj0. assert (Hj0' := norm_index_lt _ _ _ Hj0).
  destruct (HP _ Hj0') as [Hz HR].
  rewrite Hz in Hk0. assert (Hk0' := norm_index_lt _ _ _ Hk0).
  rewrite (HR _ Hk0') in Hn0. injection Hn0 as <-. cbn [Z.to_nat Pos.to_nat Pos.iter_op Nat.add].
  set (cell := nth k0 (nth j0 (nth i0 T []) []) []) in *.
  set (R := nth j0 (nth i0 T []) []) in *.
  set (P := nth i0 T []) in *.
  assert (Hcell : length cell = 3%nat) by (apply HR; exact Hk0').
  split.
  - split; [now rewrite set_nth_length|].
    intros i Hi. destruct (Nat.eq_dec i i0) as [->|Hne].
    + rewrite nth_set_nth_same by lia. fold P. split; [now rewrite set_nth_length|].
      intros j Hj. destruct (Nat.eq_dec j j0) as [->|Hnj].
      * rewrite nth_set_nth_same by (fold P; lia). fold R.
        split; [now rewrite set_nth_length|].
        intros k Hk. destruct (Nat.eq_dec k k0) as [->|Hnk].
        -- rewrite nth_set_nth_same by (fold R; lia).
           now rewrite set_nth_length.
        -- rewrite nth_set_nth_other by exact Hnk. now apply HR.
      * rewrite nth_set_nth_other by exact Hnj. fold P in HP. now apply HP.
    + rewrite nth_set_nth_other by exact Hne. now apply HT.
  - intros i j k c Hi Hj Hk Hc. unfold hit. rewrite Hi0, Hj0, Hk0. unfold get4.
    destruct (Nat.eqb_spec i0 i) as [<-|Hne]; cbn [andb].
    2:{ rewrite nth_set_nth_other by congruence. reflexivity. }
    rewrite nth_set_nth_same by lia. fold P.
    destruct (Nat.eqb_spec j0 j) as [<-|Hnj]; cbn [andb].
    2:{ rewrite nth_set_nth_other by congruence. reflexivity. }
    rewrite nth_set_nth_same by (fold P; lia). fold R.
    destruct (Nat.eqb_spec k0 k) as [<-|Hnk]; cbn [andb].
    2:{ rewrite nth_set_nth_other by congruence. reflexivity. }
    rewrite nth_set_nth_same by (fold R; lia). fold cell.
    rewrite nth_set_nth by lia. reflexivity.
Qed.

Lemma inject_spec nx ny nz xs ys zs vect : forall T T',
  shape4P nx ny nz T ->
  inject T xs ys zs vect = Ok T' ->
  shape4P nx ny nz T' /\
  forall i j k c, (i < nx)%nat -> (j < ny)%nat -> (k < nz)%nat -> (c < 3)%nat ->
    get4 T' i j k c =
    if (c =? 2)%nat then injected nx ny nz xs ys zs vect i j k (get4 T i j k 2)
    else get4 T i j k c.
Proof.
  revert ys zs vect. induction xs as [|x xs IH]; intros ys zs vect T T' HT Hinj.
  - cbn [inject] in Hinj. injection Hinj as <-. split; [exact HT|].
    intros i j k c Hi Hj Hk Hc. cbn [injected].
    destruct (Nat.eqb_spec c 2) as [->|]; reflexivity.
  - destruct ys as [|y ys], zs as [|z zs], vect as [|v vect];
      cbn [inject] in Hinj;
      try (injection Hinj as <-; split; [exact HT|];
           intros i j k c Hi Hj Hk Hc; cbn [injected];
           destruct (Nat.eqb_spec c 2) as [->|]; reflexivity).
    apply bind_Ok in Hinj. destruct Hinj as (T1 & H1 & Hinj).
    destruct (iadd_item_spec nx ny nz T x y z v T1 HT H1) as [HT1 Hget1].
    destruct (IH ys zs vect T1 T' HT1 Hinj) as [HT' Hget'].
    split; [exact HT'|].
    intros i j k c Hi Hj Hk Hc. rewrite Hget' by assumption. cbn [injected].
    rewrite !Hget1 by (assumption || lia).
    destruct (Nat.eqb_spec c 2) as [->|Hc2].
    + cbn [Nat.eqb]. rewrite andb_true_r. reflexivity.
    + rewrite andb_false_r. reflexivity.
Qed.

Lemma injected_untouched nx ny nz xs ys zs vect i j k : forall e,
  touches nx ny nz xs ys zs i j k = false ->
  injected nx ny nz xs ys zs vect i j k e = e.
Proof.
  revert ys zs vect. induction xs as [|x xs IH]; intros ys zs vect e Ht.
  - reflexivity.
  - destruct ys as [|y ys], zs as [|z zs], vect as [|v vect]; try reflexivity.
    cbn [touches] in Ht. apply orb_false_iff in Ht. destruct Ht as [Hh Ht].
    cbn [injected]. rewrite Hh. now apply IH.
Qed.

Lemma linspace_length a b n : length (linspace a b n) = Z.to_nat n.
Proof. unfold linspace. now rewrite length_map, length_seq. Qed.

Section LineSourceFacts.
Context {B O Dt : Type}.
Variable m : Libm.
Implicit Type grid : Grid LineSource.t B O Dt.

Lemma handle_slices_line x y z x0 x1 y0 y1 z0 z1 :
  is_slice x || is_slice y || is_slice z = true ->
  list_to_slice x = Ok (Some x0, Some x1) ->
  list_to_slice y = Ok (Some y0, Some y1) ->
  list_to_slice z = Ok (Some z0, Some z1) ->
  LineSource__handle_slices x y z =
  let n := line_length x0 x1 y0 y1 z0 z1 in
  Ok (map astype_int (linspace x0 x1 n),
      map astype_int (linspace y0 y1 n),
      map astype_int (linspace z0 z1 n)).
Proof.
  intros Hs Hx Hy Hz. unfold LineSource__handle_slices.
  destruct x as [lx|sx ex tx], y as [ly|sy ey ty], z as [lz|sz ez tz];
    try discriminate Hs;
    rewrite Hx, Hy, Hz; reflexivity.
Qed.

(** What a successful registration did, in full. *)
Lemma register_Ok_full self grid x y z self' grid' :
  LineSource__register_grid m self grid (Some x) (Some y) (Some z)
  = Ok (self', grid') ->
  exists names xs ys zs period ipv,
    match LineSource.name self with
    | Some n => hasattr grid n = false /\ names = named grid ++ [n]
    | None => names = named grid
    end /\
    LineSource__handle_slices x y z = Ok (xs, ys, zs) /\
    Grid__handle_time grid (LineSource.period self) = Ok period /\
    fancy_index (inverse_permittivity grid) xs ys zs 2 = Ok ipv /\
    LineSource.x self' = xs /\ LineSource.y self' = ys /\
    LineSource.z self' = zs /\
    LineSource.period self' = PyInt period /\
    LineSource.power self' = LineSource.power self /\
    LineSource.phase_shift self' = LineSource.phase_shift self /\
    LineSource.name self' = LineSource.name self /\
    LineSource.ident self' = LineSource.ident self /\
    length (LineSource.profile self') = length xs /\
    grid' = set__sources (set_named grid names)
                         (reassigned self' (_sources grid) ++ [self']).
Proof.
  intros Hreg. unfold LineSource__register_grid in Hreg.
  apply bind_Ok in Hreg. destruct Hreg as (names & Hnames & Hreg).
  apply bind_Ok in Hreg. destruct Hreg as ([[xs ys] zs] & Hsl & Hreg).
  apply bind_Ok in Hreg. destruct Hreg as (period & Hper & Hreg).
  apply bind_Ok in Hreg. destruct Hreg as (ipv & Hip & Hreg).
  apply bind_Ok in Hreg. destruct Hreg as (xm & Hxm & Hreg).
  apply bind_Ok in Hreg. destruct Hreg as (ym & Hym & Hreg).
  apply bind_Ok in Hreg. destruct Hreg as (zm & Hzm & Hreg).
  injection Hreg as <- <-.
  exists names, xs, ys, zs, period, ipv.
  cbn [LineSource.x LineSource.y LineSource.z LineSource.period
       LineSource.power LineSource.phase_shift LineSource.name
       LineSource.ident LineSource.profile].
  split.
  { destruct (LineSource.name self) as [n|].
    - destruct (hasattr grid n); cbn [negb] in Hnames; [discriminate|].
      now injection Hnames as <-.
    - now injection Hnames as <-. }
  repeat split; try assumption.
  now rewrite zipw_length, !length_map, !zipw_length, length_map.
Qed.

(** The indices a registration accepted are in range. *)
Lemma getitem_norm nx ny nz T x y z v :
  shape4P nx ny nz T -> getitem T x y z 2 = Ok v ->
  exists i j k, norm_index nx x = Ok i /\ norm_index ny y = Ok j /\
                norm_index nz z = Ok k.
Proof.
  intros [Hn HT] Hget. unfold getitem in Hget.
  apply bind_Ok in Hget. destruct Hget as (i & Hi & Hget).
  apply bind_Ok in Hget. destruct Hget as (j & Hj & Hget).
  apply bind_Ok in Hget. destruct Hget as (k & Hk & _).
  rewrite Hn in Hi. assert (Hi' := norm_index_lt _ _ _ Hi).
  destruct (HT _ Hi') as [Hy HP]. rewrite Hy in Hj.
  assert (Hj' := norm_index_lt _ _ _ Hj).
  destruct (HP _ Hj') as [Hz _]. rewrite Hz in Hk.
  now exists i, j, k.
Qed.

Lemma iadd_item_in_range nx ny nz T x y z v i j k :
  shape4P nx ny nz T ->
  norm_index nx x = Ok i -> norm_index ny y = Ok j -> norm_index nz z = Ok k ->
  exists T', iadd_item T x y z 2 v = Ok T'.
Proof.
  intros [Hn HT] Hi Hj Hk. unfold iadd_item.
  rewrite Hn, Hi. cbn [bind].
  assert (Hi' := norm_index_lt _ _ _ Hi). destruct (HT _ Hi') as [Hy HP].
  rewrite Hy, Hj. cbn [bind].
  assert (Hj' := norm_index_lt _ _ _ Hj). destruct (HP _ Hj') as [Hz HR].
  rewrite Hz, Hk. cbn [bind].
  assert (Hk' := norm_index_lt _ _ _ Hk). rewrite (HR _ Hk').
  eexists. reflexivity.
Qed.

Lemma gather_inject nx ny nz T0 xs : forall ys zs vs T vect,
  shape4P nx ny nz T0 -> gather T0 xs ys zs 2 = Ok vs ->
  shape4P nx ny nz T ->
  exists T', inject T xs ys zs vect = Ok T' /\ shape4P nx ny nz T'.
Proof.
  induction xs as [|x xs IH]; intros ys zs vs T vect HT0 Hg HT.
  - exists T. now split.
  - destruct ys as [|y ys], zs as [|z zs], vect as [|v vect]; cbn [inject];
      try (exists T; now split).
    cbn [gather] in Hg.
    apply bind_Ok in Hg. destruct Hg as (v0 & Hget & Hg).
    apply bind_Ok in Hg. destruct Hg as (vs' & Hg & _).
    destruct (getitem_norm _ _ _ _ _ _ _ _ HT0 Hget) as (i & j & k & Hi & Hj & Hk).
    destruct (iadd_item_in_range nx ny nz T x y z v i j k HT Hi Hj Hk) as [T1 H1].
    rewrite H1. cbn [bind].
    destruct (iadd_item_spec nx ny nz T x y z v T1 HT H1) as [HT1 _].
    now apply (IH ys zs vs' T1 vect).
Qed.

Lemma gather_hits nx ny nz T xs : forall ys zs vs p,
  shape4P nx ny nz T -> gather T xs ys zs 2 = Ok vs ->
  (p < length xs)%nat -> (p < length ys)%nat -> (p < length zs)%nat ->
  exists i j k, (i < nx)%nat /\ (j < ny)%nat /\ (k < nz)%nat /\
    hit nx ny nz (nth p xs 0) (nth p ys 0) (nth p zs 0) i j k = true.
Proof.
  induction xs as [|x xs IH]; intros ys zs vs p HT Hg Hx Hy Hz.
  - cbn [length] in Hx. lia.
  - destruct ys as [|y ys]; [cbn [length] in Hy; lia|].
    destruct zs as [|z zs]; [cbn [length] in Hz; lia|].
    cbn [gather] in Hg.
    apply bind_Ok in Hg. destruct Hg as (v0 & Hget & Hg).
    apply bind_Ok in Hg. destruct Hg as (vs' & Hg & _).
    destruct p as [|p]; cbn [nth].
    + destruct (getitem_norm _ _ _ _ _ _ _ _ HT Hget)
        as (i & j & k & Hi & Hj & Hk).
      exists i, j, k.
      split; [exact (norm_index_lt _ _ _ Hi)|].
      split; [exact (norm_index_lt _ _ _ Hj)|].
      split; [exact (norm_index_lt _ _ _ Hk)|].
      unfold hit. rewrite Hi, Hj, Hk. now rewrite !Nat.eqb_refl.
    + cbn [length] in Hx, Hy, Hz.
      apply (IH ys zs vs' p HT Hg); lia.
Qed.

Lemma update_E_inv self grid grid' :
  LineSource_update_E m self grid = Ok grid' ->
  exists s E',
    inject (E grid) (LineSource.x self) (LineSource.y self) (LineSource.z self)
           (map (fun p => p * s)%float (LineSource.profile self)) = Ok E' /\
    grid' = set_E grid E'.
Proof.
  intros Hu. unfold LineSource_update_E in Hu.
  apply bind_Ok in Hu. destruct Hu as (q & _ & Hu).
  apply bind_Ok in Hu. destruct Hu as (p & _ & Hu).
  apply bind_Ok in Hu. destruct Hu as (a & _ & Hu).
  apply bind_Ok in Hu. destruct Hu as (s & _ & Hu).
  apply bind_Ok in Hu. destruct Hu as (E' & HE & Hu).
  injection Hu as <-. now exists s, E'.
Qed.

(** C9. A LineSource registered with at least one slice among its three
    keys, spanning the corners (x0, y0, z0) and (x1, y1, z1) of a grid
    whose arrays have the shape (nx, ny, nz, 3), has as footprint the
    [m = max(|x1-x0|, |y1-y0|, |z1-z0|)] evenly spaced points of the
    line, truncated to integers, each of them a cell of the grid.
    [update_E] returns (the counter and the period being floats, the
    period not zero, the sine defined) and adds the value
    [profile[p] * sin(2 * pi * q / period + phase_shift)] to the
    component 2 of E at the cell of the point [p], for each of these [m]
    points; it leaves every other entry of E and the rest of the grid, H
    included, unchanged; [update_H] is a no-op. *)
Theorem line_source_footprint self grid x y z x0 x1 y0 y1 z0 z1 nx ny nz
        self' grid' :
  is_slice x || is_slice y || is_slice z = true ->
  list_to_slice x = Ok (Some x0, Some x1) ->
  list_to_slice y = Ok (Some y0, Some y1) ->
  list_to_slice z = Ok (Some z0, Some z1) ->
  has_shape nx ny nz (inverse_permittivity grid) = true ->
  LineSource__register_grid m self grid (Some x) (Some y) (Some z)
  = Ok (self', grid') ->
  @line_footprint_post B O Dt m x0 x1 y0 y1 z0 z1 nx ny nz self'.
Proof.
  intros Hs Hx Hy Hz Hip Hreg.
  apply register_Ok_full in Hreg.
  destruct Hreg as (names & xs & ys & zs & period & ipv & _ & Hsl & _ & Hfi
                    & Hxs & Hys & Hzs & Hper & _ & _ & _ & _ & Hlen & _).
  rewrite (handle_slices_line _ _ _ _ _ _ _ _ _ Hs Hx Hy Hz) in Hsl.
  cbv zeta in Hsl. injection Hsl as <- <- <-.
  apply has_shape_P in Hip.
  assert (Hg : gather (inverse_permittivity grid) (LineSource.x self')
                 (LineSource.y self') (LineSource.z self') 2 = Ok ipv).
  { rewrite Hxs, Hys, Hzs. unfold fancy_index in Hfi. revert Hfi.
    destruct (map astype_int (linspace x0 x1 (line_length x0 x1 y0 y1 z0 z1)));
      intros Hfi; [discriminate Hfi|exact Hfi]. }
  assert (Lx : length (LineSource.x self')
               = Z.to_nat (line_length x0 x1 y0 y1 z0 z1)).
  { now rewrite Hxs, length_map, linspace_length. }
  assert (Ly : length (LineSource.y self')
               = Z.to_nat (line_length x0 x1 y0 y1 z0 z1)).
  { now rewrite Hys, length_map, linspace_length. }
  assert (Lz : length (LineSource.z self')
               = Z.to_nat (line_length x0 x1 y0 y1 z0 z1)).
  { now rewrite Hzs, length_map, linspace_length. }
  unfold line_footprint_post. cbv zeta.
  split; [auto|].
  split; [repeat split; congruence|].
  split.
  { intros p Hp.
    apply (gather_hits nx ny nz _ _ _ _ ipv p Hip Hg); congruence. }
  split; [now exists period|].
  split; [|split; [|reflexivity]].
  - intros g per Hp Hshape Hq Hpi Hp0 Harg.
    apply has_shape_P in Hshape.
    destruct (gather_inject nx ny nz _ _ _ _ ipv (E g)
                (map (fun v => v * libm_sin m
                         (2 * pi * Z2F (timesteps_passed g) / Z2F per
                          + LineSource.phase_shift self'))%float
                     (LineSource.profile self')) Hip Hg Hshape)
      as (E' & Hinj & HE').
    exists E'. split.
    { unfold LineSource_update_E. rewrite Hp. unfold float_, truediv, math_sin.
      cbv zeta. rewrite Hq, Hpi. cbn [bind]. rewrite Hp0. cbn [bind].
      rewrite Harg. cbn [bind]. rewrite Hinj. reflexivity. }
    split; [now apply shape4P_has_shape|].
    intros i j k c Hi Hj Hk Hc.
    destruct (inject_spec _ _ _ _ _ _ _ _ _ Hshape Hinj) as [_ Hget].
    rewrite (Hget i j k c) by assumption. split; [reflexivity|].
    intros [Hc2|Ht].
    + apply Nat.eqb_neq in Hc2. now rewrite Hc2.
    + destruct (c =? 2)%nat eqn:Hc2; [|reflexivity].
      apply Nat.eqb_eq in Hc2. subst c. now apply injected_untouched.
  - intros g g' Hupd. apply update_E_inv in Hupd.
    destruct Hupd as (v & E' & _ & ->). reflexivity.
Qed.

End LineSourceFacts.

(** C9 at [grid[0:10, 0, 0] = source] on a (12, 2, 1) grid. *)
Lemma line_source_footprint_witness :
  @line_footprint_post Empty_set Empty_set Empty_set sample_libm
    0 10 0 0 0 0 12 2 1 (fst line_attached).
Proof.
  apply (line_source_footprint sample_libm line_source line_grid
           (LSlice (Some 0) (Some 10) None) (LList [0]) (LList [0])
           0 10 0 0 0 0 12 2 1 (fst line_attached) (snd line_attached));
    vm_compute; reflexivity.
Defined.

(** On the sample platform, three steps after the attachment [update_E]
    adds the same non-zero value of the profile times the sine to the
    second and to the last cell of the line (both four cells from its
    middle), and nothing next to the line. *)
Example line_source_adds :
  exists g',
    LineSource_update_E sample_libm (fst line_attached)
      (set_timesteps_passed (snd line_attached) 3) = Ok g' /\
    get4 (E g') 1 0 0 2 = get4 (E g') 9 0 0 2 /\
    PrimFloat.eqb (get4 (E g') 1 0 0 2) 0 = false /\
    get4 (E g') 10 0 0 2 = 0%float /\ get4 (E g') 0 1 0 2 = 0%float /\
    H g' = H (snd line_attached).
Proof. eexists. split; [vm_compute; reflexivity|]. repeat split. Qed.

Example line_source_ten_points :
  LineSource.x (fst line_attached) = [0; 1; 2; 3; 4; 5; 6; 7; 8; 9] /\
  LineSource.y (fst line_attached) = [0; 0; 0; 0; 0; 0; 0; 0; 0; 0] /\
  LineSource.z (fst line_attached) = [0; 0; 0; 0; 0; 0; 0; 0; 0; 0].
Proof. repeat split. Qed.

(** ** Attachment by index assignment *)
Section Attachment.
Context {B O Dt : Type}.
Context {boundaries : BoundaryClass LineSource.t B O Dt}
        {objects : ObjectClass LineSource.t B O Dt}
        {detectors : DetectorClass LineSource.t B O Dt}.
Variable m : Libm.
Implicit Type g : Grid LineSource.t B O Dt.




Lemma update_E_before_sources_bare {S' B' O' Dt' : Type}
      {boundaries' : BoundaryClass S' B' O' Dt'}
      {objects' : ObjectClass S' B' O' Dt'}
      (G : Grid S' B' O' Dt') :
  _boundaries G = [] -> _objects G = [] ->
  Grid_update_E_before_sources G = Ok (core_update_E G).
Proof.
  intros Hb Ho. unfold Grid_update_E_before_sources, core_update_E.
  rewrite Hb. grid_simpl. rewrite Ho. grid_simpl. rewrite Hb. reflexivity.
Qed.



End Attachment.


(** On a grid without boundaries and objects, as the one of the example,
    the state that meets the loop over the sources is the one after the
    assignment to [E]. *)
Example attached_grid_before_sources :
  Grid_update_E_before_sources (snd line_attached)
  = Ok (core_update_E (snd line_attached)).
Proof. now apply update_E_before_sources_bare. Qed.

(** A source attached a second time is one object at both entries of the
    grid's list, with the footprint of the second attachment. *)
Example attached_twice_one_object :
  _sources (snd twice_attached) = [fst twice_attached; fst twice_attached] /\
  LineSource.x (fst twice_attached) = [0; 1; 2] /\
  LineSource.y (fst twice_attached) = [1; 1; 1] /\
  LineSource.z (fst twice_attached) = [0; 0; 0].
Proof. repeat split. Qed.

(** On the sample platform, two steps after the attachment the field is
    no longer zero at the middle of the line. *)
Example line_source_injects :
  exists g', Grid_run (sources := LineSource_class sample_libm)
               (snd line_attached) (PyInt 2) false = Ok g' /\
             PrimFloat.eqb (get4 (E g') 5 0 0 2) 0 = false.
Proof. eexists. split; vm_compute; reflexivity. Qed.

(** * Further properties *)

(** ** Float arithmetic of [reset] and of the curls *)
Lemma SFcompare_finite_refl s m e :
  SFcompare (S754_finite s m e) (S754_finite s m e) = Some Eq.
Proof.
  unfold SFcompare. destruct s; rewrite Z.compare_refl;
    rewrite Pos.compare_cont_refl; reflexivity.
Qed.

Lemma nonfinite_cases x :
  is_finite x = false ->
  Prim2SF x = S754_nan \/ exists s, Prim2SF x = S754_infinity s.
Proof.
  unfold is_finite, is_nan, is_infinity.
  rewrite negb_false_iff, orb_true_iff, negb_true_iff.
  rewrite !eqb_spec, abs_spec. unfold SFeqb.
  destruct (Prim2SF x) as [s|s| |s m e] eqn:Hx.
  - intros [H|H]; simpl in H; discriminate.
  - intros _. right. now exists s.
  - intros _. now left.
  - rewrite SFcompare_finite_refl. intros [H|H]; simpl in H; discriminate.
Qed.

Lemma mul_zero_finite x : is_finite x = true -> is_zero (x * 0) = true.
Proof.
  intros Hx. unfold is_zero. rewrite eqb_spec, mul_spec.
  destruct (finite_cases x Hx) as [[s ->]|(s & m & e & ->)];
    destruct s; reflexivity.
Qed.

Lemma mul_zero_nonfinite x : is_finite x = false -> (x * 0 = nan)%float.
Proof.
  intros Hx. apply Prim2SF_inj. rewrite mul_spec.
  destruct (nonfinite_cases x Hx) as [->|[s ->]]; reflexivity.
Qed.

Lemma mul_zero_twice x : (x * 0 * 0 = x * 0)%float.
Proof.
  apply Prim2SF_inj. rewrite !mul_spec.
  destruct (Prim2SF x) as [s|s| |s m e]; try destruct s; reflexivity.
Qed.

Lemma sub_self_finite x : is_finite x = true -> (x - x = 0)%float.
Proof.
  intros Hx. apply Prim2SF_inj. rewrite sub_spec.
  destruct (finite_cases x Hx) as [[s ->]|(s & m & e & ->)].
  - destruct s; reflexivity.
  - unfold SF64sub, SFsub. cbv zeta. rewrite Z.sub_diag. reflexivity.
Qed.

(** ** Arrays *)
Lemma has_shape_full v nx ny nz : has_shape nx ny nz (full v nx ny nz) = true.
Proof. apply shape4P_has_shape, shape_full. Qed.

Lemma all_entries_map4 p f T :
  all_entries p (map4 f T) = all_entries (fun v => p (f v)) T.
Proof.
  unfold all_entries, map4.
  induction T as [|P T IHT]; cbn [map forallb]; [reflexivity|].
  f_equal; [|exact IHT]. clear IHT.
  induction P as [|R P IHP]; cbn [map forallb]; [reflexivity|].
  f_equal; [|exact IHP]. clear IHP.
  induction R as [|cell R IHR]; cbn [map forallb]; [reflexivity|].
  f_equal; [|exact IHR]. clear IHR.
  induction cell as [|v cell IHc]; cbn [map forallb]; [reflexivity|].
  now rewrite IHc.
Qed.

Lemma forallb_impl {A} (p q : A -> bool) l :
  (forall a, p a = true -> q a = true) ->
  forallb p l = true -> forallb q l = true.
Proof.
  intros Hpq. rewrite !forallb_forall. auto.
Qed.

Lemma all_entries_impl (p q : float -> bool) T :
  (forall v, p v = true -> q v = true) ->
  all_entries p T = true -> all_entries q T = true.
Proof.
  intros Hpq. unfold all_entries.
  apply forallb_impl. intros P. apply forallb_impl. intros R.
  apply forallb_impl. intros cell. now apply forallb_impl.
Qed.

Lemma map4_idem f T :
  (forall v, f (f v) = f v) -> map4 f (map4 f T) = map4 f T.
Proof.
  intros Hf. unfold map4. rewrite map_map. apply map_ext. intros P.
  rewrite map_map. apply map_ext. intros R.
  rewrite map_map. apply map_ext. intros cell.
  rewrite map_map. apply map_ext. exact Hf.
Qed.

Lemma shape_uniform a b c nx ny nz :
  shape4P nx ny nz (uniform_field a b c nx ny nz).
Proof.
  unfold uniform_field. split; [apply repeat_length|].
  intros i Hi. rewrite nth_repeat_lt by exact Hi. split; [apply repeat_length|].
  intros j Hj. rewrite nth_repeat_lt by exact Hj. split; [apply repeat_length|].
  intros k Hk. rewrite nth_repeat_lt by exact Hk. reflexivity.
Qed.

Lemma get_uniform a b c nx ny nz i j k comp :
  (i < nx)%nat -> (j < ny)%nat -> (k < nz)%nat ->
  get4 (uniform_field a b c nx ny nz) i j k comp = nth comp [a; b; c] 0%float.
Proof.
  intros Hi Hj Hk. unfold get4, uniform_field.
  now rewrite !nth_repeat_lt by assumption.
Qed.

(** ** [reset] *)
Section Reset.
Context {S B O Dt : Type}.
Implicit Type g : Grid S B O Dt.

(** X1. On a grid whose fields hold only finite floats, [reset()] leaves
    every entry of E and of H a zero (of either sign) and the step counter
    0; the registered collaborators and the material arrays are kept. *)
Theorem reset_clears_finite_fields g :
  all_entries is_finite (E g) = true ->
  all_entries is_finite (H g) = true ->
  all_entries is_zero (E (Grid_reset g)) = true /\
  all_entries is_zero (H (Grid_reset g)) = true /\
  timesteps_passed (Grid_reset g) = 0 /\
  _sources (Grid_reset g) = _sources g /\
  _boundaries (Grid_reset g) = _boundaries g /\
  _detectors (Grid_reset g) = _detectors g /\
  _objects (Grid_reset g) = _objects g /\
  inverse_permittivity (Grid_reset g) = inverse_permittivity g /\
  inverse_permeability (Grid_reset g) = inverse_permeability g.
Proof.
  intros HE HH. unfold Grid_reset. grid_simpl.
  rewrite !all_entries_map4.
  split; [|split; [|split; [apply Z.mul_0_r|repeat split]]].
  - revert HE. apply all_entries_impl. exact mul_zero_finite.
  - revert HH. apply all_entries_impl. exact mul_zero_finite.
Qed.

(** X2. [reset()] does not clear an entry that is NaN or an infinity:
    multiplied by 0.0 it is NaN afterwards. *)
Theorem reset_keeps_nonfinite g nx ny nz i j k c :
  has_shape nx ny nz (E g) = true -> has_shape nx ny nz (H g) = true ->
  (i < nx)%nat -> (j < ny)%nat -> (k < nz)%nat -> (c < 3)%nat ->
  (is_finite (get4 (E g) i j k c) = false ->
   get4 (E (Grid_reset g)) i j k c = nan) /\
  (is_finite (get4 (H g) i j k c) = false ->
   get4 (H (Grid_reset g)) i j k c = nan).
Proof.
  intros HE HH Hi Hj Hk Hc. apply has_shape_P in HE, HH.
  unfold Grid_reset. grid_simpl. split; intros Hnf.
  - rewrite (get_map4 nx ny nz) by assumption. now apply mul_zero_nonfinite.
  - rewrite (get_map4 nx ny nz) by assumption. now apply mul_zero_nonfinite.
Qed.

(** X3. Resetting twice is resetting once, for every grid. *)
Theorem reset_idempotent g : Grid_reset (Grid_reset g) = Grid_reset g.
Proof.
  unfold Grid_reset. destruct g. grid_simpl.
  rewrite !(map4_idem (fun v => v * 0)%float) by (intros v; apply mul_zero_twice).
  rewrite !Z.mul_0_r. reflexivity.
Qed.

End Reset.

(** X1 at the sample grid. *)
Lemma reset_clears_finite_fields_witness :
  all_entries is_zero (E (Grid_reset sample_grid)) = true /\
  all_entries is_zero (H (Grid_reset sample_grid)) = true /\
  timesteps_passed (Grid_reset sample_grid) = 0 /\
  _sources (Grid_reset sample_grid) = _sources sample_grid /\
  _boundaries (Grid_reset sample_grid) = _boundaries sample_grid /\
  _detectors (Grid_reset sample_grid) = _detectors sample_grid /\
  _objects (Grid_reset sample_grid) = _objects sample_grid /\
  inverse_permittivity (Grid_reset sample_grid) = inverse_permittivity sample_grid /\
  inverse_permeability (Grid_reset sample_grid) = inverse_permeability sample_grid.
Proof. apply reset_clears_finite_fields; reflexivity. Defined.

(** X2 at the grid whose E is NaN everywhere. *)
Lemma reset_keeps_nonfinite_witness :
  get4 (E (Grid_reset nan_grid)) 1 0 1 2 = nan.
Proof.
  refine (proj1 (reset_keeps_nonfinite nan_grid 2 2 2 1 0 1 2 _ _ _ _ _ _) _);
    first [reflexivity | lia].
Defined.

(** ** The curls *)
(** X4. Both curls return an array of the shape of their argument. *)
Theorem curl_preserves_shape nx ny nz F :
  has_shape nx ny nz F = true ->
  has_shape nx ny nz (curl_E F) = true /\ has_shape nx ny nz (curl_H F) = true.
Proof.
  intros HF. apply has_shape_P in HF.
  split; apply shape4P_has_shape; [now apply shape_curl_E | now apply shape_curl_H].
Qed.

(** X4 at the sample field. *)
Lemma curl_preserves_shape_witness :
  has_shape 2 3 2 (curl_E sample_field) = true /\
  has_shape 2 3 2 (curl_H sample_field) = true.
Proof. apply curl_preserves_shape. reflexivity. Defined.

(** X5. Both curls of a field that holds the same finite vector in
    every cell are zero everywhere, the boundary faces included. *)
Theorem curl_uniform_zero a b c nx ny nz :
  is_finite a = true -> is_finite b = true -> is_finite c = true ->
  curl_E (uniform_field a b c nx ny nz) = full 0 nx ny nz /\
  curl_H (uniform_field a b c nx ny nz) = full 0 nx ny nz.
Proof.
  intros Ha Hb Hc.
  assert (HF := shape_uniform a b c nx ny nz).
  assert (H0 := shape_full 0 nx ny nz).
  split.
  - apply (tensor_ext nx ny nz); [now apply shape_curl_E | exact H0 |].
    intros i j k comp Hi Hj Hk Hcomp. rewrite (get_full 0) by assumption.
    destruct comp as [|[|[|comp]]]; [| | |lia].
    + rewrite (curl_E_x nx ny nz) by assumption. unfold acc.
      destruct (Nat.ltb_spec (j + 1) ny), (Nat.ltb_spec (k + 1) nz);
        rewrite ?get_uniform by lia; cbn [nth];
        rewrite ?sub_self_finite by assumption; reflexivity.
    + rewrite (curl_E_y nx ny nz) by assumption. unfold acc.
      destruct (Nat.ltb_spec (i + 1) nx), (Nat.ltb_spec (k + 1) nz);
        rewrite ?get_uniform by lia; cbn [nth];
        rewrite ?sub_self_finite by assumption; reflexivity.
    + rewrite (curl_E_z nx ny nz) by assumption. unfold acc.
      destruct (Nat.ltb_spec (i + 1) nx), (Nat.ltb_spec (j + 1) ny);
        rewrite ?get_uniform by lia; cbn [nth];
        rewrite ?sub_self_finite by assumption; reflexivity.
  - apply (tensor_ext nx ny nz); [now apply shape_curl_H | exact H0 |].
    intros i j k comp Hi Hj Hk Hcomp. rewrite (get_full 0) by assumption.
    destruct comp as [|[|[|comp]]]; [| | |lia].
    + rewrite (curl_H_x nx ny nz) by assumption. unfold acc.
      destruct (Nat.leb_spec 1 j), (Nat.leb_spec 1 k);
        rewrite ?get_uniform by lia; cbn [nth];
        rewrite ?sub_self_finite by assumption; reflexivity.
    + rewrite (curl_H_y nx ny nz) by assumption. unfold acc.
      destruct (Nat.leb_spec 1 i), (Nat.leb_spec 1 k);
        rewrite ?get_uniform by lia; cbn [nth];
        rewrite ?sub_self_finite by assumption; reflexivity.
    + rewrite (curl_H_z nx ny nz) by assumption. unfold acc.
      destruct (Nat.leb_spec 1 i), (Nat.leb_spec 1 j);
        rewrite ?get_uniform by lia; cbn [nth];
        rewrite ?sub_self_finite by assumption; reflexivity.
Qed.

(** X5 at a 3 x 2 x 4 field of the vector (1.5, -2, 0.25). *)
Lemma curl_uniform_zero_witness :
  curl_E (uniform_field 1.5 (-2) 0.25 3 2 4) = full 0 3 2 4 /\
  curl_H (uniform_field 1.5 (-2) 0.25 3 2 4) = full 0 3 2 4.
Proof. apply curl_uniform_zero; reflexivity. Defined.

(** ** The constructor *)
Section ConstructorFacts.
Context {S B O Dt : Type}.

(** X6. A grid the constructor returns has non-negative sizes, four
    arrays of the shape (Nx, Ny, Nz, 3), no collaborators, no named
    attribute, the step counter 0, and the material arrays filled with
    [1.0 / float(permittivity)] and [1.0 / float(permeability)]. *)
Theorem init_postcondition m shape gs pe pm cn (g : Grid S B O Dt) :
  Grid___init__ m shape gs pe pm cn = Ok g ->
  (0 <= Nx g /\ 0 <= Ny g /\ 0 <= Nz g) /\
  well_shaped (Z.to_nat (Nx g)) (Z.to_nat (Ny g)) (Z.to_nat (Nz g)) g = true /\
  no_collaborators g /\ named g = [] /\ timesteps_passed g = 0 /\
  (exists pef pmf,
      float_ pe = Ok pef /\ float_ pm = Ok pmf /\
      inverse_permittivity g =
        full (1 / pef) (Z.to_nat (Nx g)) (Z.to_nat (Ny g)) (Z.to_nat (Nz g)) /\
      inverse_permeability g =
        full (1 / pmf) (Z.to_nat (Nx g)) (Z.to_nat (Ny g)) (Z.to_nat (Nz g))).
Proof.
  intros Hinit. apply init_Ok_inv in Hinit.
  destruct Hinit as (gsf & nx & ny & nz & cnf & pef & pmf & _ & _ & _ & Hx & Hy & Hz & Hpe & Hpm & ->).
  unfold fresh_grid, well_shaped, no_collaborators. grid_simpl.
  split; [auto|]. split; [now rewrite !has_shape_full|].
  split; [auto|]. split; [reflexivity|]. split; [reflexivity|].
  exists pef, pmf. auto.
Qed.

(** X7. With a grid spacing equal to zero, a shape of three numbers of
    which at least one is not an int is a ZeroDivisionError. *)
Theorem init_zero_spacing m shape gs pe pm cn gsf :
  float_ gs = Ok gsf -> PrimFloat.eqb gsf 0 = true ->
  length shape = 3%nat -> existsb is_PyFloat shape = true ->
  @Grid___init__ S B O Dt m shape gs pe pm cn = Raise ZeroDivisionError.
Proof.
  intros Hgs Hz Hlen Hfl. unfold Grid___init__. rewrite Hgs. cbn [bind].
  destruct shape as [|a [|b [|c [|d shape]]]]; try discriminate Hlen.
  unfold Grid__handle_tuple, Grid__handle_distance, float_, truediv.
  cbn [grid_spacing set_grid_spacing bind]. rewrite Hz.
  destruct a, b, c; try discriminate Hfl; reflexivity.
Qed.

End ConstructorFacts.

(** X6 at the grid of the line source example. *)
Lemma init_postcondition_witness :
  (0 <= Nx line_grid /\ 0 <= Ny line_grid /\ 0 <= Nz line_grid) /\
  well_shaped (Z.to_nat (Nx line_grid)) (Z.to_nat (Ny line_grid))
              (Z.to_nat (Nz line_grid)) line_grid = true /\
  no_collaborators line_grid /\ named line_grid = [] /\
  timesteps_passed line_grid = 0 /\
  (exists pef pmf,
      float_ (PyFloat 1) = Ok pef /\ float_ (PyInt 1) = Ok pmf /\
      inverse_permittivity line_grid =
        full (1 / pef) (Z.to_nat (Nx line_grid)) (Z.to_nat (Ny line_grid))
             (Z.to_nat (Nz line_grid)) /\
      inverse_permeability line_grid =
        full (1 / pmf) (Z.to_nat (Nx line_grid)) (Z.to_nat (Ny line_grid))
             (Z.to_nat (Nz line_grid))).
Proof.
  apply (init_postcondition sample_libm [PyInt 12; PyInt 2; PyFloat 0x1.ad7f29abcaf48p-26]
           (PyFloat 0x1.ad7f29abcaf48p-26) (PyFloat 1) (PyInt 1) (Some (PyFloat 0.5))).
  reflexivity.
Defined.

(** X7 at [Grid((20, 1.0, 20), grid_spacing=0)]. *)
Lemma init_zero_spacing_witness :
  @Grid___init__ Empty_set Empty_set Empty_set Empty_set sample_libm
    [PyInt 20; PyFloat 1; PyInt 20] (PyInt 0) (PyFloat 1) (PyFloat 1) None
  = Raise ZeroDivisionError.
Proof. apply (init_zero_spacing _ _ _ _ _ _ 0%float); reflexivity. Defined.

(** ** What steps keep *)
Section StepInvariant.
Context {S B O Dt : Type}.
Context {sources : SourceClass S B O Dt} {boundaries : BoundaryClass S B O Dt}
        {objects : ObjectClass S B O Dt} {detectors : DetectorClass S B O Dt}.
Implicit Type g : Grid S B O Dt.

Lemma step_bare_invariant g nx ny nz :
  no_collaborators g -> well_shaped nx ny nz g = true ->
  exists g', Grid_step g = Ok g' /\ well_shaped nx ny nz g' = true /\
             no_collaborators g' /\ same_setup g g' /\
             timesteps_passed g' = timesteps_passed g + 1.
Proof.
  intros Hn Hw. eexists. split; [apply step_bare; exact Hn|].
  unfold well_shaped in *. rewrite !andb_true_iff in Hw.
  destruct Hw as [[[HE HH] Hpe] Hpm].
  pose proof (has_shape_P _ _ _ _ HE) as HE'.
  pose proof (has_shape_P _ _ _ _ HH) as HH'.
  pose proof (has_shape_P _ _ _ _ Hpe) as Hpe'.
  pose proof (has_shape_P _ _ _ _ Hpm) as Hpm'.
  unfold core_update_H, core_update_E, same_setup, no_collaborators. grid_simpl.
  assert (HE1 : shape4P nx ny nz
            (zip4 PrimFloat.add (E g)
               (zip4 PrimFloat.mul
                  (map4 (PrimFloat.mul (courant_number g)) (inverse_permittivity g))
                  (curl_H (H g))))).
  { apply shape_zip4; [exact HE'|]. apply shape_zip4;
      [now apply shape_map4 | now apply shape_curl_H]. }
  split.
  - rewrite !andb_true_iff. repeat split; try assumption.
    + now apply shape4P_has_shape.
    + apply shape4P_has_shape. apply shape_zip4; [exact HH'|].
      apply shape_zip4; [now apply shape_map4 | now apply shape_curl_E].
  - split; [exact Hn|]. split; [repeat split|reflexivity].
Qed.

(** X8. On a grid without collaborators whose four arrays have one
    shape, any number of steps returns: the arrays keep that shape, the
    spacing, Courant number, timestep and materials are unchanged, no
    collaborator appears, and the counter has grown by the number of
    steps. *)
Theorem steps_keep_shape n g nx ny nz :
  no_collaborators g -> well_shaped nx ny nz g = true ->
  exists g', steps n g = Ok g' /\ well_shaped nx ny nz g' = true /\
             no_collaborators g' /\ same_setup g g' /\
             timesteps_passed g' = timesteps_passed g + Z.of_nat n.
Proof.
  revert g. induction n as [|n IH]; intros g Hn Hw.
  - exists g. cbn [steps]. split; [reflexivity|]. split; [exact Hw|].
    split; [exact Hn|]. split; [unfold same_setup; repeat split | lia].
  - destruct (step_bare_invariant g nx ny nz Hn Hw)
      as (g1 & Hs & Hw1 & Hn1 & (H1 & H2 & H3 & H4 & H5) & Ht1).
    destruct (IH g1 Hn1 Hw1)
      as (g' & Hs' & Hw' & Hn' & (H1' & H2' & H3' & H4' & H5') & Ht').
    exists g'. cbn [steps]. rewrite Hs. cbn [bind].
    split; [exact Hs'|]. split; [exact Hw'|]. split; [exact Hn'|].
    split; [unfold same_setup; repeat split; congruence | lia].
Qed.

End StepInvariant.

(** X8 at three steps of the sample grid. *)
Lemma steps_keep_shape_witness :
  exists g', steps 3 sample_grid = Ok g' /\ well_shaped 2 3 2 g' = true /\
             no_collaborators g' /\ same_setup sample_grid g' /\
             timesteps_passed g' = timesteps_passed sample_grid + Z.of_nat 3.
Proof. apply steps_keep_shape; [repeat split | reflexivity]. Defined.

(** ** Index keys *)
Section KeyFacts.
Context {S B O Dt : Type}.
Implicit Type g : Grid S B O Dt.

Lemma mapM_handle_distance_ints g l :
  mapM (Grid__handle_distance g) (map PyInt l) = Ok l.
Proof.
  induction l as [|n l IH]; cbn [map mapM Grid__handle_distance bind];
    [reflexivity|]. now rewrite IH.
Qed.

(** X9. [_handle_single_key] leaves a resolved key as it is: a list of
    ints comes back as the same list, a slice with int or None bounds as
    the same slice. *)
Theorem handle_single_key_resolved g r :
  Grid__handle_single_key g (key_of_resolved r) = Ok r.
Proof.
  destruct r as [l|start stop step]; cbn [key_of_resolved Grid__handle_single_key].
  - now rewrite mapM_handle_distance_ints.
  - unfold Grid__handle_slice.
    destruct start, stop, step; reflexivity.
Qed.

(** X10. [grid[key] = attr] with a tuple key of no entry or of more
    than three entries is a KeyError, whatever [attr] is, and [attr] is
    not registered. *)
Theorem setitem_key_count {A : Type}
        (register : A -> Grid S B O Dt -> option ListOrSlice ->
                    option ListOrSlice -> option ListOrSlice ->
                    result (A * Grid S B O Dt))
        g ks attr :
  (length ks = 0 \/ 3 < length ks)%nat ->
  Grid___setitem__ register g (ITuple ks) attr = Raise KeyError.
Proof.
  intros Hlen. unfold Grid___setitem__.
  destruct ks as [|k0 [|k1 [|k2 [|k3 ks]]]]; cbn [length] in Hlen;
    try lia; reflexivity.
Qed.

End KeyFacts.

(** X10 at [grid[0, 0, 0, 2] = source]. *)
Lemma setitem_key_count_witness :
  Grid___setitem__ (LineSource__register_grid sample_libm) line_grid
    (ITuple [KNum (PyInt 0); KNum (PyInt 0); KNum (PyInt 0); KNum (PyInt 2)])
    line_source
  = Raise KeyError.
Proof. apply setitem_key_count. right. apply Nat.ltb_lt. reflexivity. Defined.

(** ** Registration of a LineSource *)
Section RegistrationFacts.
Context {B O Dt : Type}.
Variable m : Libm.
Implicit Type grid : Grid LineSource.t B O Dt.

Lemma handle_slices_open x y z :
  has_open_bound x || has_open_bound y || has_open_bound z = true ->
  exists e, LineSource__handle_slices x y z = Raise e.
Proof.
  intros Hopen. unfold LineSource__handle_slices.
  destruct x as [[|hx lx]|[ax|] [bx|] cx], y as [[|hy ly]|[ay|] [by_|] cy],
           z as [[|hz lz]|[az|] [bz|] cz];
    cbn [has_open_bound orb] in Hopen; try discriminate Hopen;
    cbn [list_to_slice bind abs_diff]; eauto.
Qed.

Lemma register_slices_fail self grid x y z :
  (exists e, LineSource__handle_slices x y z = Raise e) ->
  exists e, LineSource__register_grid m self grid (Some x) (Some y) (Some z)
            = Raise e.
Proof.
  intros [e He]. unfold LineSource__register_grid.
  destruct (LineSource.name self) as [n|].
  - destruct (negb (hasattr grid n)); cbn [bind]; [|eauto].
    rewrite He. cbn [bind]. eauto.
  - cbn [bind]. rewrite He. cbn [bind]. eauto.
Qed.

(** X11. Registering a LineSource with a slice whose start or stop is
    None on any axis never succeeds. *)
Theorem register_open_slice_raises self grid x y z :
  has_open_bound x || has_open_bound y || has_open_bound z = true ->
  exists e, LineSource__register_grid m self grid (Some x) (Some y) (Some z)
            = Raise e.
Proof.
  intros Hopen. apply register_slices_fail. now apply handle_slices_open.
Qed.

(** X12. [grid[key] = LineSource(...)] with fewer than three axes
    never succeeds: the missing axes become [slice(None)]. *)
Theorem setitem_missing_axes_raises self grid key :
  few_keys key = true ->
  exists e, Grid___setitem__ (LineSource__register_grid m) grid key self
            = Raise e.
Proof.
  intros Hfew. unfold Grid___setitem__.
  assert (Hnone : Grid__handle_single_key grid slice_None
                  = Ok (LSlice None None None)) by reflexivity.
  destruct key as [k|[|k0 [|k1 [|k2 ks]]]]; try discriminate Hfew; cbn [bind].
  - destruct (Grid__handle_single_key grid k) as [x|e]; cbn [bind]; [|eauto].
    rewrite Hnone. cbn [bind]. apply register_slices_fail, handle_slices_open.
    cbn [has_open_bound]. now rewrite !orb_true_r.
  - destruct (Grid__handle_single_key grid k0) as [x|e]; cbn [bind]; [|eauto].
    rewrite Hnone. cbn [bind]. apply register_slices_fail, handle_slices_open.
    cbn [has_open_bound]. now rewrite !orb_true_r.
  - destruct (Grid__handle_single_key grid k0) as [x|e]; cbn [bind]; [|eauto].
    destruct (Grid__handle_single_key grid k1) as [y|e]; cbn [bind]; [|eauto].
    rewrite Hnone. cbn [bind]. apply register_slices_fail, handle_slices_open.
    cbn [has_open_bound]. now rewrite !orb_true_r.
Qed.

(** X13. Registering a LineSource on a line of length 0 (start equal
    to stop on every axis, at least one axis given as a slice) never
    succeeds. *)
Theorem register_degenerate_line_raises self grid x y z x0 y0 z0 :
  is_slice x || is_slice y || is_slice z = true ->
  list_to_slice x = Ok (Some x0, Some x0) ->
  list_to_slice y = Ok (Some y0, Some y0) ->
  list_to_slice z = Ok (Some z0, Some z0) ->
  exists e, LineSource__register_grid m self grid (Some x) (Some y) (Some z)
            = Raise e.
Proof.
  intros Hs Hx Hy Hz.
  assert (Hsl := handle_slices_line x y z _ _ _ _ _ _ Hs Hx Hy Hz).
  cbv zeta in Hsl. unfold line_length in Hsl.
  rewrite !Z.sub_diag in Hsl. cbn [Z.abs Z.max Z.compare] in Hsl.
  change (linspace x0 x0 0) with (@nil float) in Hsl.
  change (linspace y0 y0 0) with (@nil float) in Hsl.
  change (linspace z0 z0 0) with (@nil float) in Hsl.
  cbn [map] in Hsl.
  unfold LineSource__register_grid.
  destruct (LineSource.name self) as [n|].
  - destruct (negb (hasattr grid n)); cbn [bind]; [|eauto].
    rewrite Hsl. cbn [bind].
    destruct (Grid__handle_time grid (LineSource.period self)); cbn [bind fancy_index]; eauto.
  - cbn [bind]. rewrite Hsl. cbn [bind].
    destruct (Grid__handle_time grid (LineSource.period self)); cbn [bind fancy_index]; eauto.
Qed.

(** X14. A LineSource registered with three index lists has exactly
    these lists as its coordinates; the lists have one length, and it is
    not 0. *)
Theorem register_lists_kept self grid lx ly lz self' grid' :
  LineSource__register_grid m self grid
    (Some (LList lx)) (Some (LList ly)) (Some (LList lz)) = Ok (self', grid') ->
  LineSource.x self' = lx /\ LineSource.y self' = ly /\
  LineSource.z self' = lz /\
  length lx = length ly /\ length ly = length lz /\ (0 < length lx)%nat.
Proof.
  intros Hreg. apply register_Ok_full in Hreg.
  destruct Hreg as (names & xs & ys & zs & period & ipv & _ & Hsl & _ & Hip
                    & Hx & Hy & Hz & _).
  unfold LineSource__handle_slices in Hsl.
  destruct (Nat.eqb_spec (length lx) (length ly)) as [Hxy|]; [|discriminate].
  destruct (Nat.eqb_spec (length ly) (length lz)) as [Hyz|]; [|discriminate].
  destruct (Nat.eqb_spec (length lz) (length lx)) as [Hzx|]; [|discriminate].
  cbn [negb orb] in Hsl. injection Hsl as <- <- <-.
  repeat split; try assumption.
  destruct lx; [discriminate Hip | cbn [length]; lia].
Qed.

(** X15. A successful registration changes nothing of the grid but its
    source list and its named attributes. The source list is one entry
    longer and ends with the source; the source is the object it was, so
    every entry of the new list that is this object is the source as
    registered, and every earlier entry that is another object is kept
    in its place; power, phase shift and name of the source are kept. *)
Theorem register_frame self grid x y z self' grid' :
  LineSource__register_grid m self grid (Some x) (Some y) (Some z)
  = Ok (self', grid') ->
  (E grid' = E grid /\ H grid' = H grid /\
   inverse_permittivity grid' = inverse_permittivity grid /\
   inverse_permeability grid' = inverse_permeability grid /\
   timesteps_passed grid' = timesteps_passed grid) /\
  (grid_spacing grid' = grid_spacing grid /\
   courant_number grid' = courant_number grid /\
   timestep grid' = timestep grid /\
   Grid_shape grid' = Grid_shape grid /\ D grid' = D grid) /\
  (_boundaries grid' = _boundaries grid /\
   _detectors grid' = _detectors grid /\ _objects grid' = _objects grid) /\
  (same_object self' self = true /\
   LineSource.power self' = LineSource.power self /\
   LineSource.phase_shift self' = LineSource.phase_shift self /\
   LineSource.name self' = LineSource.name self) /\
  (length (_sources grid') = Datatypes.S (length (_sources grid)) /\
   nth_error (_sources grid') (length (_sources grid)) = Some self' /\
   (forall s, In s (_sources grid') -> same_object s self = true ->
              s = self') /\
   (forall n s, nth_error (_sources grid) n = Some s ->
                nth_error (_sources grid') n
                = Some (if same_object s self then self' else s))).
Proof.
  intros Hreg. apply register_Ok_full in Hreg.
  destruct Hreg as (names & xs & ys & zs & period & ipv & _ & _ & _ & _
                    & _ & _ & _ & _ & Hpow & Hph & Hname & Hid & _ & ->).
  assert (Hsame : forall s, same_object s self' = same_object s self).
  { intros s. unfold same_object. now rewrite Hid. }
  assert (Hlen : length (reassigned self' (_sources grid))
                 = length (_sources grid)).
  { unfold reassigned. apply length_map. }
  unfold Grid_shape. grid_simpl.
  split; [repeat split|]. split; [repeat split|]. split; [repeat split|].
  split.
  { repeat split; try assumption. unfold same_object. rewrite Hid.
    apply Nat.eqb_refl. }
  split; [|split; [|split]].
  - rewrite length_app, Hlen. cbn [length]. lia.
  - rewrite nth_error_app2 by lia. rewrite Hlen, Nat.sub_diag. reflexivity.
  - intros s Hin Hs. apply in_app_or in Hin. destruct Hin as [Hin|Hin].
    + unfold reassigned in Hin. apply in_map_iff in Hin.
      destruct Hin as (s0 & Hs0 & _).
      destruct (same_object s0 self') eqn:H0; [now symmetry|].
      subst s0. rewrite Hsame in H0. congruence.
    + destruct Hin as [Hin|[]]. now symmetry.
  - intros n s Hn.
    assert (Hlt : (n < length (_sources grid))%nat).
    { apply nth_error_Some. congruence. }
    rewrite nth_error_app1 by lia. unfold reassigned.
    rewrite nth_error_map, Hn. cbn [option_map]. now rewrite Hsame.
Qed.

(** X16. Once a named LineSource is registered, registering any source
    of the same name on the resulting grid is a ValueError. *)
Theorem register_name_once self grid x y z self' grid' n :
  LineSource__register_grid m self grid (Some x) (Some y) (Some z)
  = Ok (self', grid') ->
  LineSource.name self = Some n ->
  forall other x2 y2 z2,
    LineSource.name other = Some n ->
    LineSource__register_grid m other grid' (Some x2) (Some y2) (Some z2)
    = Raise ValueError.
Proof.
  intros Hreg Hn other x2 y2 z2 Hother. apply register_Ok_full in Hreg.
  destruct Hreg as (names & xs & ys & zs & period & ipv & Hnames & _ & _ & _
                    & _ & _ & _ & _ & _ & _ & _ & _ & _ & ->).
  rewrite Hn in Hnames. destruct Hnames as [_ ->].
  unfold LineSource__register_grid. rewrite Hother.
  assert (Hhas : forall l,
            hasattr (set__sources (set_named grid (named grid ++ [n])) l) n
            = true).
  { intros l. unfold hasattr. grid_simpl. rewrite existsb_app. cbn [existsb].
    rewrite String.eqb_refl. now rewrite !orb_true_r. }
  rewrite Hhas. reflexivity.
Qed.

(** X17. The coordinates of a registered LineSource are in range: on a
    grid whose permittivity array has the shape (nx, ny, nz, 3), the
    injection loop of [update_E] succeeds on every array of that shape
    and keeps the shape. *)
Theorem registered_injection_succeeds self grid x y z self' grid' nx ny nz T vect :
  LineSource__register_grid m self grid (Some x) (Some y) (Some z)
  = Ok (self', grid') ->
  has_shape nx ny nz (inverse_permittivity grid) = true ->
  has_shape nx ny nz T = true ->
  exists T',
    inject T (LineSource.x self') (LineSource.y self') (LineSource.z self') vect
    = Ok T' /\ has_shape nx ny nz T' = true.
Proof.
  intros Hreg Hip HT. apply register_Ok_full in Hreg.
  destruct Hreg as (names & xs & ys & zs & period & ipv & _ & _ & _ & Hfi
                    & -> & -> & -> & _).
  apply has_shape_P in Hip, HT.
  assert (Hg : gather (inverse_permittivity grid) xs ys zs 2 = Ok ipv).
  { unfold fancy_index in Hfi. destruct xs; [discriminate|exact Hfi]. }
  destruct (gather_inject nx ny nz _ xs ys zs ipv T vect Hip Hg HT) as (T' & Hinj & HT').
  exists T'. split; [exact Hinj|]. now apply shape4P_has_shape.
Qed.

(** X18. A LineSource of period 0 registers, and then each of its
    [update_E] calls raises: ZeroDivisionError, or OverflowError when the
    step counter is too large for a float. *)
Theorem zero_period_update_raises self grid x y z self' grid' :
  LineSource__register_grid m self grid (Some x) (Some y) (Some z)
  = Ok (self', grid') ->
  LineSource.period self = PyInt 0 ->
  forall G : Grid LineSource.t B O Dt,
    LineSource_update_E m self' G = Raise ZeroDivisionError \/
    LineSource_update_E m self' G = Raise OverflowError.
Proof.
  intros Hreg Hper G. apply register_Ok_full in Hreg.
  destruct Hreg as (names & xs & ys & zs & period & ipv & _ & _ & Ht & _
                    & _ & _ & _ & Hp' & _).
  rewrite Hper in Ht. cbn [Grid__handle_time] in Ht. injection Ht as <-.
  unfold LineSource_update_E. rewrite Hp'.
  destruct (float_ (PyInt (timesteps_passed G))) as [q|e] eqn:Hq; cbn [bind].
  - left. reflexivity.
  - right. unfold float_ in Hq.
    destruct (is_infinity (Z2F (timesteps_passed G))); congruence.
Qed.

End RegistrationFacts.

(** X11 at the slice [:10]. *)
Lemma register_open_slice_raises_witness :
  exists e,
    LineSource__register_grid sample_libm line_source line_grid
      (Some (LSlice None (Some 10) None)) (Some (LList [0])) (Some (LList [0]))
    = Raise e.
Proof.
  exact (register_open_slice_raises sample_libm line_source line_grid
           (LSlice None (Some 10) None) (LList [0]) (LList [0]) eq_refl).
Defined.

(** X12 at [grid[0:10, 0] = source]. *)
Lemma setitem_missing_axes_raises_witness :
  exists e,
    Grid___setitem__ (LineSource__register_grid sample_libm) line_grid
      (ITuple [KSlice (Some (PyInt 0)) (Some (PyInt 10)) None; KNum (PyInt 0)])
      line_source
    = Raise e.
Proof.
  exact (setitem_missing_axes_raises sample_libm line_source line_grid
           (ITuple [KSlice (Some (PyInt 0)) (Some (PyInt 10)) None;
                    KNum (PyInt 0)]) eq_refl).
Defined.

(** X13 at the slice [3:3]. *)
Lemma register_degenerate_line_raises_witness :
  exists e,
    LineSource__register_grid sample_libm line_source line_grid
      (Some (LSlice (Some 3) (Some 3) None)) (Some (LList [0])) (Some (LList [0]))
    = Raise e.
Proof.
  exact (register_degenerate_line_raises sample_libm line_source line_grid
           (LSlice (Some 3) (Some 3) None) (LList [0]) (LList [0]) 3 0 0
           eq_refl eq_refl eq_refl eq_refl).
Defined.

(** X14 at [grid[[1, 2, 4], [0, 1, 0], [0, 0, -1]] = source]. *)
Lemma register_lists_kept_witness :
  LineSource.x (fst list_attached) = [1; 2; 4] /\
  LineSource.y (fst list_attached) = [0; 1; 0] /\
  LineSource.z (fst list_attached) = [0; 0; -1] /\
  length [1; 2; 4] = length [0; 1; 0] /\
  length [0; 1; 0] = length [0; 0; -1] /\ (0 < length [1; 2; 4])%nat.
Proof.
  apply (register_lists_kept sample_libm
           (LineSource.__init__ 2 (PyInt 0) 1 0 None) line_grid
           [1; 2; 4] [0; 1; 0] [0; 0; -1] (fst list_attached) (snd list_attached)).
  vm_compute. reflexivity.
Defined.

(** X15 at the second attachment of a source, [grid[0:3, 1, 0] = source]
    after [grid[[1, 2, 4], [0, 1, 0], [0, 0, -1]] = source]. *)
Lemma register_frame_witness :
  let self := fst list_attached in
  let grid := snd list_attached in
  let self' := fst twice_attached in
  let grid' := snd twice_attached in
  (E grid' = E grid /\ H grid' = H grid /\
   inverse_permittivity grid' = inverse_permittivity grid /\
   inverse_permeability grid' = inverse_permeability grid /\
   timesteps_passed grid' = timesteps_passed grid) /\
  (grid_spacing grid' = grid_spacing grid /\
   courant_number grid' = courant_number grid /\
   timestep grid' = timestep grid /\
   Grid_shape grid' = Grid_shape grid /\ D grid' = D grid) /\
  (_boundaries grid' = _boundaries grid /\
   _detectors grid' = _detectors grid /\ _objects grid' = _objects grid) /\
  (same_object self' self = true /\
   LineSource.power self' = LineSource.power self /\
   LineSource.phase_shift self' = LineSource.phase_shift self /\
   LineSource.name self' = LineSource.name self) /\
  (length (_sources grid') = Datatypes.S (length (_sources grid)) /\
   nth_error (_sources grid') (length (_sources grid)) = Some self' /\
   (forall s, In s (_sources grid') -> same_object s self = true ->
              s = self') /\
   (forall n s, nth_error (_sources grid) n = Some s ->
                nth_error (_sources grid') n
                = Some (if same_object s self then self' else s))).
Proof.
  apply (register_frame sample_libm (fst list_attached) (snd list_attached)
           (LSlice (Some 0) (Some 3) None) (LList [1]) (LList [0])).
  vm_compute. reflexivity.
Defined.

(** X16 at a second source named like the first. *)
Lemma register_name_once_witness :
  LineSource__register_grid sample_libm
    (LineSource.__init__ 3 (PyInt 20) 2 0 (Some "source"%string))
    (snd line_attached) (Some (LList [0])) (Some (LList [0])) (Some (LList [0]))
  = Raise ValueError.
Proof.
  apply (register_name_once sample_libm line_source line_grid
           (LSlice (Some 0) (Some 10) None) (LList [0]) (LList [0])
           (fst line_attached) (snd line_attached) "source"%string).
  - vm_compute. reflexivity.
  - reflexivity.
  - reflexivity.
Defined.

(** X17 at the ten points of [grid[0:10, 0, 0] = source]. *)
Lemma registered_injection_succeeds_witness :
  exists T',
    inject (full 0 12 2 1) (LineSource.x (fst line_attached))
           (LineSource.y (fst line_attached)) (LineSource.z (fst line_attached))
           [1; 2; 3]%float
    = Ok T' /\ has_shape 12 2 1 T' = true.
Proof.
  apply (registered_injection_succeeds sample_libm line_source line_grid
           (LSlice (Some 0) (Some 10) None) (LList [0]) (LList [0])
           (fst line_attached) (snd line_attached) 12 2 1).
  - vm_compute. reflexivity.
  - vm_compute. reflexivity.
  - vm_compute. reflexivity.
Defined.

(** X18 at [LineSource(period=0)]. *)
Lemma zero_period_update_raises_witness :
  LineSource_update_E sample_libm (fst list_attached) (snd list_attached)
  = Raise ZeroDivisionError \/
  LineSource_update_E sample_libm (fst list_attached) (snd list_attached)
  = Raise OverflowError.
Proof.
  apply (zero_period_update_raises sample_libm
           (LineSource.__init__ 2 (PyInt 0) 1 0 None) line_grid
           (LList [1; 2; 4]) (LList [0; 1; 0]) (LList [0; 0; -1])
           (fst list_attached) (snd list_attached)).
  - vm_compute. reflexivity.
  - reflexivity.
Defined.

(** ** [run] and [_handle_time] *)
Section RunFacts.
Context {S B O Dt : Type}.
Context {sources : SourceClass S B O Dt} {boundaries : BoundaryClass S B O Dt}
        {objects : ObjectClass S B O Dt} {detectors : DetectorClass S B O Dt}.
Implicit Type g : Grid S B O Dt.

Lemma steps_add n k : forall g,
  steps (n + k) g = (g1 <- steps n g ;; steps k g1).
Proof.
  induction n as [|n IH]; intros g; cbn [steps Nat.add bind].
  - reflexivity.
  - destruct (Grid_step g) as [g1|e]; cbn [bind]; [apply IH|reflexivity].
Qed.

(** X19. For non-negative ints, [run(a + b)] is [run(a)] followed by
    [run(b)], errors included. *)
Theorem run_compose g a b pa pb pab :
  0 <= a -> 0 <= b ->
  Grid_run g (PyInt (a + b)) pab
  = (g1 <- Grid_run g (PyInt a) pa ;; Grid_run g1 (PyInt b) pb).
Proof.
  intros Ha Hb. unfold Grid_run, run_count. cbn [bind int_].
  rewrite Z2Nat.inj_add by assumption. apply steps_add.
Qed.

(** X20. [run] with a count that is zero or negative takes no step and
    leaves the grid as it is, whatever its collaborators are. *)
Theorem run_nonpositive g total_time progress_bar n :
  run_count g total_time = Ok n -> n <= 0 ->
  Grid_run g total_time progress_bar = Ok g.
Proof.
  intros Hn Hle. unfold Grid_run. rewrite Hn. cbn [bind].
  replace (Z.to_nat n) with 0%nat by lia. reflexivity.
Qed.

(** X21. [_handle_time] returns an int as it is; a float time is a
    ZeroDivisionError when the timestep is zero, and otherwise
    [floor(time / timestep + 0.5)] when that is not negative, and an error
    when [time / timestep + 0.5] is NaN or an infinity. *)
Theorem handle_time_rounding g :
  (forall n, Grid__handle_time g (PyInt n) = Ok n) /\
  (forall t, PrimFloat.eqb (timestep g) 0 = true ->
     Grid__handle_time g (PyFloat t) = Raise ZeroDivisionError) /\
  (forall t z, PrimFloat.eqb (timestep g) 0 = false ->
     floor_of_float (t / timestep g + 0.5) = Some z -> 0 <= z ->
     Grid__handle_time g (PyFloat t) = Ok z) /\
  (forall t, PrimFloat.eqb (timestep g) 0 = false ->
     floor_of_float (t / timestep g + 0.5) = None ->
     exists e, Grid__handle_time g (PyFloat t) = Raise e).
Proof.
  split; [reflexivity|]. split; [|split].
  - intros t Ht. unfold Grid__handle_time, float_, truediv. cbn [bind].
    now rewrite Ht.
  - intros t z Ht Hfl Hz. unfold Grid__handle_time, float_, truediv.
    cbn [bind]. rewrite Ht. cbn [bind].
    now apply (proj1 (int_of_float_floor _ _ Hfl)).
  - intros t Ht Hfl. unfold Grid__handle_time, float_, truediv.
    cbn [bind]. rewrite Ht. cbn [bind].
    unfold floor_of_float in Hfl. unfold int_of_float.
    destruct (Prim2SF (t / timestep g + 0.5)); try discriminate; eauto.
Qed.

End RunFacts.

(** X19 at [run(2)] and [run(3)] on the sample grid. *)
Lemma run_compose_witness :
  Grid_run sample_grid (PyInt (2 + 3)) true
  = (g1 <- Grid_run sample_grid (PyInt 2) false ;; Grid_run g1 (PyInt 3) true).
Proof.
  apply (run_compose sample_grid 2 3 false true true); lia.
Defined.

(** X20 at [run(-0.75)] on the sample grid (timestep 0.25). *)
Lemma run_nonpositive_witness :
  Grid_run sample_grid (PyFloat (-0.75)) true = Ok sample_grid.
Proof.
  apply (run_nonpositive sample_grid (PyFloat (-0.75)) true (-3)).
  - vm_compute. reflexivity.
  - lia.
Defined.

(** X21 at a timestep of one second: 2.5 seconds are 3 steps. *)
Lemma handle_time_rounding_witness :
  Grid__handle_time unit_time_grid (PyFloat 2.5) = Ok 3.
Proof.
  apply (proj1 (proj2 (proj2 (handle_time_rounding unit_time_grid))) 2.5%float 3).
  - vm_compute. reflexivity.
  - vm_compute. reflexivity.
  - lia.
Defined.

(** ** Line sources as collaborators of a grid *)
Section LineSourceCollaborator.
Context {B O Dt : Type}.
Context {boundaries : BoundaryClass LineSource.t B O Dt}
        {objects : ObjectClass LineSource.t B O Dt}
        {detectors : DetectorClass LineSource.t B O Dt}.
Variable m : Libm.
Implicit Type g : Grid LineSource.t B O Dt.

Lemma line_update_E_counter s :
  @counter_kept LineSource.t B O Dt (LineSource_update_E m s).
Proof.
  intros g g' Hu. apply update_E_inv in Hu.
  destruct Hu as (v & E' & _ & ->). reflexivity.
Qed.

Lemma line_update_H_foreach (l : list LineSource.t) g :
  foreach l (@LineSource_update_H B O Dt) g = Ok g.
Proof.
  induction l as [|s l IH]; cbn [foreach]; [reflexivity|].
  unfold LineSource_update_H at 1. cbn [bind]. exact IH.
Qed.

(** X22. Line sources take no part in [update_H]: on a grid without
    boundaries, objects and detectors it is the assignment to H alone,
    whatever sources are registered. *)
Theorem line_sources_leave_update_H g :
  _boundaries g = [] -> _objects g = [] -> _detectors g = [] ->
  Grid_update_H (sources := LineSource_class m) g = Ok (core_update_H g).
Proof.
  intros Hb Ho Hd. unfold Grid_update_H, core_update_H.
  rewrite Hb. grid_simpl. rewrite Ho. grid_simpl. rewrite Hb. grid_simpl.
  cbn [source_update_H LineSource_class].
  rewrite line_update_H_foreach. grid_simpl. rewrite Hd. reflexivity.
Qed.

(** X23. On a grid whose sources are LineSources, and whose other
    collaborators leave the step counter alone, a [run] that returns has
    advanced [timesteps_passed] by [max(count, 0)]. *)
Theorem line_sources_run_counter g g' total_time progress_bar n :
  (forall b, counter_kept (boundary_update_phi_E b)) ->
  (forall b, counter_kept (boundary_update_phi_H b)) ->
  (forall b, counter_kept (boundary_update_E b)) ->
  (forall b, counter_kept (boundary_update_H b)) ->
  (forall o curl, counter_kept (object_update_E o curl)) ->
  (forall o curl, counter_kept (object_update_H o curl)) ->
  (forall d, counter_kept (detector_detect_E d)) ->
  (forall d, counter_kept (detector_detect_H d)) ->
  run_count g total_time = Ok n ->
  Grid_run (sources := LineSource_class m) g total_time progress_bar = Ok g' ->
  timesteps_passed g' = timesteps_passed g + Z.max 0 n.
Proof.
  intros H1 H2 H3 H4 H5 H6 H7 H8 Hn Hrun.
  unfold Grid_run in Hrun. rewrite Hn in Hrun. cbn [bind] in Hrun.
  apply (steps_counter (sources := LineSource_class m)) in Hrun.
  - rewrite Hrun. lia.
  - repeat split; try assumption.
    + intros s. apply line_update_E_counter.
    + intros s g0 g1 Hu. now injection Hu as <-.
Qed.

End LineSourceCollaborator.

(** X22 at the grid with the registered line source. *)
Lemma line_sources_leave_update_H_witness :
  Grid_update_H (sources := LineSource_class sample_libm) (snd line_attached)
  = Ok (core_update_H (snd line_attached)).
Proof.
  apply (line_sources_leave_update_H sample_libm (snd line_attached));
    reflexivity.
Defined.

(** X23 at [run(2)] on the grid with the registered line source. *)
Lemma line_sources_run_counter_witness :
  exists g',
    Grid_run (sources := LineSource_class sample_libm) (snd line_attached)
             (PyInt 2) true = Ok g' /\
    timesteps_passed g' = timesteps_passed (snd line_attached) + Z.max 0 2.
Proof.
  destruct (Grid_run (sources := LineSource_class sample_libm)
              (snd line_attached) (PyInt 2) true) as [g'|e] eqn:Hrun.
  - exists g'. split; [reflexivity|].
    apply (line_sources_run_counter sample_libm (snd line_attached) g'
             (PyInt 2) true 2); try (intros []); try reflexivity.
    exact Hrun.
  - vm_compute in Hrun. discriminate Hrun.
Defined.
